(** * Cranium [network.h]: a shallow embedding and its checked properties

    The C header [src/network.h] builds a feed-forward network out of
    layers and connections, runs a batch through it, scores the result
    and writes/reads the parameters as a text file.

    - C [int] values are [Z]; the program only counts layers, rows and
      columns with them and signed overflow is undefined in C, so no
      wrap-around is modelled.
    - C [double] values are the kernel's IEEE 754 binary64 floats, so
      [>], [==], [+], [*], [/] behave as they do in the compiled program
      (NaN included).  The libm functions [log], [exp], [tanh] and the
      [printf]/[sscanf] conversions are parameters of the model.
    - Pointers into the network ([Connection.from], [Connection.to]) are
      indices into the network's [layers] array, which is the store the
      forward pass mutates.
    - An [assert] that fails is the outcome [AssertionFailed]; reading an
      array outside its bounds or an uninitialised variable is the
      outcome [Undefined].
    - A text file is the list of its lines.  [fgets(buf, 50, fp)] is
      modelled on lines of at most 48 characters, which it takes whole:
      the properties of [readNetwork] are about the files [saveNetwork]
      writes or carry the hypothesis [fits_buffer]. *)

From Stdlib Require Import ZArith Bool List String Ascii Floats Lia.
From Stdlib Require Import DecimalString.
From stdpp Require Import base list list_numbers.
Import ListNotations.

Local Open Scope Z_scope.

(** ** Outcomes of a C call *)

Inductive result (A : Type) : Type :=
  | Ok (a : A)
  | AssertionFailed
  | Undefined.
Arguments Ok {A} a.
Arguments AssertionFailed {A}.
Arguments Undefined {A}.

#[global] Instance result_ret : MRet result := fun _ a => Ok a.
#[global] Instance result_bind : MBind result := fun _ _ f m =>
  match m with
  | Ok a => f a
  | AssertionFailed => AssertionFailed
  | Undefined => Undefined
  end.

(** [for (i = lo; i < hi; i++) s = body i s;] *)
Fixpoint for_loop {S : Type} (n : nat) (i : Z) (body : Z -> S -> result S) (s : S)
  : result S :=
  match n with
  | O => Ok s
  | Datatypes.S n' => s' ← body i s; for_loop n' (i + 1) body s'
  end.

Definition for_range {S : Type} (lo hi : Z) (body : Z -> S -> result S) (s : S)
  : result S :=
  for_loop (Z.to_nat (hi - lo)) lo body s.

(** [a[i]] read from a C array: outside the array the read is undefined. *)
Definition array_get {A : Type} (a : list A) (i : Z) : result A :=
  if i <? 0 then Undefined
  else match a !! Z.to_nat i with
       | Some x => Ok x
       | None => Undefined
       end.

(** [a[i] = x]. *)
Definition array_set {A : Type} (a : list A) (i : Z) (x : A) : result (list A) :=
  if (0 <=? i) && (i <? Z.of_nat (length a)) then Ok (<[Z.to_nat i := x]> a)
  else Undefined.

(** ** Doubles *)

(** C's [double] is the kernel's binary64 [float]. *)
Abbreviation double := float.

(** [(double) n] for an [int] n. *)
Definition double_of_int (n : Z) : double :=
  if n <? 0 then PrimFloat.opp (PrimFloat.of_uint63 (Uint63.of_Z (- n)))
  else PrimFloat.of_uint63 (Uint63.of_Z n).

(** The C operators on doubles. *)
Definition dgt (a b : double) : bool := PrimFloat.ltb b a.   (* a > b *)
Definition deq (a b : double) : bool := PrimFloat.eqb a b.   (* a == b *)
Definition is_nan (a : double) : bool := negb (PrimFloat.eqb a a).

(** [DBL_MIN] of <float.h>: the smallest positive normalised double, 2^-1022. *)
Definition DBL_MIN : double := 0x1p-1022%float.

(** Modelled from the spec: [MAX] comes from std_includes.h, which is not
    part of the sources; the spec reads it as the larger of its two
    arguments, written here as the usual macro [((a) > (b)) ? (a) : (b)]. *)
Definition MAX (a b : double) : double := if dgt a b then a else b.

(** ** Matrices (matrix.h) *)

Record Matrix : Type := mkMatrix {
  m_rows : Z;
  m_cols : Z;
  m_data : list (list double)
}.

(** [m->data[i][j]] *)
Definition mget (m : Matrix) (i j : Z) : result double :=
  row ← array_get (m_data m) i; array_get row j.

(** [m->data[i][j] = x] *)
Definition mset (m : Matrix) (i j : Z) (x : double) : result Matrix :=
  row ← array_get (m_data m) i;
  row' ← array_set row j x;
  d ← array_set (m_data m) i row';
  Ok (mkMatrix (m_rows m) (m_cols m) d).

(** The buffers of a matrix are allocated for [rows] by [cols] entries. *)
Definition wfMatrix (m : Matrix) : Prop :=
  0 < m_rows m /\ 0 < m_cols m /\
  Z.of_nat (length (m_data m)) = m_rows m /\
  Forall (fun row => Z.of_nat (length row) = m_cols m) (m_data m).

(** Modelled from the spec: matrix.h is not part of the sources.  Section 6
    of the spec lists what network.h consumes: a zero-filled buffer,
    [copy] (deep clone), [multiply] (standard product, requires
    [A.cols == B.rows]) and [addToEachRow] (broadcasts a [1 x cols] row);
    section 7 makes a shape mismatch an assertion failure. *)
Definition createMatrixZeroes (r c : Z) : Matrix :=
  mkMatrix r c (replicate (Z.to_nat r) (replicate (Z.to_nat c) 0%float)).

Definition copy (m : Matrix) : Matrix := m.

Definition dot (u v : list double) : double :=
  fold_left PrimFloat.add (zip_with PrimFloat.mul u v) 0%float.

Definition column (B : Matrix) (j : nat) : list double :=
  map (fun row => nth j row 0%float) (m_data B).

Definition multiply (A B : Matrix) : result Matrix :=
  if m_cols A =? m_rows B then
    Ok (mkMatrix (m_rows A) (m_cols B)
          (map (fun row => map (fun j => dot row (column B j))
                               (seq 0 (Z.to_nat (m_cols B))))
               (m_data A)))
  else AssertionFailed.

Definition addToEachRow (M b : Matrix) : result Matrix :=
  if (m_rows b =? 1) && (m_cols b =? m_cols M) then
    Ok (mkMatrix (m_rows M) (m_cols M)
          (map (fun row => map (fun j => PrimFloat.add (nth j row 0%float)
                                           (nth j (nth 0 (m_data b) []) 0%float))
                               (seq 0 (Z.to_nat (m_cols M))))
               (m_data M)))
  else AssertionFailed.

(** ** Activations (function.h) and layers (layer.h) *)

(** The activation catalog.  network.h compares activation function
    pointers with [sigmoid], [relu], [tanH] and [softmax]; [linear] is the
    catalog's identity, the entry that is none of those four. *)
Inductive Activation : Type := sigmoid | relu | tanH | softmax | linear.

Definition Activation_eqb (a b : Activation) : bool :=
  match a, b with
  | sigmoid, sigmoid | relu, relu | tanH, tanH
  | softmax, softmax | linear, linear => true
  | _, _ => false
  end.

Inductive LAYER_TYPE : Type := INPUT | HIDDEN | OUTPUT.

(** [activation] is [None] for the NULL pointer an INPUT layer carries. *)
Record Layer : Type := mkLayer {
  l_type : LAYER_TYPE;
  l_size : Z;
  l_activation : option Activation;
  l_input : Matrix
}.

(** [from] and [to] point into the network's layer array. *)
Record Connection : Type := mkConnection {
  c_from : Z;
  c_to : Z;
  c_weights : Matrix;
  c_bias : Matrix
}.

Record Network : Type := mkNetwork {
  numLayers : Z;
  layers : list Layer;
  numConnections : Z;
  connections : list Connection
}.

(** [layer->activation == f] on function pointers. *)
Definition activation_is (l : Layer) (f : Activation) : bool :=
  match l_activation l with
  | Some a => Activation_eqb a f
  | None => false
  end.

(** Modelled from the spec: layer.h is not part of the sources.  A layer has
    a role, a strictly positive size (section 3; a non-positive size is a
    fatal precondition failure, section 7), an activation and a stored
    input buffer, which starts as a zero-filled [1 x size] row: the check
    at the head of [forwardPass] reads its column count. *)
Definition createLayer (type : LAYER_TYPE) (size : Z) (activation : option Activation)
  : result Layer :=
  if 0 <? size then
    Ok (mkLayer type size activation (createMatrixZeroes 1 size))
  else AssertionFailed.

(** Modelled from the spec: a connection links two layers of the array and
    owns a [from.size x to.size] weight matrix and a [1 x to.size] bias
    (section 3). *)
Definition createConnection (ls : list Layer) (from to : Z) : result Connection :=
  lf ← array_get ls from;
  lt ← array_get ls to;
  Ok (mkConnection from to
        (createMatrixZeroes (l_size lf) (l_size lt))
        (createMatrixZeroes 1 (l_size lt))).

Definition fill (r c : Z) (f : Z -> Z -> double) : list (list double) :=
  map (fun i => map (fun j => f (Z.of_nat i) (Z.of_nat j)) (seq 0 (Z.to_nat c)))
      (seq 0 (Z.to_nat r)).

Section Construction.

(** Modelled from the spec: [initializeConnection] fills the weights and
    the bias "per some initialization policy" (section 6).  The policy
    is a parameter: the value it gives entry [(i, j)] of the weights, and
    entry [j] of the bias, of the connection that leaves layer [k]. *)
Variable init_weight : Z -> Z -> Z -> double.
Variable init_bias : Z -> Z -> double.

Definition initializeConnection (c : Connection) : Connection :=
  let w := c_weights c in
  let b := c_bias c in
  mkConnection (c_from c) (c_to c)
    (mkMatrix (m_rows w) (m_cols w)
       (fill (m_rows w) (m_cols w) (init_weight (c_from c))))
    (mkMatrix (m_rows b) (m_cols b)
       (fill (m_rows b) (m_cols b) (fun _ j => init_bias (c_from c) j))).

(** network.h:54 *)
Definition createNetwork (numFeatures numHiddenLayers : Z) (hiddenSizes : list Z)
    (hiddenActivations : list Activation) (numClasses : Z)
    (outputActivation : Activation) : result Network :=
  if (0 <? numFeatures) && (0 <=? numHiddenLayers) && (0 <? numClasses) then
    let nLayers := 2 + numHiddenLayers in
    ls ← for_range 0 nLayers (fun i ls =>
            if i =? 0 then
              l ← createLayer INPUT numFeatures None; Ok (ls ++ [l])
            else if i =? nLayers - 1 then
              l ← createLayer OUTPUT numClasses (Some outputActivation);
              Ok (ls ++ [l])
            else
              sz ← array_get hiddenSizes (i - 1);
              a ← array_get hiddenActivations (i - 1);
              l ← createLayer HIDDEN sz (Some a);
              Ok (ls ++ [l])) [];
    let nConnections := nLayers - 1 in
    cs ← for_range 0 nConnections (fun i cs =>
            c ← createConnection ls i (i + 1);
            Ok (cs ++ [initializeConnection c])) [];
    Ok (mkNetwork nLayers ls nConnections cs)
  else AssertionFailed.

End Construction.

(** ** Forward propagation, loss, prediction, accuracy *)

Definition set_input (l : Layer) (m : Matrix) : Layer :=
  mkLayer (l_type l) (l_size l) (l_activation l) m.

Section Evaluation.

(** libm: [exp], [tanh] and [log] of <math.h>. *)
Variable libm_exp : double -> double.
Variable libm_tanh : double -> double.
Variable libm_log : double -> double.

(** Modelled from the spec: function.h is not part of the sources.  Each
    catalog entry transforms the entries of a matrix in place,
    element-wise, or row-wise for [softmax] (spec, sections 1 and 6);
    the formulas are the textbook ones. *)
Definition transform (a : Activation) (d : list (list double)) : list (list double) :=
  match a with
  | sigmoid => map (map (fun x => 1 / (1 + libm_exp (- x)))%float) d
  | relu => map (map (fun x => MAX 0%float x)) d
  | tanH => map (map libm_tanh) d
  | softmax =>
      map (fun row =>
             let e := map libm_exp row in
             let s := fold_left PrimFloat.add e 0%float in
             map (fun x => x / s)%float e) d
  | linear => d
  end.

(** Modelled from the spec: [activateLayer] applies the layer's
    activation to its stored input in place (section 6).  A call through
    the NULL activation of an INPUT layer has no defined behaviour. *)
Definition activateLayer (l : Layer) : result Layer :=
  match l_activation l with
  | Some a =>
      let m := l_input l in
      Ok (set_input l (mkMatrix (m_rows m) (m_cols m) (transform a (m_data m))))
  | None => Undefined
  end.

(** network.h:88.  The network is mutated in place: the result is its
    state after the call. *)
Definition forwardPass (network : Network) (input : Matrix) : result Network :=
  l0 ← array_get (layers network) 0;
  if m_cols input =? m_cols (l_input l0) then
    ls0 ← array_set (layers network) 0 (set_input l0 (copy input));
    ls ← for_range 0 (numConnections network) (fun i ls =>
            li ← array_get ls i;
            ci ← array_get (connections network) i;
            tmp ← multiply (l_input li) (c_weights ci);
            tmp2 ← addToEachRow tmp (c_bias ci);
            lto ← array_get ls (c_to ci);
            lto' ← activateLayer (set_input lto tmp2);
            array_set ls (c_to ci) lto') ls0;
    Ok (mkNetwork (numLayers network) ls (numConnections network)
          (connections network))
  else AssertionFailed.

(** network.h:105.  [network] is [None] for a NULL pointer. *)
Definition crossEntropyLoss (network : option Network) (prediction actual : Matrix)
    (regularizationStrength : double) : result double :=
  if negb (m_rows prediction =? m_rows actual) then AssertionFailed
  else if negb (m_cols prediction =? m_cols actual) then AssertionFailed
  else
    total_err ← for_range 0 (m_rows prediction) (fun i total_err =>
        cur_err ← for_range 0 (m_cols prediction) (fun j cur_err =>
            a ← mget actual i j;
            p ← mget prediction i j;
            Ok (cur_err + a * libm_log (MAX DBL_MIN p))%float) 0%float;
        Ok (total_err + cur_err)%float) 0%float;
    reg_err ←
      match network with
      | Some net =>
          for_range 0 (numConnections net) (fun i reg_err =>
            c ← array_get (connections net) i;
            let weights := c_weights c in
            for_range 0 (m_rows weights) (fun j reg_err =>
              for_range 0 (m_cols weights) (fun k reg_err =>
                w ← mget weights j k;
                Ok (reg_err + w * w)%float) reg_err) reg_err) 0%float
      | None => Ok 0%float
      end;
    Ok (((-1.0 / double_of_int (m_rows actual)) * total_err)
        + (regularizationStrength * 0.5 * reg_err))%float.

(** network.h:131 *)
Definition predict (network : Network) : result (list Z) :=
  outputLayer ← array_get (layers network) (numLayers network - 1);
  for_range 0 (m_rows (l_input outputLayer)) (fun i predictions =>
      max ← for_range 1 (l_size outputLayer) (fun j max =>
          x ← mget (l_input outputLayer) i j;
          y ← mget (l_input outputLayer) i max;
          Ok (if dgt x y then j else max)) 0;
      Ok (predictions ++ [max])) [].

(** network.h:147.  [numCorrect] is a [double] that goes up by 1.0 for
    every hit, and the value is the double [numCorrect / classes->rows],
    with the [int] divisor converted to [double].  Returns the network's
    state after the call with the value. *)
Definition accuracy (network : Network) (data classes : Matrix)
  : result (Network * double) :=
  if negb (m_rows data =? m_rows classes) then AssertionFailed
  else
    ol ← array_get (layers network) (numLayers network - 1);
    if negb (m_cols data =? l_size ol) then AssertionFailed
    else
      network' ← forwardPass network data;
      predictions ← predict network';
      numCorrect ← for_range 0 (m_rows data) (fun i numCorrect =>
          p ← array_get predictions i;
          c ← mget classes i p;
          Ok (if deq c 1%float then (numCorrect + 1)%float else numCorrect)) 0%float;
      Ok (network', (numCorrect / double_of_int (m_rows classes))%float).

End Evaluation.

(** ** Serialization *)

(** A text file is the list of its lines, without the line ends. *)
Abbreviation file := (list string).

(** The reader's view of an open file: the lines not yet read and the
    content of [buf] ([None] while [buf] is still uninitialised). *)
Abbreviation stream := (file * option string)%type.

(** [fgets(buf, 50, fp)] on a file whose lines have at most 48
    characters: the next line goes to [buf] whole, line end included; at
    the end of the file [buf] keeps its content.  A longer line would
    reach [buf] 49 characters at a time, which this definition does not
    do: what is proved of the reader is proved on the files [saveNetwork]
    writes, each line of which is one number or one name, or on files
    that satisfy [fits_buffer]. *)
Definition fgets (st : stream) : stream :=
  match st with
  | (line :: rest, _) => (rest, Some line)
  | ([], buf) => ([], buf)
  end.

Section Stdio.

(** The conversions of <stdio.h> this program uses: [fmt_d] and [fmt_la]
    are the text [fprintf] writes for ["%d"] and ["%la"]; [scan_d],
    [scan_la] and [scan_s] are what [sscanf] converts from a line for
    ["%d"], ["%la"] and ["%s"], [None] when it converts nothing. *)
Variable fmt_d : Z -> string.
Variable scan_d : string -> option Z.
Variable fmt_la : double -> string.
Variable scan_la : string -> option double.
Variable scan_s : string -> option string.

(** The name [saveNetwork] writes for a hidden layer (network.h:191-199). *)
Definition hidden_name (l : Layer) : string :=
  if activation_is l sigmoid then "sigmoid"
  else if activation_is l relu then "relu"
  else "tanH".

(** network.h:177.  The result is the content of the file at [path]. *)
Definition saveNetwork (network : Network) : result file :=
  let fp := [fmt_d (numLayers network)] in
  fp ← for_range 0 (numLayers network) (fun i fp =>
          l ← array_get (layers network) i;
          Ok (fp ++ [fmt_d (l_size l)])) fp;
  fp ← for_range 0 (numLayers network - 2) (fun i fp =>
          l ← array_get (layers network) (1 + i);
          Ok (fp ++ [hidden_name l])) fp;
  lo ← array_get (layers network) (numLayers network - 1);
  let fp := if activation_is lo softmax then fp ++ ["softmax"%string] else fp in
  fp ← for_range 0 (numConnections network) (fun k fp =>
          con ← array_get (connections network) k;
          for_range 0 (m_rows (c_weights con)) (fun i fp =>
            for_range 0 (m_cols (c_weights con)) (fun j fp =>
              x ← mget (c_weights con) i j;
              Ok (fp ++ [fmt_la x])) fp) fp) fp;
  fp ← for_range 0 (numConnections network) (fun k fp =>
          con ← array_get (connections network) k;
          for_range 0 (m_cols (c_bias con)) (fun i fp =>
            x ← mget (c_bias con) 0 i;
            Ok (fp ++ [fmt_la x])) fp) fp;
  Ok fp.

(** [fgets(buf, 50, fp); sscanf(buf, fmt, &x); memset(&buf[0], 0, 50);]
    The conversion sees [buf]; afterwards [buf] is the empty string. *)
Definition scan_line {A : Type} (scan : string -> option A) (st : stream)
  : result (stream * option A) :=
  match fgets st with
  | (fp, Some b) => Ok ((fp, Some EmptyString), scan b)
  | (_, None) => Undefined
  end.

(** The activation [readNetwork] takes for the content of [funcString]
    (network.h:253-264). *)
Definition activation_of_name (funcString : string) : Activation :=
  if String.eqb funcString "sigmoid" then sigmoid
  else if String.eqb funcString "relu" then relu
  else if String.eqb funcString "tanH" then tanH
  else softmax.

(** A local C variable: [None] until it is assigned. *)
Definition read_var {A : Type} (x : option A) : result A :=
  match x with
  | Some a => Ok a
  | None => Undefined
  end.

(** A variable-length array [T a[n]]: its size must be positive. *)
Definition vla {A : Type} (n : Z) : result (list (option A)) :=
  if 0 <? n then Ok (replicate (Z.to_nat n) None) else Undefined.

Variable init_weight : Z -> Z -> Z -> double.
Variable init_bias : Z -> Z -> double.

Definition set_weights (c : Connection) (w : Matrix) : Connection :=
  mkConnection (c_from c) (c_to c) w (c_bias c).

Definition set_bias (c : Connection) (b : Matrix) : Connection :=
  mkConnection (c_from c) (c_to c) (c_weights c) b.

(** network.h:289-299: the weights of every connection, row-major, one
    line each; a line that does not convert leaves the entry as it is. *)
Definition fill_in_weights (numConnections : Z) (s : stream * list Connection)
  : result (stream * list Connection) :=
  for_range 0 numConnections (fun k '(st, conns) =>
      con ← array_get conns k;
      '(st, w) ← for_range 0 (m_rows (c_weights con)) (fun i '(st, w) =>
          for_range 0 (m_cols (c_weights con)) (fun j '(st, w) =>
            '(st, r) ← scan_line scan_la st;
            w ← match r with
                 | Some x => mset w i j x
                 | None => Ok w
                 end;
            Ok (st, w)) (st, w)) (st, c_weights con);
      conns ← array_set conns k (set_weights con w);
      Ok (st, conns)) s.

(** network.h:301-309: the bias row of every connection. *)
Definition fill_in_bias (numConnections : Z) (s : stream * list Connection)
  : result (stream * list Connection) :=
  for_range 0 numConnections (fun k '(st, conns) =>
      con ← array_get conns k;
      '(st, b) ← for_range 0 (m_cols (c_bias con)) (fun i '(st, b) =>
          '(st, r) ← scan_line scan_la st;
          b ← match r with
               | Some x => mset b 0 i x
               | None => Ok b
               end;
          Ok (st, b)) (st, c_bias con);
      conns ← array_set conns k (set_bias con b);
      Ok (st, conns)) s.

(** network.h:228.  The argument is the content of the file at [path]. *)
Definition readNetwork (content : file) : result Network :=
  let st : stream := (content, None) in
  (* number of layers *)
  '(st, r) ← scan_line scan_d st;
  nLayers ← read_var r;
  (* layer sizes *)
  layerSizes ← vla nLayers;
  '(st, layerSizes) ← for_range 0 nLayers (fun i '(st, layerSizes) =>
      '(st, r) ← scan_line scan_d st;
      layerSizes ← match r with
                    | Some v => array_set layerSizes i (Some v)
                    | None => Ok layerSizes
                    end;
      Ok (st, layerSizes)) (st, layerSizes);
  (* activation functions *)
  funcs ← vla (nLayers - 1);
  '(st, (funcString, funcs)) ← for_range 0 (nLayers - 1)
    (fun i '(st, (funcString, funcs)) =>
      '(st, r) ← scan_line scan_s st;
      let funcString := match r with Some s => Some s | None => funcString end in
      s ← read_var funcString;
      funcs ← array_set funcs i (Some (activation_of_name s));
      Ok (st, (funcString, funcs))) (st, (None, funcs));
  (* network structure *)
  inputSize ← array_get layerSizes 0 ≫= read_var;
  outputSize ← array_get layerSizes (nLayers - 1) ≫= read_var;
  let numHiddenLayers := nLayers - 2 in
  outputFunc ← array_get funcs (nLayers - 2) ≫= read_var;
  network ←
    (if 0 <? numHiddenLayers then
       hiddenSizes ← for_range 0 (nLayers - 2) (fun i hiddenSizes =>
           v ← array_get layerSizes (1 + i) ≫= read_var;
           Ok (hiddenSizes ++ [v])) [];
       hiddenFuncs ← for_range 0 (nLayers - 2) (fun i hiddenFuncs =>
           f ← array_get funcs i ≫= read_var;
           Ok (hiddenFuncs ++ [f])) [];
       createNetwork init_weight init_bias inputSize numHiddenLayers
         hiddenSizes hiddenFuncs outputSize outputFunc
     else
       createNetwork init_weight init_bias inputSize 0 [] [] outputSize outputFunc);
  (* weights, then bias *)
  s ← fill_in_weights (numConnections network) (st, connections network);
  '(st, conns) ← fill_in_bias (numConnections network) s;
  Ok (mkNetwork (numLayers network) (layers network) (numConnections network) conns).

End Stdio.

(** * The data model's invariants (spec, section 3) *)

(** A layer's size is positive and its stored input has one column per unit. *)
Definition wfLayer (l : Layer) : Prop :=
  0 < l_size l /\ wfMatrix (l_input l) /\ m_cols (l_input l) = l_size l.

(** [c] links [ls[i]] to [ls[i+1]], with weights of shape
    [ls[i].size x ls[i+1].size] and a bias of shape [1 x ls[i+1].size]. *)
Definition links (ls : list Layer) (i : Z) (c : Connection) : Prop :=
  exists lf lt,
    array_get ls i = Ok lf /\ array_get ls (i + 1) = Ok lt /\
    c_from c = i /\ c_to c = i + 1 /\
    wfMatrix (c_weights c) /\
    m_rows (c_weights c) = l_size lf /\ m_cols (c_weights c) = l_size lt /\
    wfMatrix (c_bias c) /\
    m_rows (c_bias c) = 1 /\ m_cols (c_bias c) = l_size lt.

(** [ls[i]] has the given role, size and activation. *)
Definition layer_is (ls : list Layer) (i : Z) (type : LAYER_TYPE) (size : Z)
    (act : option Activation) : Prop :=
  exists l, array_get ls i = Ok l /\
    l_type l = type /\ l_size l = size /\ l_activation l = act.

(** The role of the layer at index [i] among [L] layers. *)
Definition role_at (L i : Z) : LAYER_TYPE :=
  if i =? 0 then INPUT else if i =? L - 1 then OUTPUT else HIDDEN.

Record wfNetwork (n : Network) : Prop := mk_wfNetwork {
  wf_layers_len : Z.of_nat (length (layers n)) = numLayers n;
  wf_numLayers : 2 <= numLayers n;
  wf_conns_len : Z.of_nat (length (connections n)) = numConnections n;
  wf_numConnections : numConnections n = numLayers n - 1;
  wf_layers : Forall wfLayer (layers n);
  wf_activations : forall i l,
    1 <= i -> array_get (layers n) i = Ok l -> l_activation l <> None;
  wf_links : forall i c,
    array_get (connections n) i = Ok c -> links (layers n) i c;
  wf_roles : forall i l,
    array_get (layers n) i = Ok l ->
    l_type l = role_at (numLayers n) i /\ (i = 0 -> l_activation l = None)
}.

(** [l'] is the layer [l] holding another stored input. *)
Definition same_layer (l l' : Layer) : Prop :=
  l_type l' = l_type l /\ l_size l' = l_size l /\ l_activation l' = l_activation l.

(** The state of the layer array while [forwardPass] runs on [network]
    with the batch [input], before iteration [i]: every layer is one of
    [network] with a well-shaped stored input, and the layers up to [i]
    hold as many rows as the batch. *)
Definition forward_inv (network : Network) (input : Matrix) (i : Z)
    (ls : list Layer) : Prop :=
  Z.of_nat (length ls) = numLayers network /\
  forall j l, array_get ls j = Ok l ->
    wfLayer l /\
    (exists l0, array_get (layers network) j = Ok l0 /\ same_layer l0 l) /\
    (j <= i -> m_rows (l_input l) = m_rows input).

(** What [forwardPass] stores in the target of the connection [c] when
    the source holds [m]: the product with the weights, the bias added to
    every row, and the target's activation [a] applied to the sum. *)
Definition propagate (libm_exp libm_tanh : double -> double) (c : Connection)
    (a : Activation) (m : Matrix) : result Matrix :=
  tmp ← multiply m (c_weights c);
  tmp2 ← addToEachRow tmp (c_bias c);
  Ok (mkMatrix (m_rows tmp2) (m_cols tmp2)
        (transform libm_exp libm_tanh a (m_data tmp2))).

(** The stored inputs while [forwardPass] runs, before iteration [i]:
    layer 0 holds the batch, and the target of every connection before
    [i] holds what that connection computes from its source. *)
Definition forward_values (libm_exp libm_tanh : double -> double) (network : Network)
    (input : Matrix) (i : Z) (ls : list Layer) : Prop :=
  (exists l0, array_get ls 0 = Ok l0 /\ l_input l0 = input) /\
  forall k c lk lt a, 0 <= k < i ->
    array_get (connections network) k = Ok c ->
    array_get ls k = Ok lk -> array_get ls (k + 1) = Ok lt ->
    l_activation lt = Some a ->
    propagate libm_exp libm_tanh c a (l_input lk) = Ok (l_input lt).

(** * What [predict] promises for one row *)

(** [row[j]], for [j] inside the row. *)
Definition entry (row : list double) (j : Z) : double := nth (Z.to_nat j) row 0%float.

(** None of the first [size] entries of [row] is NaN. *)
Definition nan_free (row : list double) (size : Z) : Prop :=
  forall j, 0 <= j < size -> is_nan (entry row j) = false.

(** No entry among the first [size] is strictly greater than entry [m]. *)
Definition unbeaten (row : list double) (size m : Z) : Prop :=
  forall j, 0 <= j < size -> dgt (entry row j) (entry row m) = false.

(** Entry [m] is the maximum of the first [size] entries, and the first
    entry that holds it. *)
Definition first_maximum (row : list double) (size m : Z) : Prop :=
  (forall j, 0 <= j < size -> PrimFloat.leb (entry row j) (entry row m) = true) /\
  (forall j, 0 <= j < m -> dgt (entry row m) (entry row j) = true).

(** A network after a forward pass whose output row holds a NaN (what
    softmax leaves behind when [exp] overflows) next to a 1. *)
Definition nan_row : list double := [nan; 1%float].

Definition nan_network : Network :=
  mkNetwork 2
    [mkLayer INPUT 1 None (mkMatrix 1 1 [[0%float]]);
     mkLayer OUTPUT 2 (Some softmax) (mkMatrix 1 2 [nan_row])]
    1
    [mkConnection 0 1 (mkMatrix 1 2 [[1%float; 1%float]])
       (mkMatrix 1 2 [[0%float; 0%float]])].

(** * What [accuracy] counts *)

(** Row [i] is a hit when the class matrix holds a 1 at the predicted
    column of that row. *)
Definition hit (classes : Matrix) (predictions : list Z) (i : nat) : bool :=
  deq (entry (nth i (m_data classes) []) (nth i predictions 0)) 1%float.

(** The number of hits among the first [k] rows. *)
Fixpoint hits (classes : Matrix) (predictions : list Z) (k : nat) : Z :=
  match k with
  | O => 0
  | S k' => hits classes predictions k'
            + (if hit classes predictions k' then 1 else 0)
  end.

(** * The loss formula in the spec's words *)

(** A sum of doubles, added up from 0 in list order. *)
Definition dsum (l : list double) : double := fold_left PrimFloat.add l 0%float.

(** [max(p, eps)] *)
Definition floor_at (eps p : double) : double := if PrimFloat.ltb p eps then eps else p.

(** [(-1/N) * sum_i sum_j actual[i][j] * ln(max(prediction[i][j], eps))],
    [N] the number of rows. *)
Definition mean_log_loss (ln : double -> double) (eps : double)
    (prediction actual : Matrix) : double :=
  (-1.0 / double_of_int (m_rows actual)
   * dsum (zip_with
             (fun arow prow =>
                dsum (zip_with (fun a p => a * ln (floor_at eps p)) arow prow))
             (m_data actual) (m_data prediction)))%float.

(** The sum of the squares of every entry of every connection's weight
    matrix (the biases take no part). *)
Definition sum_of_squares (net : Network) : double :=
  dsum (map (fun w => w * w)%float
          (concat (map (fun c => concat (m_data (c_weights c))) (connections net)))).

(** The L2 sum [crossEntropyLoss] accumulates: nothing without a network. *)
Definition penalty (network : option Network) : double :=
  match network with
  | Some net => sum_of_squares net
  | None => 0%float
  end.

(** The loss as the specification words it: the regularization term is
    [s * 0.5 * sum_of_squares] with a network and zero without. *)
Definition specified_loss (ln : double -> double) (eps : double)
    (network : option Network) (prediction actual : Matrix) (s : double) : double :=
  (mean_log_loss ln eps prediction actual
   + match network with
     | Some net => s * 0.5 * sum_of_squares net
     | None => 0
     end)%float.

(** The smallest positive double: the subnormal 2^-1074. *)
Definition smallest_positive : double := 0x1p-1074%float.

(** Neither an infinity nor NaN. *)
Definition finite (x : double) : bool :=
  match Prim2SF x with
  | S754_nan | S754_infinity _ => false
  | _ => true
  end.

(** A prediction and a one-hot target of one row and two classes. *)
Definition half_half : Matrix := mkMatrix 1 2 [[0.5%float; 0.5%float]].
Definition first_class : Matrix := mkMatrix 1 2 [[1%float; 0%float]].

(** The layers and connections [createNetwork] builds, in closed form. *)
Section Built.

Variable init_weight : Z -> Z -> Z -> double.
Variable init_bias : Z -> Z -> double.
Variables (numFeatures numHiddenLayers : Z) (hiddenSizes : list Z).
Variables (hiddenActivations : list Activation) (numClasses : Z).
Variable outputActivation : Activation.

Definition layer_at (i : Z) : Layer :=
  if i =? 0 then mkLayer INPUT numFeatures None (createMatrixZeroes 1 numFeatures)
  else if i =? 2 + numHiddenLayers - 1 then
    mkLayer OUTPUT numClasses (Some outputActivation) (createMatrixZeroes 1 numClasses)
  else
    let sz := nth (Z.to_nat (i - 1)) hiddenSizes 0 in
    mkLayer HIDDEN sz (Some (nth (Z.to_nat (i - 1)) hiddenActivations linear))
      (createMatrixZeroes 1 sz).

Definition connection_at (i : Z) : Connection :=
  initializeConnection init_weight init_bias
    (mkConnection i (i + 1)
       (createMatrixZeroes (l_size (layer_at i)) (l_size (layer_at (i + 1))))
       (createMatrixZeroes 1 (l_size (layer_at (i + 1))))).

(** What iteration [i] of the layer loop, and of the connection loop
    over the layers [ls], stores in slot [i]. *)
Definition layer_step (i : Z) : result Layer :=
  if i =? 0 then createLayer INPUT numFeatures None
  else if i =? 2 + numHiddenLayers - 1 then
    createLayer OUTPUT numClasses (Some outputActivation)
  else
    sz ← array_get hiddenSizes (i - 1);
    a ← array_get hiddenActivations (i - 1);
    createLayer HIDDEN sz (Some a).

Definition connection_step (ls : list Layer) (i : Z) : result Connection :=
  c ← createConnection ls i (i + 1);
  Ok (initializeConnection init_weight init_bias c).

Definition built : Network :=
  mkNetwork (2 + numHiddenLayers) (map layer_at (seqZ 0 (2 + numHiddenLayers)))
    (2 + numHiddenLayers - 1)
    (map connection_at (seqZ 0 (2 + numHiddenLayers - 1))).

End Built.

(** * Worked inputs *)

(** A network of two features and one class, and a batch and a class
    matrix of one row and one column each. *)
Definition two_to_one (init_weight : Z -> Z -> Z -> double) (init_bias : Z -> Z -> double)
  : Network :=
  built init_weight init_bias 2 0 [] [] 1 softmax.

Definition one_by_one : Matrix := mkMatrix 1 1 [[1%float]].


(** * The layout of a saved file *)

(** All weights in the order [saveNetwork] writes them: connection by
    connection, row-major. *)
Definition weight_values (n : Network) : list double :=
  concat (map (fun c => concat (m_data (c_weights c))) (connections n)).

(** All biases in the order [saveNetwork] writes them. *)
Definition bias_values (n : Network) : list double :=
  concat (map (fun c => nth 0 (m_data (c_bias c)) []) (connections n)).

(** The layers between the INPUT and the OUTPUT layer. *)
Definition hidden_layers (n : Network) : list Layer :=
  take (Z.to_nat (numLayers n - 2)) (drop 1 (layers n)).

(** The activation of the OUTPUT layer. *)
Definition output_activation (n : Network) : option Activation :=
  match array_get (layers n) (numLayers n - 1) with
  | Ok lo => l_activation lo
  | _ => None
  end.

(** The lines written for the output activation: its name when it is
    softmax, nothing otherwise. *)
Definition output_name (n : Network) : list string :=
  match output_activation n with
  | Some softmax => ["softmax"%string]
  | _ => []
  end.

Section Layout.

Variable fmt_d : Z -> string.
Variable scan_d : string -> option Z.
Variable fmt_la : double -> string.
Variable scan_la : string -> option double.
Variable scan_s : string -> option string.

(** The lines before the output activation's: layer count, sizes, hidden
    activation names. *)
Definition saved_head (n : Network) : file :=
  [fmt_d (numLayers n)]
  ++ map (fun l => fmt_d (l_size l)) (layers n)
  ++ map hidden_name (hidden_layers n).

(** The lines after it: weights, then biases. *)
Definition saved_parameters (n : Network) : file :=
  map fmt_la (weight_values n) ++ map fmt_la (bias_values n).

Definition saved (n : Network) : file :=
  saved_head n ++ output_name n ++ saved_parameters n.

(** The line that follows the hidden activation names: the reader takes
    it for the output activation's name. *)
Definition output_token (n : Network) : string :=
  nth 0 (output_name n ++ saved_parameters n) EmptyString.

(** The lines the reader takes for activation names. *)
Definition saved_tokens (n : Network) : list string :=
  map hidden_name (hidden_layers n) ++ [output_token n].

(** On the values the network [n] holds, [sscanf] reads back what
    [fprintf] wrote: the layer count and the sizes under ["%d"], the
    activation names and the text of each number as one token under
    ["%s"], and each weight and bias bit for bit under ["%la"]. *)
Definition stdio_faithful_on (n : Network) : Prop :=
  scan_d (fmt_d (numLayers n)) = Some (numLayers n) /\
  Forall (fun l => scan_d (fmt_d (l_size l)) = Some (l_size l)) (layers n) /\
  Forall (fun name => scan_s name = Some name)
    ["sigmoid"; "relu"; "tanH"; "softmax"]%string /\
  Forall (fun x => scan_s (fmt_la x) = Some (fmt_la x) /\ scan_la (fmt_la x) = Some x)
    (weight_values n ++ bias_values n).

End Layout.

(** What the parameter loops of [readNetwork] keep of a connection: its
    end points and the shapes of its matrices. *)
Definition same_dims (m0 m : Matrix) : Prop :=
  m_rows m = m_rows m0 /\ m_cols m = m_cols m0 /\ wfMatrix m.

Definition same_wiring (c0 c : Connection) : Prop :=
  c_from c = c_from c0 /\ c_to c = c_to c0 /\
  same_dims (c_weights c0) (c_weights c) /\ same_dims (c_bias c0) (c_bias c).

Definition wired_like (cs0 cs : list Connection) : Prop :=
  length cs = length cs0 /\
  forall k c0 c, array_get cs0 k = Ok c0 -> array_get cs k = Ok c -> same_wiring c0 c.

(** The network [readNetwork] constructs from the layer sizes and the
    activation tokens it has read: the first and last size for the INPUT
    and OUTPUT layers, the sizes and tokens between for the hidden layers,
    the last token for the output activation. *)
Definition read_built (init_weight : Z -> Z -> Z -> double) (init_bias : Z -> Z -> double)
    (sizes : list Z) (tokens : list string) : Network :=
  let L := Z.of_nat (length sizes) in
  built init_weight init_bias
    (nth 0 sizes 0) (L - 2)
    (take (Z.to_nat (L - 2)) (drop 1 sizes))
    (map activation_of_name (take (Z.to_nat (L - 2)) tokens))
    (nth (Z.to_nat (L - 1)) sizes 0)
    (activation_of_name (nth (Z.to_nat (L - 2)) tokens EmptyString)).

(** * Reference conversions

    One implementation of the <stdio.h> conversions, used to run the
    model on concrete files: ["%d"] in decimal, ["%la"] in the normalised
    hexadecimal form glibc prints ([0x1.8p+0]), ["%s"] as the first
    blank-delimited token.  The reference ["%la"] scanner reads
    hexadecimal constants, [inf] and [nan]. *)

Definition is_space (c : ascii) : bool :=
  match c with
  | " "%char | "009"%char | "010"%char | "011"%char | "012"%char | "013"%char => true
  | _ => false
  end.

Fixpoint skip_spaces (s : string) : string :=
  match s with
  | String c r => if is_space c then skip_spaces r else s
  | EmptyString => s
  end.

Fixpoint token (s : string) : string :=
  match s with
  | String c r => if is_space c then EmptyString else String c (token r)
  | EmptyString => EmptyString
  end.

Definition ref_scan_s (s : string) : option string :=
  match token (skip_spaces s) with
  | EmptyString => None
  | t => Some t
  end.

Definition digit_value (c : ascii) : option Z :=
  let n := Z.of_nat (nat_of_ascii c) in
  if (48 <=? n) && (n <=? 57) then Some (n - 48)
  else if (97 <=? n) && (n <=? 102) then Some (n - 87)
  else if (65 <=? n) && (n <=? 70) then Some (n - 55)
  else None.

(** The longest run of digits in base [base] at the head of [s]: its
    value, how many digits it has, and what follows. *)
Fixpoint digits (base : Z) (s : string) (acc : Z) (count : Z) : Z * Z * string :=
  match s with
  | String c r =>
      match digit_value c with
      | Some d => if d <? base then digits base r (base * acc + d) (count + 1)
                  else (acc, count, s)
      | None => (acc, count, s)
      end
  | EmptyString => (acc, count, s)
  end.

Definition signed (s : string) : bool * string :=
  match s with
  | String "-"%char r => (true, r)
  | String "+"%char r => (false, r)
  | _ => (false, s)
  end.

Definition scan_int (s : string) : option (Z * string) :=
  let '(neg, r) := signed s in
  let '(v, count, rest) := digits 10 r 0 0 in
  if count =? 0 then None else Some (if neg then - v else v, rest).

Definition ref_scan_d (s : string) : option Z :=
  option_map fst (scan_int (skip_spaces s)).

Definition ref_fmt_d (z : Z) : string := NilZero.string_of_int (Z.to_int z).

Definition hex_char (d : Z) : ascii :=
  nth (Z.to_nat d) (list_ascii_of_string "0123456789abcdef") "0"%char.

Fixpoint hex_fixed (width : nat) (n : Z) : list ascii :=
  match width with
  | O => []
  | S w => hex_fixed w (n / 16) ++ [hex_char (n mod 16)]
  end.

Fixpoint drop_zeros (l : list ascii) : list ascii :=
  match l with
  | "0"%char :: r => drop_zeros r
  | _ => l
  end.

(** The 52 fraction bits as hexadecimal digits, without trailing zeros,
    after the point; nothing for an empty fraction. *)
Definition fraction (frac : Z) : string :=
  match rev (drop_zeros (rev (hex_fixed 13 frac))) with
  | [] => EmptyString
  | ds => String "."%char (string_of_list_ascii ds)
  end.

Definition exponent (e : Z) : string :=
  ((if (e <? 0)%Z then "" else "+") ++ ref_fmt_d e)%string.

Definition ref_fmt_la (x : double) : string :=
  match Prim2SF x with
  | S754_zero s => ((if s then "-" else "") ++ "0x0p+0")%string
  | S754_infinity s => ((if s then "-" else "") ++ "inf")%string
  | S754_nan => "nan"%string
  | S754_finite s m e =>
      let m := Z.pos m in
      let digits :=
        if m <? 2 ^ 52 then ("0x0" ++ fraction m ++ "p-1022")%string
        else ("0x1" ++ fraction (m - 2 ^ 52) ++ "p" ++ exponent (e + 52))%string in
      ((if s then "-" else "") ++ digits)%string
  end.

Definition ref_scan_la (s : string) : option double :=
  let '(neg, r) := signed (skip_spaces s) in
  let sign (x : double) := if neg then PrimFloat.opp x else x in
  match r with
  | String "i"%char (String "n"%char (String "f"%char _)) => Some (sign infinity)
  | String "n"%char (String "a"%char (String "n"%char _)) => Some nan
  | String "0"%char (String "x"%char r) =>
      let '(h, hc, r) := digits 16 r 0 0 in
      let '(f, fc, r) :=
        match r with
        | String "."%char r => digits 16 r 0 0
        | _ => (0, 0, r)
        end in
      if hc + fc =? 0 then None
      else
        let mant := h * 16 ^ fc + f in
        let e := match r with
                 | String "p"%char r =>
                     match scan_int r with Some (e, _) => e | None => 0 end
                 | _ => 0
                 end in
        Some (sign (SF2Prim (binary_normalize prec emax mant (e - 4 * fc) false)))
  | _ => None
  end.


(** Polynomial stand-ins for [exp], [tanh] and [log], to run the examples;
    no property below depends on what libm computes. *)
Definition sample_exp (x : double) : double :=
  (1 + x * (1 + x / 2 * (1 + x / 3 * (1 + x / 4 * (1 + x / 5)))))%float.

Definition sample_tanh (x : double) : double :=
  ((sample_exp (2 * x) - 1) / (sample_exp (2 * x) + 1))%float.

Definition sample_log (x : double) : double :=
  let y := ((x - 1) / (x + 1))%float in
  (2 * y * (1 + y * y / 3 + y * y * y * y / 5))%float.

(** An initialization policy: every weight 0.5, every bias 0. *)
Definition sample_weight (k i j : Z) : double := 0.5%float.
Definition sample_bias (k j : Z) : double := 0%float.

(** A trained network of one input unit and one output unit with a
    sigmoid output: weight 1.5, bias 0.25. *)
Definition sigmoid_network : Network :=
  mkNetwork 2
    [mkLayer INPUT 1 None (createMatrixZeroes 1 1);
     mkLayer OUTPUT 1 (Some sigmoid) (createMatrixZeroes 1 1)]
    1
    [mkConnection 0 1 (mkMatrix 1 1 [[1.5%float]]) (mkMatrix 1 1 [[0.25%float]])].

(** The file [saveNetwork] writes for it. *)
Definition sigmoid_network_file : file :=
  ["2"; "1"; "1"; "0x1.8p+0"; "0x1p-2"]%string.

(** What [readNetwork] makes of that file under the policy
    [sample_weight], [sample_bias]: the output activation is softmax, the
    weight is the saved bias, the bias is the initial one. *)
Definition sigmoid_network_read : Network :=
  mkNetwork 2
    [mkLayer INPUT 1 None (createMatrixZeroes 1 1);
     mkLayer OUTPUT 1 (Some softmax) (createMatrixZeroes 1 1)]
    1
    [mkConnection 0 1 (mkMatrix 1 1 [[0.25%float]]) (mkMatrix 1 1 [[0%float]])].

(** A network with one hidden layer whose activation is softmax, and a
    softmax output. *)
Definition softmax_hidden_network : Network :=
  mkNetwork 3
    [mkLayer INPUT 1 None (createMatrixZeroes 1 1);
     mkLayer HIDDEN 1 (Some softmax) (createMatrixZeroes 1 1);
     mkLayer OUTPUT 1 (Some softmax) (createMatrixZeroes 1 1)]
    2
    [mkConnection 0 1 (mkMatrix 1 1 [[1.5%float]]) (mkMatrix 1 1 [[0.25%float]]);
     mkConnection 1 2 (mkMatrix 1 1 [[(-2)%float]]) (mkMatrix 1 1 [[1%float]])].

(** Two features, a hidden layer of three sigmoid units, two classes. *)
Definition small_network : Network :=
  built sample_weight sample_bias 2 1 [3] [sigmoid] 2 softmax.

(** Two features and two classes, no hidden layer. *)
Definition square_network : Network :=
  built sample_weight sample_bias 2 0 [] [] 2 softmax.

(** A batch of one row for two input units. *)
Definition one_row : Matrix := mkMatrix 1 2 [[1%float; 0%float]].

(** A batch of three rows for two input units. *)
Definition three_rows : Matrix :=
  mkMatrix 3 2 [[1%float; 0%float]; [0%float; 1%float]; [0.5%float; 0.5%float]].

(** A class matrix of one row that is not one-hot: every entry is 1. *)
Definition all_ones : Matrix := mkMatrix 1 2 [[1%float; 1%float]].

(** The same with three rows. *)
Definition three_ones : Matrix :=
  mkMatrix 3 2 [[1%float; 1%float]; [1%float; 1%float]; [1%float; 1%float]].

(** * Vocabulary of the further properties *)

(** Two calls end alike: both return and the values are related, or both
    stop on an assertion, or both are undefined. *)
Definition outcomes_agree {A : Type} (R : A -> A -> Prop) (r1 r2 : result A) : Prop :=
  match r1, r2 with
  | Ok a, Ok b => R a b
  | AssertionFailed, AssertionFailed => True
  | Undefined, Undefined => True
  | _, _ => False
  end.

(** The layer count [readNetwork] finds on the first line of a file:
    nothing for an empty file or a line ["%d"] does not convert. *)
Definition first_count (scan_d : string -> option Z) (content : file) : option Z :=
  match content with
  | [] => None
  | line :: _ => scan_d line
  end.

(** The number of weights and biases between layers of the given sizes:
    [a * b] weights and [b] biases for every two neighbours [a], [b]. *)
Fixpoint parameter_count (sizes : list Z) : Z :=
  match sizes with
  | a :: (b :: _) as rest => (a + 1) * b + parameter_count rest
  | _ => 0
  end.

(** One line for the output activation's name when it is softmax. *)
Definition output_lines (n : Network) : Z :=
  match output_activation n with
  | Some softmax => 1
  | _ => 0
  end.

(** Lines that ["%la"] converts nothing from. *)
Definition unreadable (scan_la : string -> option double) (fp : file) : Prop :=
  Forall (fun line => scan_la line = None) fp.

(** Lines that [fgets(buf, 50, fp)] takes in one piece, line end
    included: at most 48 characters.  The reader is modelled on such
    files; a longer line would reach it in pieces. *)
Definition fits_buffer (content : file) : Prop :=
  Forall (fun line => (String.length line < 49)%nat) content.

(** The binary64 representation of a positive integer below 2^53: the
    integer shifted to a mantissa of 53 bits, and the exponent that undoes
    the shift. *)
Definition int_repr (p : positive) : spec_float :=
  S754_finite false
    (Pos.shiftl p (Z.to_N (53 - Zpos (digits2_pos p))))
    (Zpos (digits2_pos p) - 53).

(** * Properties *)

(** ** The outcome monad and the loop combinator *)

Lemma bind_Ok {A B : Type} (a : A) (f : A -> result B) : (Ok a ≫= f) = f a.
Proof. reflexivity. Qed.

Lemma bind_Ok_inv {A B : Type} (m : result A) (f : A -> result B) (b : B) :
  (m ≫= f) = Ok b -> exists a, m = Ok a /\ f a = Ok b.
Proof. destruct m as [a| |]; simpl; intros H; try discriminate. eauto. Qed.

Lemma for_loop_ext {St : Type} (body body' : Z -> St -> result St) n lo s :
  (forall i s, lo <= i < lo + Z.of_nat n -> body i s = body' i s) ->
  for_loop n lo body s = for_loop n lo body' s.
Proof.
  revert lo s. induction n as [|n IH]; intros lo s H; simpl; [reflexivity|].
  rewrite H by lia. destruct (body' lo s) as [s'| |]; simpl; try reflexivity.
  apply IH. intros i s0 Hi. apply H. lia.
Qed.

(** The loop invariant rule: an invariant that every iteration carries one
    step further holds when the loop ends, and the loop does end. *)
Lemma for_loop_inv {St : Type} (P : Z -> St -> Prop) (body : Z -> St -> result St) n lo s :
  P lo s ->
  (forall i s, lo <= i < lo + Z.of_nat n -> P i s ->
     exists s', body i s = Ok s' /\ P (i + 1) s') ->
  exists s', for_loop n lo body s = Ok s' /\ P (lo + Z.of_nat n) s'.
Proof.
  revert lo s. induction n as [|n IH]; intros lo s H0 Hstep; simpl.
  - exists s. split; [reflexivity|]. replace (lo + Z.of_nat 0) with lo by lia. exact H0.
  - destruct (Hstep lo s) as (s1 & E1 & P1); [lia|exact H0|].
    rewrite E1. simpl.
    destruct (IH (lo + 1) s1 P1) as (s2 & E2 & P2).
    + intros i s0 Hi. apply Hstep. lia.
    + exists s2. split; [exact E2|].
      replace (lo + Z.of_nat (S n)) with (lo + 1 + Z.of_nat n) by lia. exact P2.
Qed.

Lemma for_range_inv {St : Type} (P : Z -> St -> Prop) (body : Z -> St -> result St) lo hi s :
  lo <= hi ->
  P lo s ->
  (forall i s, lo <= i < hi -> P i s -> exists s', body i s = Ok s' /\ P (i + 1) s') ->
  exists s', for_range lo hi body s = Ok s' /\ P hi s'.
Proof.
  intros Hle H0 Hstep. unfold for_range.
  destruct (for_loop_inv P body (Z.to_nat (hi - lo)) lo s H0) as (s' & E & HP).
  - intros i s0 Hi. apply Hstep. lia.
  - exists s'. split; [exact E|]. replace hi with (lo + Z.of_nat (Z.to_nat (hi - lo))) by lia.
    exact HP.
Qed.

Lemma for_range_empty {St : Type} (body : Z -> St -> result St) lo hi s :
  hi <= lo -> for_range lo hi body s = Ok s.
Proof.
  intros H. unfold for_range. replace (Z.to_nat (hi - lo)) with O by lia. reflexivity.
Qed.

(** A loop that appends one computed element per iteration. *)
Fixpoint collect {A : Type} (n : nat) (i : Z) (step : Z -> result A) : result (list A) :=
  match n with
  | O => Ok []
  | S n' => x ← step i; xs ← collect n' (i + 1) step; Ok (x :: xs)
  end.

Lemma for_loop_collect {A : Type} (step : Z -> result A) n lo (acc : list A) :
  for_loop n lo (fun i acc => x ← step i; Ok (acc ++ [x])) acc
  = (xs ← collect n lo step; Ok (acc ++ xs)).
Proof.
  revert lo acc. induction n as [|n IH]; intros lo acc; simpl.
  - rewrite app_nil_r. reflexivity.
  - destruct (step lo) as [x| |]; simpl; try reflexivity.
    rewrite IH. destruct (collect n (lo + 1) step) as [xs| |]; simpl; try reflexivity.
    rewrite <- app_assoc. reflexivity.
Qed.

Lemma collect_Ok {A : Type} (step : Z -> result A) (f : Z -> A) n lo :
  (forall i, lo <= i < lo + Z.of_nat n -> step i = Ok (f i)) ->
  collect n lo step = Ok (map f (seqZ lo (Z.of_nat n))).
Proof.
  revert lo. induction n as [|n IH]; intros lo H; [reflexivity|].
  cbn [collect]. rewrite H by lia. rewrite bind_Ok.
  rewrite IH by (intros; apply H; lia). rewrite bind_Ok.
  rewrite (seqZ_cons lo (Z.of_nat (S n))) by lia.
  replace (Z.pred (Z.of_nat (S n))) with (Z.of_nat n) by lia.
  replace (Z.succ lo) with (lo + 1) by lia. reflexivity.
Qed.

(** An iteration that aborts is reached unless an earlier one aborts. *)
Lemma collect_abort {A : Type} (step : Z -> result A) n lo k :
  lo <= k < lo + Z.of_nat n ->
  step k = AssertionFailed ->
  (forall i, lo <= i < k -> step i <> Undefined) ->
  collect n lo step = AssertionFailed.
Proof.
  revert lo. induction n as [|n IH]; intros lo Hk Hfail Hbefore; [lia|].
  cbn [collect]. destruct (Z.eq_dec lo k) as [->|Hne].
  - rewrite Hfail. reflexivity.
  - pose proof (Hbefore lo) as H0.
    destruct (step lo) as [x| |]; [|reflexivity|exfalso; apply H0; [lia|reflexivity]].
    rewrite bind_Ok, IH; [reflexivity|lia|exact Hfail|].
    intros i Hi. apply Hbefore. lia.
Qed.

(** ** Arrays *)

Lemma array_get_Ok {A : Type} (a : list A) (i : Z) (x : A) :
  array_get a i = Ok x <-> 0 <= i /\ a !! Z.to_nat i = Some x.
Proof.
  unfold array_get. destruct (Z.ltb_spec i 0).
  - split; [discriminate|lia].
  - destruct (a !! Z.to_nat i) as [y|]; split.
    + intros [= ->]. auto.
    + intros [_ [= ->]]. reflexivity.
    + discriminate.
    + intros [_ [=]].
Qed.

Lemma array_get_lookup {A : Type} (a : list A) (n : nat) (x : A) :
  a !! n = Some x -> array_get a (Z.of_nat n) = Ok x.
Proof. intros H. apply array_get_Ok. rewrite Nat2Z.id. split; [lia|exact H]. Qed.

Lemma array_get_in_range {A : Type} (a : list A) (i : Z) :
  0 <= i < Z.of_nat (length a) -> exists x, array_get a i = Ok x.
Proof.
  intros H. destruct (lookup_lt_is_Some_2 a (Z.to_nat i)) as [x Hx]; [lia|].
  exists x. apply array_get_Ok. split; [lia|exact Hx].
Qed.

Lemma array_get_map {A B : Type} (f : A -> B) (a : list A) (i : Z) (x : A) :
  array_get a i = Ok x -> array_get (map f a) i = Ok (f x).
Proof.
  rewrite !array_get_Ok. intros [H0 H]. split; [exact H0|].
  change (map f a) with (f <$> a). rewrite list_lookup_fmap, H. reflexivity.
Qed.

Lemma array_get_seqZ (lo len i : Z) :
  0 <= i < len -> array_get (seqZ lo len) i = Ok (lo + i).
Proof.
  intros H. apply array_get_Ok. split; [lia|].
  rewrite lookup_seqZ. split; lia.
Qed.

Lemma array_get_nth {A : Type} (a : list A) (i : Z) (d : A) :
  0 <= i < Z.of_nat (length a) -> array_get a i = Ok (nth (Z.to_nat i) a d).
Proof.
  intros H. apply array_get_Ok. split; [lia|].
  destruct (nth_lookup_or_length a (Z.to_nat i) d) as [E|E]; [exact E|lia].
Qed.

Lemma array_get_map_seqZ {A : Type} (f : Z -> A) (len i : Z) :
  0 <= i < len -> array_get (map f (seqZ 0 len)) i = Ok (f i).
Proof.
  intros H. replace (f i) with (f (0 + i)) by (f_equal; lia).
  apply array_get_map, array_get_seqZ. exact H.
Qed.

Lemma array_get_map_seqZ_inv {A : Type} (f : Z -> A) (len i : Z) (x : A) :
  array_get (map f (seqZ 0 len)) i = Ok x -> 0 <= i < len /\ x = f i.
Proof.
  intros H. apply array_get_Ok in H as [H0 H].
  pose proof (lookup_lt_Some _ _ _ H) as Hlt.
  rewrite length_map, length_seqZ in Hlt.
  assert (Hi : 0 <= i < len) by lia. split; [exact Hi|].
  pose proof (array_get_map_seqZ f len i Hi) as E.
  apply array_get_Ok in E as [_ E]. congruence.
Qed.

(** ** Matrices *)

Lemma wfMatrix_zeroes (r c : Z) : 0 < r -> 0 < c -> wfMatrix (createMatrixZeroes r c).
Proof.
  intros Hr Hc. unfold wfMatrix, createMatrixZeroes. simpl.
  rewrite length_replicate. repeat split; try lia.
  apply Forall_replicate. rewrite length_replicate. lia.
Qed.

Lemma wfMatrix_fill (r c : Z) (f : Z -> Z -> double) :
  0 < r -> 0 < c -> wfMatrix (mkMatrix r c (fill r c f)).
Proof.
  intros Hr Hc. unfold wfMatrix, fill. simpl.
  rewrite length_map, length_seq. repeat split; try lia.
  apply Forall_forall. intros row Hin. apply list_elem_of_In, in_map_iff in Hin.
  destruct Hin as (i & <- & _). rewrite length_map, length_seq. lia.
Qed.

(** ** Construction *)

Section CreateNetwork.

Variable init_weight : Z -> Z -> Z -> double.
Variable init_bias : Z -> Z -> double.
Variables (numFeatures numHiddenLayers : Z) (hiddenSizes : list Z).
Variables (hiddenActivations : list Activation) (numClasses : Z).
Variable outputActivation : Activation.

Local Abbreviation lstep :=
  (layer_step numFeatures numHiddenLayers hiddenSizes hiddenActivations
     numClasses outputActivation).
Local Abbreviation lat :=
  (layer_at numFeatures numHiddenLayers hiddenSizes hiddenActivations
     numClasses outputActivation).
Local Abbreviation cat :=
  (connection_at init_weight init_bias numFeatures numHiddenLayers hiddenSizes
     hiddenActivations numClasses outputActivation).
Local Abbreviation net :=
  (built init_weight init_bias numFeatures numHiddenLayers hiddenSizes
     hiddenActivations numClasses outputActivation).
Local Abbreviation create :=
  (createNetwork init_weight init_bias numFeatures numHiddenLayers hiddenSizes
     hiddenActivations numClasses outputActivation).

(** Both loops of [create] fill their array slot by slot. *)
Lemma createNetwork_unfold :
  create =
  if (0 <? numFeatures) && (0 <=? numHiddenLayers) && (0 <? numClasses) then
    ls ← collect (Z.to_nat (2 + numHiddenLayers)) 0 lstep;
    cs ← collect (Z.to_nat (2 + numHiddenLayers - 1)) 0
           (connection_step init_weight init_bias ls);
    Ok (mkNetwork (2 + numHiddenLayers) ls (2 + numHiddenLayers - 1) cs)
  else AssertionFailed.
Proof.
  unfold createNetwork.
  destruct ((0 <? numFeatures) && (0 <=? numHiddenLayers) && (0 <? numClasses));
    [|reflexivity].
  unfold for_range. rewrite !Z.sub_0_r.
  rewrite (for_loop_ext _ (fun i acc => x ← lstep i; Ok (acc ++ [x]))).
  2:{ intros i ls _. unfold layer_step.
      destruct (i =? 0); [reflexivity|].
      destruct (i =? 2 + numHiddenLayers - 1); [reflexivity|].
      destruct (array_get hiddenSizes (i - 1)); simpl; try reflexivity.
      destruct (array_get hiddenActivations (i - 1)); reflexivity. }
  rewrite for_loop_collect.
  destruct (collect _ 0 lstep) as [ls| |]; simpl; try reflexivity.
  rewrite (for_loop_ext _
    (fun i acc => x ← connection_step init_weight init_bias ls i; Ok (acc ++ [x]))).
  2:{ intros i cs _. unfold connection_step.
      destruct (createConnection ls i (i + 1)); reflexivity. }
  rewrite for_loop_collect.
  destruct (collect _ 0 _) as [cs| |]; reflexivity.
Qed.

Hypothesis features_pos : 0 < numFeatures.
Hypothesis hidden_nonneg : 0 <= numHiddenLayers.
Hypothesis classes_pos : 0 < numClasses.
Hypothesis sizes_len : Z.of_nat (length hiddenSizes) = numHiddenLayers.
Hypothesis activations_len : Z.of_nat (length hiddenActivations) = numHiddenLayers.

Lemma layer_step_valid (i : Z) :
  0 <= i < 2 + numHiddenLayers ->
  (forall k, 0 <= k < numHiddenLayers -> 0 < nth (Z.to_nat k) hiddenSizes 0) ->
  lstep i = Ok (lat i).
Proof.
  intros Hi Hpos. unfold layer_step, layer_at, createLayer.
  destruct (Z.eqb_spec i 0).
  - destruct (Z.ltb_spec 0 numFeatures); [reflexivity|lia].
  - destruct (Z.eqb_spec i (2 + numHiddenLayers - 1)).
    + destruct (Z.ltb_spec 0 numClasses); [reflexivity|lia].
    + rewrite (array_get_nth hiddenSizes (i - 1) 0) by lia.
      rewrite (array_get_nth hiddenActivations (i - 1) linear) by lia.
      simpl. specialize (Hpos (i - 1)).
      destruct (Z.ltb_spec 0 (nth (Z.to_nat (i - 1)) hiddenSizes 0));
        [reflexivity|lia].
Qed.

Lemma connection_step_built (i : Z) :
  0 <= i < 2 + numHiddenLayers - 1 ->
  connection_step init_weight init_bias
    (map lat (seqZ 0 (2 + numHiddenLayers))) i = Ok (cat i).
Proof.
  intros Hi. unfold connection_step, createConnection.
  rewrite !array_get_map_seqZ by lia. reflexivity.
Qed.

(** With valid parameters the constructor returns the network [built]. *)
Lemma createNetwork_built :
  (forall k, 0 <= k < numHiddenLayers -> 0 < nth (Z.to_nat k) hiddenSizes 0) ->
  create = Ok net.
Proof.
  intros Hpos. rewrite createNetwork_unfold.
  destruct (Z.ltb_spec 0 numFeatures); [|lia].
  destruct (Z.leb_spec 0 numHiddenLayers); [|lia].
  destruct (Z.ltb_spec 0 numClasses); [|lia]. simpl.
  rewrite (collect_Ok _ lat).
  2:{ intros i Hi. apply layer_step_valid; [lia|exact Hpos]. }
  rewrite bind_Ok. rewrite Z2Nat.id by lia.
  rewrite (collect_Ok _ cat).
  2:{ intros i Hi. apply connection_step_built. lia. }
  rewrite bind_Ok. rewrite Z2Nat.id by lia. reflexivity.
Qed.

End CreateNetwork.

Lemma layer_at_size_pos numFeatures numHiddenLayers hiddenSizes hiddenActivations
    numClasses outputActivation (i : Z) :
  0 < numFeatures -> 0 < numClasses ->
  Z.of_nat (length hiddenSizes) = numHiddenLayers ->
  Forall (fun sz => 0 < sz) hiddenSizes ->
  0 <= i < 2 + numHiddenLayers ->
  0 < l_size (layer_at numFeatures numHiddenLayers hiddenSizes hiddenActivations
                numClasses outputActivation i).
Proof.
  intros Hf Hc Hlen Hpos Hi. unfold layer_at.
  destruct (Z.eqb_spec i 0); [exact Hf|].
  destruct (Z.eqb_spec i (2 + numHiddenLayers - 1)); [exact Hc|]. simpl.
  rewrite Forall_forall in Hpos. apply Hpos.
  apply list_elem_of_In, nth_In. lia.
Qed.

Lemma layer_at_wf numFeatures numHiddenLayers hiddenSizes hiddenActivations
    numClasses outputActivation (i : Z) :
  0 < l_size (layer_at numFeatures numHiddenLayers hiddenSizes hiddenActivations
                numClasses outputActivation i) ->
  wfLayer (layer_at numFeatures numHiddenLayers hiddenSizes hiddenActivations
             numClasses outputActivation i).
Proof.
  unfold layer_at.
  destruct (i =? 0); [|destruct (i =? 2 + numHiddenLayers - 1)]; simpl;
    intros H; (split; [exact H|split; [apply wfMatrix_zeroes; lia|reflexivity]]).
Qed.

(** The network [built] satisfies the invariants of the data model. *)
Lemma built_wf init_weight init_bias numFeatures numHiddenLayers hiddenSizes
    hiddenActivations numClasses outputActivation :
  0 < numFeatures -> 0 <= numHiddenLayers -> 0 < numClasses ->
  Z.of_nat (length hiddenSizes) = numHiddenLayers ->
  Forall (fun sz => 0 < sz) hiddenSizes ->
  wfNetwork (built init_weight init_bias numFeatures numHiddenLayers hiddenSizes
               hiddenActivations numClasses outputActivation).
Proof.
  intros Hf Hh Hc Hlen Hpos.
  pose proof (layer_at_size_pos numFeatures numHiddenLayers hiddenSizes
                hiddenActivations numClasses outputActivation) as Hsz.
  constructor; unfold built; simpl.
  - rewrite length_map, length_seqZ. lia.
  - lia.
  - rewrite length_map, length_seqZ. lia.
  - reflexivity.
  - apply Forall_forall. intros l Hin.
    apply list_elem_of_In, in_map_iff in Hin. destruct Hin as (i & <- & Hin).
    apply list_elem_of_In, elem_of_seqZ in Hin.
    apply layer_at_wf, Hsz; auto.
  - intros i l Hi Hget. apply array_get_map_seqZ_inv in Hget as [Hr ->].
    unfold layer_at. destruct (Z.eqb_spec i 0); [lia|].
    destruct (i =? 2 + numHiddenLayers - 1); discriminate.
  - intros i c Hget. apply array_get_map_seqZ_inv in Hget as [Hr ->].
    exists (layer_at numFeatures numHiddenLayers hiddenSizes hiddenActivations
              numClasses outputActivation i),
           (layer_at numFeatures numHiddenLayers hiddenSizes hiddenActivations
              numClasses outputActivation (i + 1)).
    rewrite !array_get_map_seqZ by lia.
    unfold connection_at, initializeConnection; simpl.
    repeat split; try reflexivity; apply wfMatrix_fill; try lia; apply Hsz; auto; lia.
  - intros i l Hget. apply array_get_map_seqZ_inv in Hget as [Hr ->].
    unfold layer_at, role_at. destruct (Z.eqb_spec i 0); [auto|].
    destruct (i =? 2 + numHiddenLayers - 1); split; try reflexivity; intros; lia.
Qed.

(** C7: for valid construction parameters [createNetwork] returns a
    network with [numHiddenLayers + 2] layers and one connection fewer;
    layer 0 is the INPUT layer of size [numFeatures], the last layer the
    OUTPUT layer of size [numClasses] with the output activation, interior
    layer [i] the HIDDEN layer of size [hiddenSizes[i-1]] with activation
    [hiddenActivations[i-1]], and connection [i] links layer [i] to layer
    [i+1] with weights of shape [size i x size (i+1)] and a bias of shape
    [1 x size (i+1)]. *)
Theorem createNetwork_structure init_weight init_bias numFeatures numHiddenLayers
    hiddenSizes hiddenActivations numClasses outputActivation :
  0 < numFeatures -> 0 <= numHiddenLayers -> 0 < numClasses ->
  Z.of_nat (length hiddenSizes) = numHiddenLayers ->
  Forall (fun sz => 0 < sz) hiddenSizes ->
  Z.of_nat (length hiddenActivations) = numHiddenLayers ->
  exists n,
    createNetwork init_weight init_bias numFeatures numHiddenLayers hiddenSizes
      hiddenActivations numClasses outputActivation = Ok n /\
    numLayers n = numHiddenLayers + 2 /\
    numConnections n = numLayers n - 1 /\
    Z.of_nat (length (layers n)) = numLayers n /\
    Z.of_nat (length (connections n)) = numConnections n /\
    layer_is (layers n) 0 INPUT numFeatures None /\
    layer_is (layers n) (numLayers n - 1) OUTPUT numClasses (Some outputActivation) /\
    (forall i, 1 <= i < numLayers n - 1 ->
       exists sz a,
         array_get hiddenSizes (i - 1) = Ok sz /\
         array_get hiddenActivations (i - 1) = Ok a /\
         layer_is (layers n) i HIDDEN sz (Some a)) /\
    (forall i, 0 <= i < numConnections n ->
       exists c, array_get (connections n) i = Ok c /\ links (layers n) i c).
Proof.
  intros Hf Hh Hc Hlen Hpos Hlen'.
  pose proof (built_wf init_weight init_bias numFeatures numHiddenLayers hiddenSizes
                hiddenActivations numClasses outputActivation Hf Hh Hc Hlen Hpos) as W.
  eexists. split.
  { apply createNetwork_built; auto.
    intros k Hk. rewrite Forall_forall in Hpos. apply Hpos.
    apply list_elem_of_In, nth_In. lia. }
  destruct W as [W1 W2 W3 W4 W5 W6 W7 W8]. unfold built in *; simpl in *.
  split; [lia|]. split; [reflexivity|]. split; [exact W1|]. split; [exact W3|].
  split; [|split; [|split]].
  - eexists. rewrite array_get_map_seqZ by lia. unfold layer_at.
    rewrite Z.eqb_refl. auto.
  - eexists. rewrite array_get_map_seqZ by lia. unfold layer_at.
    destruct (Z.eqb_spec (2 + numHiddenLayers - 1) 0); [lia|].
    rewrite Z.eqb_refl. auto.
  - intros i Hi.
    exists (nth (Z.to_nat (i - 1)) hiddenSizes 0),
           (nth (Z.to_nat (i - 1)) hiddenActivations linear).
    split; [apply array_get_nth; lia|]. split; [apply array_get_nth; lia|].
    eexists. rewrite array_get_map_seqZ by lia. unfold layer_at.
    destruct (Z.eqb_spec i 0); [lia|].
    destruct (Z.eqb_spec i (2 + numHiddenLayers - 1)); [lia|]. auto.
  - intros i Hi. eexists. split; [apply array_get_map_seqZ; lia|].
    apply W7. apply array_get_map_seqZ. lia.
Qed.

(** C9: [createNetwork] aborts on an assertion whenever a size
    precondition is violated ([numFeatures], [numClasses] or a hidden size
    not strictly positive, [numHiddenLayers] negative), and returns a
    network whenever all of them hold. *)
Theorem createNetwork_aborts_on_bad_sizes init_weight init_bias numFeatures
    numHiddenLayers hiddenSizes hiddenActivations numClasses outputActivation :
  (0 <= numHiddenLayers ->
     Z.of_nat (length hiddenSizes) = numHiddenLayers /\
     Z.of_nat (length hiddenActivations) = numHiddenLayers) ->
  (numFeatures <= 0 \/ numHiddenLayers < 0 \/ numClasses <= 0 \/
   Exists (fun sz => sz <= 0) hiddenSizes ->
   createNetwork init_weight init_bias numFeatures numHiddenLayers hiddenSizes
     hiddenActivations numClasses outputActivation = AssertionFailed) /\
  (0 < numFeatures /\ 0 <= numHiddenLayers /\ 0 < numClasses /\
   Forall (fun sz => 0 < sz) hiddenSizes ->
   exists n,
     createNetwork init_weight init_bias numFeatures numHiddenLayers hiddenSizes
       hiddenActivations numClasses outputActivation = Ok n).
Proof.
  intros Hlen. split.
  - intros Hbad. rewrite createNetwork_unfold.
    destruct (Z.ltb_spec 0 numFeatures) as [Hf|]; [|reflexivity].
    destruct (Z.leb_spec 0 numHiddenLayers) as [Hh|]; [|reflexivity].
    destruct (Z.ltb_spec 0 numClasses) as [Hc|]; [|reflexivity]. simpl.
    destruct Hbad as [?|[?|[?|Hex]]]; try lia.
    destruct (Hlen Hh) as [Hl1 Hl2].
    apply Exists_exists in Hex as (sz & Hin & Hsz).
    apply list_elem_of_lookup in Hin as (k & Hk).
    pose proof (lookup_lt_Some _ _ _ Hk) as Hklt.
    rewrite (collect_abort _ _ 0 (Z.of_nat k + 1)); [reflexivity|lia| |].
    + unfold layer_step.
      destruct (Z.eqb_spec (Z.of_nat k + 1) 0); [lia|].
      destruct (Z.eqb_spec (Z.of_nat k + 1) (2 + numHiddenLayers - 1)); [lia|].
      replace (Z.of_nat k + 1 - 1) with (Z.of_nat k) by lia.
      rewrite (array_get_lookup _ _ _ Hk), bind_Ok.
      destruct (array_get_in_range hiddenActivations (Z.of_nat k)) as (a & ->); [lia|].
      rewrite bind_Ok. unfold createLayer.
      destruct (Z.ltb_spec 0 sz); [lia|reflexivity].
    + intros i Hi. unfold layer_step, createLayer.
      destruct (Z.eqb_spec i 0); [destruct (0 <? numFeatures); discriminate|].
      destruct (Z.eqb_spec i (2 + numHiddenLayers - 1)); [lia|].
      destruct (array_get_in_range hiddenSizes (i - 1)) as (x & ->); [lia|].
      rewrite bind_Ok.
      destruct (array_get_in_range hiddenActivations (i - 1)) as (a & ->); [lia|].
      rewrite bind_Ok. destruct (0 <? x); discriminate.
  - intros (Hf & Hh & Hc & Hpos). destruct (Hlen Hh) as [Hl1 Hl2].
    destruct (createNetwork_structure init_weight init_bias numFeatures
                numHiddenLayers hiddenSizes hiddenActivations numClasses
                outputActivation Hf Hh Hc Hl1 Hpos Hl2) as (n & Hn & _).
    exists n. exact Hn.
Qed.

(** ** Shapes through the matrix library and the activations *)

Lemma multiply_shape (A B : Matrix) :
  wfMatrix A -> 0 < m_cols B -> m_cols A = m_rows B ->
  exists C, multiply A B = Ok C /\ wfMatrix C /\
            m_rows C = m_rows A /\ m_cols C = m_cols B.
Proof.
  intros (HrA & HcA & HlA & HfA) HcB Heq. unfold multiply.
  rewrite (proj2 (Z.eqb_eq _ _) Heq). eexists. split; [reflexivity|].
  unfold wfMatrix; simpl. rewrite length_map.
  repeat split; try assumption.
  apply Forall_forall. intros row Hin. apply list_elem_of_In, in_map_iff in Hin.
  destruct Hin as (r & <- & _). rewrite length_map, length_seq. lia.
Qed.

Lemma addToEachRow_shape (M b : Matrix) :
  wfMatrix M -> m_rows b = 1 -> m_cols b = m_cols M ->
  exists C, addToEachRow M b = Ok C /\ wfMatrix C /\
            m_rows C = m_rows M /\ m_cols C = m_cols M.
Proof.
  intros (HrM & HcM & HlM & HfM) Hr Hc. unfold addToEachRow.
  rewrite (proj2 (Z.eqb_eq _ _) Hr), (proj2 (Z.eqb_eq _ _) Hc). simpl.
  eexists. split; [reflexivity|].
  unfold wfMatrix; simpl. rewrite length_map.
  repeat split; try assumption.
  apply Forall_forall. intros row Hin. apply list_elem_of_In, in_map_iff in Hin.
  destruct Hin as (r & <- & _). rewrite length_map, length_seq. lia.
Qed.

Lemma Forall_length_map_rows (f : list double -> list double) (c : Z)
    (d : list (list double)) :
  (forall row, length (f row) = length row) ->
  Forall (fun row => Z.of_nat (length row) = c) d ->
  Forall (fun row => Z.of_nat (length row) = c) (map f d).
Proof.
  intros Hf Hd. induction Hd as [|row d Hrow _ IH]; simpl; constructor.
  - rewrite Hf. exact Hrow.
  - exact IH.
Qed.

(** Every activation keeps the shape of the buffer it transforms. *)
Lemma transform_shape libm_exp libm_tanh (a : Activation) (m : Matrix) :
  wfMatrix m ->
  wfMatrix (mkMatrix (m_rows m) (m_cols m) (transform libm_exp libm_tanh a (m_data m))).
Proof.
  intros (Hr & Hc & Hl & Hf). unfold wfMatrix; simpl.
  split; [exact Hr|]. split; [exact Hc|].
  destruct a; simpl; rewrite ?length_map; (split; [exact Hl|]);
    try (apply Forall_length_map_rows; [intros row; rewrite ?length_map; reflexivity|]);
    exact Hf.
Qed.

Lemma array_set_Ok {A : Type} (a : list A) (i : Z) (x : A) :
  0 <= i < Z.of_nat (length a) ->
  array_set a i x = Ok (<[Z.to_nat i := x]> a).
Proof.
  intros H. unfold array_set.
  destruct (Z.leb_spec 0 i); [|lia]. destruct (Z.ltb_spec i (Z.of_nat (length a))); [|lia].
  reflexivity.
Qed.

Lemma array_get_insert_eq {A : Type} (a : list A) (i : Z) (x : A) :
  0 <= i < Z.of_nat (length a) ->
  array_get (<[Z.to_nat i := x]> a) i = Ok x.
Proof.
  intros H. apply array_get_Ok. split; [lia|].
  apply list_lookup_insert_eq. lia.
Qed.

Lemma array_get_insert_ne {A : Type} (a : list A) (i j : Z) (x : A) :
  0 <= i -> 0 <= j -> i <> j ->
  array_get (<[Z.to_nat i := x]> a) j = array_get a j.
Proof.
  intros Hi Hj Hne. unfold array_get. destruct (j <? 0); [reflexivity|].
  rewrite list_lookup_insert_ne by lia. reflexivity.
Qed.

Lemma array_get_length {A : Type} (a : list A) (i : Z) (x : A) :
  array_get a i = Ok x -> 0 <= i < Z.of_nat (length a).
Proof.
  intros H. apply array_get_Ok in H as [H0 H].
  apply lookup_lt_Some in H. lia.
Qed.

(** ** Forward propagation *)

Section ForwardPass.

Variable libm_exp : double -> double.
Variable libm_tanh : double -> double.

Lemma same_layer_refl (l : Layer) : same_layer l l.
Proof. repeat split. Qed.

Lemma forward_inv_step (n : Network) (input : Matrix) (i : Z) (ls : list Layer) :
  wfNetwork n ->
  0 <= i < numConnections n ->
  forward_inv n input i ls ->
  exists ls',
    (li ← array_get ls i;
     ci ← array_get (connections n) i;
     tmp ← multiply (l_input li) (c_weights ci);
     tmp2 ← addToEachRow tmp (c_bias ci);
     lto ← array_get ls (c_to ci);
     lto' ← activateLayer libm_exp libm_tanh (set_input lto tmp2);
     array_set ls (c_to ci) lto') = Ok ls' /\
    forward_inv n input (i + 1) ls'.
Proof.
  intros W Hi (Hlen & Hinv).
  destruct W as [W1 W2 W3 W4 W5 W6 W7 W8].
  destruct (array_get_in_range ls i) as (li & Eli); [lia|].
  destruct (array_get_in_range (connections n) i) as (ci & Eci); [lia|].
  destruct (array_get_in_range ls (i + 1)) as (lto & Elto); [lia|].
  destruct (Hinv i li Eli) as ((Hsz_i & Hwf_i & Hcols_i) & (li0 & Eli0 & S_i) & Hrows_i).
  destruct (Hinv (i + 1) lto Elto)
    as ((Hsz_t & Hwf_t & Hcols_t) & (lt0 & Elt0 & S_t) & _).
  destruct (W7 i ci Eci)
    as (lf & lt & Elf & Elt & Hfrom & Hto & Hww & Hwr & Hwc & Hbw & Hbr & Hbc).
  assert (lf = li0) by congruence. assert (lt = lt0) by congruence. subst lf lt.
  destruct S_i as (_ & Hs_i & _). destruct S_t as (Ht_t & Hs_t & Ha_t).
  destruct (multiply_shape (l_input li) (c_weights ci)) as (tmp & Etmp & Wtmp & Rtmp & Ctmp);
    [exact Hwf_i|destruct Hww as (_ & ? & _); assumption|congruence|].
  destruct (addToEachRow_shape tmp (c_bias ci)) as (tmp2 & Etmp2 & Wtmp2 & Rtmp2 & Ctmp2);
    [exact Wtmp|exact Hbr|congruence|].
  rewrite Eli, bind_Ok, Eci, bind_Ok, Etmp, bind_Ok, Etmp2, bind_Ok.
  rewrite Hto, Elto, bind_Ok.
  assert (Hact : l_activation lto <> None).
  { rewrite Ha_t. apply (W6 (i + 1) lt0); [lia|exact Elt0]. }
  unfold activateLayer. simpl.
  destruct (l_activation lto) as [a|] eqn:Ea; [|contradiction].
  rewrite bind_Ok, array_set_Ok by lia.
  eexists. split; [reflexivity|].
  split; [rewrite length_insert; exact Hlen|].
  intros j l Hj.
  destruct (Z.eq_dec j (i + 1)) as [->|Hne].
  - rewrite array_get_insert_eq in Hj by lia. injection Hj as <-. simpl.
    split; [|split].
    + split; [exact Hsz_t|]. split; [apply transform_shape; exact Wtmp2|].
      simpl. congruence.
    + exists lt0. split; [exact Elt0|]. repeat split; simpl; congruence.
    + intros _. simpl. rewrite Hrows_i in Rtmp by lia. congruence.
  - pose proof (array_get_length _ _ _ Hj) as Hjr. rewrite length_insert in Hjr.
    rewrite array_get_insert_ne in Hj by lia.
    destruct (Hinv j l Hj) as (A & B & C).
    split; [exact A|]. split; [exact B|]. intros Hle. apply C. lia.
Qed.

(** On a well-formed network and a batch with one column per input unit
    the forward pass completes; it changes nothing but the stored inputs,
    every one of which ends with the rows of the batch and one column per
    unit of its layer. *)
Lemma forwardPass_spec (n : Network) (input : Matrix) (l0 : Layer) :
  wfNetwork n -> wfMatrix input ->
  array_get (layers n) 0 = Ok l0 -> m_cols input = l_size l0 ->
  exists ls,
    forwardPass libm_exp libm_tanh n input
      = Ok (mkNetwork (numLayers n) ls (numConnections n) (connections n)) /\
    forward_inv n input (numConnections n) ls.
Proof.
  intros W Hin E0 Hcols.
  pose proof W as [W1 W2 W3 W4 W5 W6 W7 W8].
  assert (Hl0 : wfLayer l0).
  { rewrite Forall_forall in W5. apply W5.
    apply array_get_Ok in E0 as [_ E0]. eapply list_elem_of_lookup_2; exact E0. }
  destruct Hl0 as (Hsz0 & Hwf0 & Hc0).
  unfold forwardPass. rewrite E0, bind_Ok.
  rewrite (proj2 (Z.eqb_eq _ _)) by congruence.
  rewrite array_set_Ok, bind_Ok by lia.
  destruct (for_range_inv (forward_inv n input)
              (fun i ls =>
                 li ← array_get ls i;
                 ci ← array_get (connections n) i;
                 tmp ← multiply (l_input li) (c_weights ci);
                 tmp2 ← addToEachRow tmp (c_bias ci);
                 lto ← array_get ls (c_to ci);
                 lto' ← activateLayer libm_exp libm_tanh (set_input lto tmp2);
                 array_set ls (c_to ci) lto')
              0 (numConnections n)
              (<[Z.to_nat 0 := set_input l0 (copy input)]> (layers n)))
    as (ls & Els & Hls).
  - lia.
  - split; [rewrite length_insert; exact W1|].
    intros j l Hj. destruct (Z.eq_dec j 0) as [->|Hne].
    + rewrite array_get_insert_eq in Hj by lia. injection Hj as <-.
      unfold copy; simpl. split; [|split].
      * split; [exact Hsz0|]. split; [exact Hin|]. simpl. exact Hcols.
      * exists l0. split; [exact E0|]. repeat split.
      * reflexivity.
    + pose proof (array_get_length _ _ _ Hj) as Hjr. rewrite length_insert in Hjr.
      rewrite array_get_insert_ne in Hj by lia.
      split; [|split].
      * rewrite Forall_forall in W5. apply W5.
        apply array_get_Ok in Hj as [_ Hj]. eapply list_elem_of_lookup_2; exact Hj.
      * exists l. split; [exact Hj|]. apply same_layer_refl.
      * intros Hle. lia.
  - intros i ls Hi Hinv. apply forward_inv_step; [exact W|lia|exact Hinv].
  - exists ls. rewrite Els, bind_Ok. split; [reflexivity|exact Hls].
Qed.

End ForwardPass.

Lemma wfNetwork_layer0 (n : Network) :
  wfNetwork n -> exists l0, array_get (layers n) 0 = Ok l0 /\ wfLayer l0.
Proof.
  intros W. destruct (array_get_in_range (layers n) 0) as (l0 & E).
  { pose proof (wf_layers_len n W). pose proof (wf_numLayers n W). lia. }
  exists l0. split; [exact E|].
  pose proof (wf_layers n W) as H. rewrite Forall_forall in H. apply H.
  apply array_get_Ok in E as [_ E]. eapply list_elem_of_lookup_2; exact E.
Qed.

(** The forward pass keeps the invariants of the data model. *)
Lemma forwardPass_wf libm_exp libm_tanh (n n' : Network) (input : Matrix) :
  wfNetwork n -> wfMatrix input ->
  forwardPass libm_exp libm_tanh n input = Ok n' ->
  wfNetwork n'.
Proof.
  intros W Hin H.
  destruct (wfNetwork_layer0 n W) as (l0 & E0 & Hsz0 & Hwf0 & Hc0).
  assert (Hcols : m_cols input = l_size l0).
  { unfold forwardPass in H. rewrite E0, bind_Ok in H.
    destruct (Z.eqb_spec (m_cols input) (m_cols (l_input l0))); [congruence|discriminate]. }
  destruct (forwardPass_spec libm_exp libm_tanh n input l0 W Hin E0 Hcols)
    as (ls & E & Hlen & Hinv).
  rewrite E in H. injection H as <-.
  destruct W as [W1 W2 W3 W4 W5 W6 W7 W8].
  constructor; simpl; try assumption.
  - apply Forall_forall. intros l Hl. apply list_elem_of_lookup in Hl as (k & Hk).
    apply array_get_lookup in Hk. apply (Hinv _ _ Hk).
  - intros i l Hi Hget. destruct (Hinv i l Hget) as (_ & (l1 & E1 & _ & _ & Ha) & _).
    rewrite Ha. apply (W6 i l1 Hi E1).
  - intros i c Hc.
    destruct (W7 i c Hc) as (lf & lt & Elf & Elt & R).
    pose proof (array_get_length _ _ _ Elf) as Hir.
    pose proof (array_get_length _ _ _ Elt) as Hir'.
    destruct (array_get_in_range ls i) as (lf' & Elf'); [lia|].
    destruct (array_get_in_range ls (i + 1)) as (lt' & Elt'); [lia|].
    destruct (Hinv i lf' Elf') as (_ & (x & Ex & _ & Hsx & _) & _).
    destruct (Hinv (i + 1) lt' Elt') as (_ & (y & Ey & _ & Hsy & _) & _).
    assert (x = lf) by congruence. assert (y = lt) by congruence. subst x y.
    exists lf', lt'. rewrite Hsx, Hsy. split; [exact Elf'|]. split; [exact Elt'|].
    exact R.
  - intros i l Hget. destruct (Hinv i l Hget) as (_ & (l1 & E1 & Ht & _ & Ha) & _).
    rewrite Ht, Ha. apply (W8 i l1 E1).
Qed.

Section ForwardValues.

Variable libm_exp : double -> double.
Variable libm_tanh : double -> double.

(** One iteration of the loop of [forwardPass] stores what the
    connection computes and leaves the layers before it as they are. *)
Lemma forward_values_step (n : Network) (input : Matrix) (i : Z) (ls : list Layer) :
  wfNetwork n ->
  0 <= i < numConnections n ->
  forward_inv n input i ls /\ forward_values libm_exp libm_tanh n input i ls ->
  exists ls',
    (li ← array_get ls i;
     ci ← array_get (connections n) i;
     tmp ← multiply (l_input li) (c_weights ci);
     tmp2 ← addToEachRow tmp (c_bias ci);
     lto ← array_get ls (c_to ci);
     lto' ← activateLayer libm_exp libm_tanh (set_input lto tmp2);
     array_set ls (c_to ci) lto') = Ok ls' /\
    forward_inv n input (i + 1) ls' /\
    forward_values libm_exp libm_tanh n input (i + 1) ls'.
Proof.
  intros W Hi (Hinv & (l0 & El0 & Hl0) & Hval).
  destruct (forward_inv_step libm_exp libm_tanh n input i ls W Hi Hinv)
    as (ls' & E & Hinv').
  exists ls'. split; [exact E|]. split; [exact Hinv'|].
  pose proof (wf_numConnections n W) as Hnc. destruct Hinv as (Hlen & _).
  apply bind_Ok_inv in E as (li & Eli & E).
  apply bind_Ok_inv in E as (ci & Eci & E).
  apply bind_Ok_inv in E as (tmp & Etmp & E).
  apply bind_Ok_inv in E as (tmp2 & Etmp2 & E).
  apply bind_Ok_inv in E as (lto & Elto & E).
  apply bind_Ok_inv in E as (lto' & Eact & E).
  destruct (wf_links n W i ci Eci) as (lf & lt & _ & _ & _ & Hto & _).
  rewrite Hto in E, Elto. rewrite array_set_Ok in E by lia. injection E as <-.
  unfold activateLayer in Eact. simpl in Eact.
  destruct (l_activation lto) as [a0|] eqn:Ea; [|discriminate].
  injection Eact as <-.
  split.
  - exists l0. rewrite array_get_insert_ne by lia. split; [exact El0|exact Hl0].
  - intros k c lk lt' a Hk Ec Elk Elt' Ha.
    destruct (Z.eq_dec k i) as [->|Hne].
    + rewrite array_get_insert_ne in Elk by lia.
      rewrite array_get_insert_eq in Elt' by lia. injection Elt' as <-.
      simpl in Ha. assert (a = a0) by congruence. subst a.
      assert (lk = li) by congruence. assert (c = ci) by congruence. subst lk c.
      unfold propagate. rewrite Etmp, bind_Ok, Etmp2, bind_Ok. reflexivity.
    + rewrite array_get_insert_ne in Elk by lia.
      rewrite array_get_insert_ne in Elt' by lia.
      apply (Hval k c lk lt' a); [lia|assumption..].
Qed.

(** The stored inputs a completed forward pass leaves behind. *)
Lemma forwardPass_values (n : Network) (input : Matrix) (l0 : Layer) :
  wfNetwork n -> wfMatrix input ->
  array_get (layers n) 0 = Ok l0 -> m_cols input = l_size l0 ->
  exists ls,
    forwardPass libm_exp libm_tanh n input
      = Ok (mkNetwork (numLayers n) ls (numConnections n) (connections n)) /\
    forward_inv n input (numConnections n) ls /\
    forward_values libm_exp libm_tanh n input (numConnections n) ls.
Proof.
  intros W Hin E0 Hcols.
  pose proof (wf_layers_len n W) as W1. pose proof (wf_numLayers n W) as W2.
  pose proof (wf_numConnections n W) as W4.
  destruct (wfNetwork_layer0 n W) as (l0' & E0' & Hsz0 & Hwf0 & Hc0).
  assert (l0' = l0) by congruence. subst l0'.
  unfold forwardPass. rewrite E0, bind_Ok.
  rewrite (proj2 (Z.eqb_eq _ _)) by congruence.
  rewrite array_set_Ok, bind_Ok by lia.
  destruct (for_range_inv
              (fun i ls => forward_inv n input i ls /\
                           forward_values libm_exp libm_tanh n input i ls)
              (fun i ls =>
                 li ← array_get ls i;
                 ci ← array_get (connections n) i;
                 tmp ← multiply (l_input li) (c_weights ci);
                 tmp2 ← addToEachRow tmp (c_bias ci);
                 lto ← array_get ls (c_to ci);
                 lto' ← activateLayer libm_exp libm_tanh (set_input lto tmp2);
                 array_set ls (c_to ci) lto')
              0 (numConnections n)
              (<[Z.to_nat 0 := set_input l0 (copy input)]> (layers n)))
    as (ls & Els & Hls & Hvs).
  - lia.
  - split; [split|split].
    + rewrite length_insert. exact W1.
    + intros j l Hj. destruct (Z.eq_dec j 0) as [->|Hne].
      * rewrite array_get_insert_eq in Hj by lia. injection Hj as <-.
        unfold copy; simpl. split; [|split].
        -- split; [exact Hsz0|]. split; [exact Hin|]. simpl. exact Hcols.
        -- exists l0. split; [exact E0|]. repeat split.
        -- reflexivity.
      * pose proof (array_get_length _ _ _ Hj) as Hjr. rewrite length_insert in Hjr.
        rewrite array_get_insert_ne in Hj by lia.
        split; [|split].
        -- pose proof (wf_layers n W) as W5. rewrite Forall_forall in W5. apply W5.
           apply array_get_Ok in Hj as [_ Hj]. eapply list_elem_of_lookup_2; exact Hj.
        -- exists l. split; [exact Hj|]. apply same_layer_refl.
        -- intros Hle. lia.
    + eexists. split; [apply array_get_insert_eq; lia|reflexivity].
    + intros k c lk lt a Hk. lia.
  - intros i ls Hi HP. apply forward_values_step; [exact W|lia|exact HP].
  - exists ls. rewrite Els, bind_Ok. split; [reflexivity|]. split; assumption.
Qed.

End ForwardValues.

(** C4: after [forwardPass network input] every layer's stored input is
    a buffer of as many rows as the batch, each row of one entry per unit
    of its layer, and the header fields [rows] and [cols] say so; the
    OUTPUT layer's stored input has [numClasses] columns.  These buffers
    are the ones the pass computes: layer 0 holds the batch, and the
    target of every connection holds the activation of the product of its
    source with the weights plus the bias. *)
Theorem forwardPass_shapes libm_exp libm_tanh (n : Network) (input : Matrix) :
  wfNetwork n -> wfMatrix input ->
  (exists l0, array_get (layers n) 0 = Ok l0 /\ m_cols input = l_size l0) ->
  exists n',
    forwardPass libm_exp libm_tanh n input = Ok n' /\
    numLayers n' = numLayers n /\
    Z.of_nat (length (layers n')) = numLayers n /\
    (forall i, 0 <= i < numLayers n ->
       exists l l', array_get (layers n) i = Ok l /\ array_get (layers n') i = Ok l' /\
         same_layer l l' /\
         m_rows (l_input l') = m_rows input /\
         m_cols (l_input l') = l_size l' /\
         Z.of_nat (length (m_data (l_input l'))) = m_rows input /\
         Forall (fun row => Z.of_nat (length row) = l_size l') (m_data (l_input l'))) /\
    (forall numClasses act,
       layer_is (layers n) (numLayers n - 1) OUTPUT numClasses act ->
       exists l', array_get (layers n') (numLayers n' - 1) = Ok l' /\
         l_type l' = OUTPUT /\ m_cols (l_input l') = numClasses /\
         Z.of_nat (length (m_data (l_input l'))) = m_rows input /\
         Forall (fun row => Z.of_nat (length row) = numClasses) (m_data (l_input l'))) /\
    forward_values libm_exp libm_tanh n input (numConnections n) (layers n').
Proof.
  intros W Hin (l0 & E0 & Hcols).
  destruct (forwardPass_values libm_exp libm_tanh n input l0 W Hin E0 Hcols)
    as (ls & E & (Hlen & Hinv) & Hval).
  pose proof (wf_numLayers n W) as H2. pose proof (wf_numConnections n W) as Hnc.
  eexists. split; [exact E|]. simpl. split; [reflexivity|]. split; [exact Hlen|].
  assert (Hall : forall i, 0 <= i < numLayers n ->
     exists l l', array_get (layers n) i = Ok l /\ array_get ls i = Ok l' /\
       same_layer l l' /\ m_rows (l_input l') = m_rows input /\
       m_cols (l_input l') = l_size l' /\
       Z.of_nat (length (m_data (l_input l'))) = m_rows input /\
       Forall (fun row => Z.of_nat (length row) = l_size l') (m_data (l_input l'))).
  { intros i Hi. destruct (array_get_in_range ls i) as (l' & El'); [lia|].
    destruct (Hinv i l' El') as ((_ & (_ & _ & Hdl & Hdr) & Hc) & (l & El & Hs) & Hr).
    assert (Hrows : m_rows (l_input l') = m_rows input) by (apply Hr; lia).
    exists l, l'. split; [exact El|]. split; [exact El'|]. split; [exact Hs|].
    split; [exact Hrows|]. split; [exact Hc|]. split; [congruence|].
    rewrite <- Hc. exact Hdr. }
  split; [exact Hall|]. split; [|exact Hval].
  intros numClasses act (lo & Elo & Ht & Hs & _).
  destruct (Hall (numLayers n - 1))
    as (l & l' & El & El' & (St & Ss & _) & _ & Hc & Hdl & Hdr); [lia|].
  assert (l = lo) by congruence. subst l.
  assert (Hsz : l_size l' = numClasses) by congruence.
  exists l'. split; [exact El'|]. split; [congruence|]. split; [congruence|].
  split; [exact Hdl|]. rewrite <- Hsz. exact Hdr.
Qed.

(** C6: on a network that satisfies the data model's invariants
    [forwardPass] aborts on its assertion exactly when the batch's column
    count differs from the INPUT layer's size, and completes otherwise. *)
Theorem forwardPass_aborts_iff libm_exp libm_tanh (n : Network) (input : Matrix)
    (l0 : Layer) :
  wfNetwork n -> wfMatrix input ->
  array_get (layers n) 0 = Ok l0 ->
  (forwardPass libm_exp libm_tanh n input = AssertionFailed
     <-> m_cols input <> l_size l0) /\
  (m_cols input = l_size l0 ->
     exists n', forwardPass libm_exp libm_tanh n input = Ok n').
Proof.
  intros W Hin E0.
  assert (Hok : m_cols input = l_size l0 ->
                exists n', forwardPass libm_exp libm_tanh n input = Ok n').
  { intros Hcols.
    destruct (forwardPass_spec libm_exp libm_tanh n input l0 W Hin E0 Hcols)
      as (ls & E & _).
    eexists. exact E. }
  split; [|exact Hok]. split.
  - intros Hfail Hcols. destruct (Hok Hcols) as (n' & E). congruence.
  - intros Hne. unfold forwardPass. rewrite E0, bind_Ok.
    destruct (wfNetwork_layer0 n W) as (l0' & E0' & _ & _ & Hc0).
    assert (l0' = l0) by congruence. subst l0'.
    destruct (Z.eqb_spec (m_cols input) (m_cols (l_input l0))); [congruence|reflexivity].
Qed.

(** ** The order of doubles

    [<] and [<=] on binary64 values compare sign, exponent and mantissa;
    NaN compares false with everything. *)

Ltac sf_compare :=
  repeat match goal with
         | |- context [Z.compare ?a ?b] => destruct (Z.compare_spec a b)
         | H : context [Z.compare ?a ?b] |- _ => destruct (Z.compare_spec a b)
         | |- context [Pos.compare_cont Eq ?a ?b] =>
             change (Pos.compare_cont Eq a b) with (Pos.compare a b);
             destruct (Pos.compare_spec a b)
         | H : context [Pos.compare_cont Eq ?a ?b] |- _ =>
             change (Pos.compare_cont Eq a b) with (Pos.compare a b) in H;
             destruct (Pos.compare_spec a b)
         end;
  simpl in *; try discriminate; try reflexivity; try lia.

Lemma SFltb_trans (a b c : spec_float) :
  SFltb a b = true -> SFltb b c = true -> SFltb a c = true.
Proof.
  unfold SFltb, SFcompare.
  destruct a as [[|]|[|]| |[|] ? ?], b as [[|]|[|]| |[|] ? ?], c as [[|]|[|]| |[|] ? ?];
    simpl; intros H1 H2; try discriminate; try reflexivity; sf_compare.
Qed.

Lemma SFleb_SFltb_trans (a b c : spec_float) :
  SFleb a b = true -> SFltb b c = true -> SFltb a c = true.
Proof.
  unfold SFleb, SFltb, SFcompare.
  destruct a as [[|]|[|]| |[|] ? ?], b as [[|]|[|]| |[|] ? ?], c as [[|]|[|]| |[|] ? ?];
    simpl; intros H1 H2; try discriminate; try reflexivity; sf_compare.
Qed.

Lemma SFltb_SFleb (a b : spec_float) : SFltb a b = true -> SFleb a b = true.
Proof.
  unfold SFleb, SFltb. destruct (SFcompare a b) as [[| |]|]; intros H;
    try discriminate; reflexivity.
Qed.

Lemma SFleb_total (a b : spec_float) :
  a <> S754_nan -> b <> S754_nan -> SFltb a b = false -> SFleb b a = true.
Proof.
  unfold SFleb, SFltb, SFcompare.
  destruct a as [[|]|[|]| |[|] ? ?], b as [[|]|[|]| |[|] ? ?];
    simpl; intros Ha Hb H; try discriminate; try reflexivity; try congruence;
    sf_compare.
Qed.

Lemma SFeqb_refl (a : spec_float) : a <> S754_nan -> SFeqb a a = true.
Proof.
  unfold SFeqb, SFcompare. destruct a as [[|]|[|]| |[|] m e]; intros H;
    try reflexivity; try congruence;
    rewrite Z.compare_refl; change (Pos.compare_cont Eq m m) with (Pos.compare m m);
    rewrite Pos.compare_refl; reflexivity.
Qed.

Lemma SFeqb_nan (a : spec_float) : SFeqb a a = true -> a <> S754_nan.
Proof. intros H ->. discriminate. Qed.

Lemma SFeqb_SFleb (a b : spec_float) : SFeqb a b = true -> SFleb a b = true.
Proof.
  unfold SFeqb, SFleb. destruct (SFcompare a b) as [[| |]|]; intros H;
    try discriminate; reflexivity.
Qed.

Lemma is_nan_false (x : double) : is_nan x = false <-> Prim2SF x <> S754_nan.
Proof.
  unfold is_nan. rewrite FloatAxioms.eqb_spec. split.
  - intros H. apply SFeqb_nan. destruct (SFeqb _ _); [reflexivity|discriminate].
  - intros H. rewrite SFeqb_refl by exact H. reflexivity.
Qed.

(** [>] is transitive on all doubles. *)
Lemma dgt_trans (a b c : double) : dgt a b = true -> dgt b c = true -> dgt a c = true.
Proof.
  unfold dgt. rewrite !FloatAxioms.ltb_spec. intros H1 H2. eapply SFltb_trans; eassumption.
Qed.

Lemma leb_dgt_trans (a b c : double) :
  PrimFloat.leb a b = true -> dgt c b = true -> dgt c a = true.
Proof.
  unfold dgt. rewrite FloatAxioms.leb_spec, !FloatAxioms.ltb_spec. apply SFleb_SFltb_trans.
Qed.

Lemma dgt_leb (a b : double) : dgt a b = true -> PrimFloat.leb b a = true.
Proof. unfold dgt. rewrite FloatAxioms.leb_spec, FloatAxioms.ltb_spec. apply SFltb_SFleb. Qed.

(** Away from NaN the order is total. *)
Lemma not_dgt_leb (a b : double) :
  is_nan a = false -> is_nan b = false -> dgt a b = false -> PrimFloat.leb a b = true.
Proof.
  rewrite !is_nan_false. unfold dgt. rewrite FloatAxioms.leb_spec, FloatAxioms.ltb_spec.
  intros Ha Hb. apply SFleb_total; assumption.
Qed.

Lemma leb_refl (a : double) : is_nan a = false -> PrimFloat.leb a a = true.
Proof.
  rewrite is_nan_false, FloatAxioms.leb_spec. intros H. apply SFeqb_SFleb, SFeqb_refl, H.
Qed.

Lemma SFltb_irrefl (a : spec_float) : SFltb a a = false.
Proof.
  unfold SFltb, SFcompare. destruct a as [[|]|[|]| |[|] m e]; try reflexivity;
    rewrite Z.compare_refl; change (Pos.compare_cont Eq m m) with (Pos.compare m m);
    rewrite Pos.compare_refl; reflexivity.
Qed.

Lemma dgt_irrefl (a : double) : dgt a a = false.
Proof. unfold dgt. rewrite FloatAxioms.ltb_spec. apply SFltb_irrefl. Qed.

(** ** Prediction *)

Lemma collect_rel {A : Type} (R : Z -> A -> Prop) (step : Z -> result A) n lo :
  (forall i, lo <= i < lo + Z.of_nat n -> exists x, step i = Ok x /\ R i x) ->
  exists xs, collect n lo step = Ok xs /\ length xs = n /\
             forall k x, array_get xs k = Ok x -> R (lo + k) x.
Proof.
  revert lo. induction n as [|n IH]; intros lo H.
  - exists []. split; [reflexivity|]. split; [reflexivity|].
    intros k x Hk. apply array_get_length in Hk. simpl in Hk. lia.
  - destruct (H lo) as (x & Ex & Rx); [lia|].
    destruct (IH (lo + 1)) as (xs & Exs & Hlen & Hxs); [intros i Hi; apply H; lia|].
    exists (x :: xs). cbn [collect]. rewrite Ex, bind_Ok, Exs, bind_Ok.
    split; [reflexivity|]. split; [simpl; congruence|].
    intros k y Hk. apply array_get_Ok in Hk as [Hk0 Hk].
    destruct (Z.eq_dec k 0) as [->|Hne].
    + simpl in Hk. injection Hk as <-. replace (lo + 0) with lo by lia. exact Rx.
    + replace (Z.to_nat k) with (S (Z.to_nat (k - 1))) in Hk by lia. simpl in Hk.
      replace (lo + k) with (lo + 1 + (k - 1)) by lia. apply Hxs.
      apply array_get_Ok. split; [lia|exact Hk].
Qed.

Lemma array_get_entry (row : list double) (j : Z) :
  0 <= j < Z.of_nat (length row) -> array_get row j = Ok (entry row j).
Proof. intros H. apply array_get_nth. exact H. Qed.

(** The scan of one row (the inner loop of [predict]). *)
Lemma predict_row (m : Matrix) (i : Z) (row : list double) (size : Z) :
  array_get (m_data m) i = Ok row ->
  0 < size <= Z.of_nat (length row) ->
  exists max,
    for_range 1 size (fun j max =>
        x ← mget m i j;
        y ← mget m i max;
        Ok (if dgt x y then j else max)) 0 = Ok max /\
    0 <= max < size /\
    unbeaten row size max /\
    (nan_free row size -> first_maximum row size max).
Proof.
  intros Hrow Hsize.
  destruct (for_range_inv
    (fun j max => 0 <= max < j /\ unbeaten row j max /\
                  (nan_free row size -> first_maximum row j max))
    (fun j max => x ← mget m i j; y ← mget m i max; Ok (if dgt x y then j else max))
    1 size 0) as (max & E & Hr & Hu & Hf).
  - lia.
  - split; [lia|]. split.
    + intros j Hj. replace j with 0 by lia. apply dgt_irrefl.
    + intros Hn. split.
      * intros j Hj. replace j with 0 by lia. apply leb_refl, Hn. lia.
      * intros j Hj. lia.
  - intros j max Hj (Hmax & Hu & Hf).
    unfold mget. rewrite Hrow, !bind_Ok.
    rewrite !array_get_entry, !bind_Ok by lia.
    eexists. split; [reflexivity|].
    destruct (dgt (entry row j) (entry row max)) eqn:Hgt.
    + split; [lia|]. split.
      * intros k Hk. destruct (Z.eq_dec k j) as [->|Hne]; [apply dgt_irrefl|].
        destruct (dgt (entry row k) (entry row j)) eqn:Hkj; [|reflexivity].
        rewrite <- (Hu k) by lia. symmetry. eapply dgt_trans; eassumption.
      * intros Hn. destruct (Hf Hn) as (Hle & Hfirst).
        assert (Hlt : forall k, 0 <= k < j -> dgt (entry row j) (entry row k) = true).
        { intros k Hk. eapply leb_dgt_trans; [apply Hle; lia|exact Hgt]. }
        split.
        -- intros k Hk. destruct (Z.eq_dec k j) as [->|Hne];
             [apply leb_refl, Hn; lia|]. apply dgt_leb, Hlt. lia.
        -- exact Hlt.
    + split; [lia|]. split.
      * intros k Hk. destruct (Z.eq_dec k j) as [->|Hne]; [exact Hgt|].
        apply Hu. lia.
      * intros Hn. destruct (Hf Hn) as (Hle & Hfirst). split; [|exact Hfirst].
        intros k Hk. destruct (Z.eq_dec k j) as [->|Hne]; [|apply Hle; lia].
        apply not_dgt_leb; [apply Hn; lia|apply Hn; lia|exact Hgt].
  - exists max. auto.
Qed.

(** C3, in the form that holds: on a network whose OUTPUT layer holds a stored input,
    [predict] returns one index per row; each index lies in
    [[0, outputSize)], no entry among the first [outputSize] of the row is
    strictly greater than the entry it points at, and when none of those
    entries is NaN it is the index of their maximum, the lowest one on
    ties. *)
Theorem predict_argmax (n : Network) (lo : Layer) :
  array_get (layers n) (numLayers n - 1) = Ok lo ->
  wfLayer lo ->
  exists ps,
    predict n = Ok ps /\
    Z.of_nat (length ps) = m_rows (l_input lo) /\
    forall i, 0 <= i < m_rows (l_input lo) ->
      exists row m,
        array_get (m_data (l_input lo)) i = Ok row /\
        array_get ps i = Ok m /\
        0 <= m < l_size lo /\
        unbeaten row (l_size lo) m /\
        (nan_free row (l_size lo) -> first_maximum row (l_size lo) m).
Proof.
  intros Elo (Hsz & (Hr & Hc & Hlen & Hrows) & Hcols).
  unfold predict. rewrite Elo, bind_Ok. unfold for_range. rewrite Z.sub_0_r.
  rewrite (for_loop_collect
    (fun i => for_loop (Z.to_nat (l_size lo - 1)) 1
       (fun j max =>
          x ← mget (l_input lo) i j;
          y ← mget (l_input lo) i max;
          Ok (if dgt x y then j else max)) 0)).
  destruct (collect_rel
    (fun i m => exists row,
       array_get (m_data (l_input lo)) i = Ok row /\
       0 <= m < l_size lo /\ unbeaten row (l_size lo) m /\
       (nan_free row (l_size lo) -> first_maximum row (l_size lo) m))
    (fun i => for_loop (Z.to_nat (l_size lo - 1)) 1
       (fun j max =>
          x ← mget (l_input lo) i j;
          y ← mget (l_input lo) i max;
          Ok (if dgt x y then j else max)) 0)
    (Z.to_nat (m_rows (l_input lo))) 0) as (ps & Eps & Hps & Hall).
  - intros i Hi.
    destruct (array_get_in_range (m_data (l_input lo)) i) as (row & Erow); [lia|].
    assert (Hrow : Z.of_nat (length row) = m_cols (l_input lo)).
    { rewrite Forall_forall in Hrows. apply Hrows.
      apply array_get_Ok in Erow as [_ Erow]. eapply list_elem_of_lookup_2; exact Erow. }
    destruct (predict_row (l_input lo) i row (l_size lo) Erow) as (m & Em & R); [lia|].
    exists m. split; [exact Em|]. exists row. split; [exact Erow|exact R].
  - exists ps. rewrite Eps, bind_Ok. split; [reflexivity|]. split; [lia|].
    intros i Hi. destruct (array_get_in_range ps i) as (m & Em); [lia|].
    destruct (Hall i m Em) as (row & Erow & R).
    replace (0 + i) with i in Erow by lia.
    exists row, m. split; [exact Erow|]. split; [exact Em|exact R].
Qed.

(** Well-formedness of a network written out in full: every index into
    its arrays is one of finitely many. *)
Ltac concrete_slot H :=
  let Hi := fresh "Hi" in
  apply array_get_Ok in H as [Hi H];
  repeat match type of H with
         | (_ !! ?k) = Some _ =>
             is_var k; destruct k; simpl in H
         | (_ !! Z.to_nat ?i) = Some _ =>
             let E := fresh "E" in
             destruct (Z.to_nat i) eqn:E; simpl in H
         end;
  try discriminate.

Ltac concrete_index :=
  match goal with
  | E : Z.to_nat ?i = _ |- _ =>
      first [ replace i with 0 by lia | replace i with 1 by lia
            | replace i with 2 by lia ]
  end.

Ltac concrete_layers := repeat constructor; simpl; lia.

Ltac concrete_activations :=
  let i := fresh "i" in let l := fresh "l" in
  let Hi := fresh "Hi" in let Hget := fresh "Hget" in
  intros i l Hi Hget; concrete_slot Hget; try lia;
  injection Hget as <-; discriminate.

Ltac concrete_links :=
  let i := fresh "i" in let c := fresh "c" in let Hget := fresh "Hget" in
  intros i c Hget; concrete_slot Hget;
  injection Hget as <-; concrete_index;
  eexists _, _; repeat split; simpl; try reflexivity; try lia;
  repeat constructor.

Ltac concrete_roles :=
  let i := fresh "i" in let l := fresh "l" in let Hget := fresh "Hget" in
  intros i l Hget; concrete_slot Hget;
  injection Hget as <-; concrete_index;
  (split; [reflexivity|intros; first [reflexivity|lia]]).

Ltac concrete_wf :=
  constructor; simpl; try reflexivity; try lia;
  [concrete_layers|concrete_activations|concrete_links|concrete_roles].

Lemma nan_network_wf : wfNetwork nan_network.
Proof. concrete_wf. Qed.

(** On the row [NaN, 1] [predict] answers 0: entry 1 is not below the NaN
    of entry 0, so index 0 is not the index of the row's maximum. *)
Lemma predict_nan_row :
  wfNetwork nan_network /\
  predict nan_network = Ok [0] /\
  PrimFloat.leb (entry nan_row 1) (entry nan_row 0) = false /\
  is_nan (entry nan_row 0) = true.
Proof.
  split; [exact nan_network_wf|repeat split; reflexivity].
Qed.

(** ** Accuracy *)

Lemma hits_bounds (classes : Matrix) (ps : list Z) (k : nat) :
  0 <= hits classes ps k <= Z.of_nat k.
Proof.
  induction k as [|k IH]; simpl hits; [lia|].
  destruct (hit classes ps k); lia.
Qed.

(** C5 at the network [two_to_one], of two features and one class.  The
    batch [one_by_one] has one column, the OUTPUT layer's size that the
    second assertion of [accuracy] asks for; [forwardPass] then compares
    that column count with the INPUT layer and stops on its assertion.
    The batch [one_row] has two columns, one per feature: [forwardPass]
    accepts it and [accuracy] refuses it.  Neither call returns a value. *)
Theorem accuracy_aborts_two_to_one :
  (forall iw ib,
     wfNetwork (two_to_one iw ib) /\
     layer_is (layers (two_to_one iw ib)) 0 INPUT 2 None /\
     layer_is (layers (two_to_one iw ib)) 1 OUTPUT 1 (Some softmax)) /\
  wfMatrix one_by_one /\ wfMatrix one_row /\
  m_cols one_by_one = 1 /\ m_cols one_row = 2 /\
  (forall iw ib libm_exp libm_tanh,
     accuracy libm_exp libm_tanh (two_to_one iw ib) one_by_one one_by_one
     = AssertionFailed /\
     forwardPass libm_exp libm_tanh (two_to_one iw ib) one_by_one = AssertionFailed /\
     (exists n', forwardPass libm_exp libm_tanh (two_to_one iw ib) one_row = Ok n') /\
     accuracy libm_exp libm_tanh (two_to_one iw ib) one_row one_by_one
     = AssertionFailed).
Proof.
  assert (W : forall iw ib, wfNetwork (two_to_one iw ib)).
  { intros iw ib. apply built_wf; try lia; [reflexivity|constructor]. }
  assert (M1 : wfMatrix one_by_one).
  { repeat split; simpl; try lia. repeat constructor. }
  assert (M2 : wfMatrix one_row).
  { repeat split; simpl; try lia. repeat constructor. }
  split; [|split; [exact M1|split; [exact M2|split; [reflexivity|split; [reflexivity|]]]]].
  - intros iw ib. split; [apply W|]. split.
    + eexists. split; [reflexivity|]. repeat split.
    + eexists. split; [reflexivity|]. repeat split.
  - intros iw ib libm_exp libm_tanh.
    split; [reflexivity|]. split; [reflexivity|]. split; [|reflexivity].
    destruct (forwardPass_spec libm_exp libm_tanh (two_to_one iw ib) one_row
                (layer_at 2 0 [] [] 1 softmax 0) (W iw ib) M2 eq_refl eq_refl)
      as (ls & E & _).
    eexists. exact E.
Qed.

(** ** Loss *)

(** A loop that reads the list [l] front to back is a left fold. *)
Lemma for_loop_fold {A St : Type} (l : list A) (g : St -> A -> St)
    (body : Z -> St -> result St) (lo : Z) (acc : St) :
  (forall k x acc, array_get l k = Ok x -> body (lo + k) acc = Ok (g acc x)) ->
  for_loop (length l) lo body acc = Ok (fold_left g l acc).
Proof.
  revert lo acc. induction l as [|x l IH]; intros lo acc H; [reflexivity|].
  cbn [length for_loop fold_left].
  replace lo with (lo + 0) at 1 by lia. rewrite (H 0 x acc) by reflexivity.
  rewrite bind_Ok. apply IH. intros k y acc' Hk.
  replace (lo + 1 + k) with (lo + (k + 1)) by lia. apply H.
  apply array_get_Ok in Hk as [Hk0 Hk]. apply array_get_Ok. split; [lia|].
  replace (Z.to_nat (k + 1)) with (S (Z.to_nat k)) by lia. exact Hk.
Qed.

Lemma for_range_fold {A St : Type} (l : list A) (g : St -> A -> St)
    (body : Z -> St -> result St) (n : Z) (acc : St) :
  Z.of_nat (length l) = n ->
  (forall k x acc, array_get l k = Ok x -> body k acc = Ok (g acc x)) ->
  for_range 0 n body acc = Ok (fold_left g l acc).
Proof.
  intros Hn H. unfold for_range. rewrite Z.sub_0_r.
  replace (Z.to_nat n) with (length l) by lia.
  apply for_loop_fold. intros k x acc' Hk. rewrite Z.add_0_l. apply H, Hk.
Qed.

Lemma array_get_zip_with {A B C : Type} (f : A -> B -> C) (u : list A) (v : list B)
    (k : Z) (z : C) :
  array_get (zip_with f u v) k = Ok z ->
  exists x y, array_get u k = Ok x /\ array_get v k = Ok y /\ z = f x y.
Proof.
  rewrite array_get_Ok. intros [Hk H].
  apply lookup_zip_with_Some in H as (x & y & -> & Hx & Hy).
  exists x, y. rewrite !array_get_Ok. auto.
Qed.

Lemma fold_left_add_concat (f : double -> double) (ls : list (list double)) (acc : double) :
  fold_left (fun a row => fold_left PrimFloat.add (map f row) a) ls acc
  = fold_left PrimFloat.add (map f (concat ls)) acc.
Proof.
  revert acc. induction ls as [|row ls IH]; intros acc; simpl; [reflexivity|].
  rewrite map_app, fold_left_app. apply IH.
Qed.

Lemma fold_left_concat_map {A : Type} (h : A -> list double) (l : list A) (acc : double) :
  fold_left (fun a x => fold_left PrimFloat.add (h x) a) l acc
  = fold_left PrimFloat.add (concat (map h l)) acc.
Proof.
  revert acc. induction l as [|x l IH]; intros acc; simpl; [reflexivity|].
  rewrite fold_left_app. apply IH.
Qed.

Section Loss.

Variable libm_log : double -> double.

(** The data loops of [crossEntropyLoss]. *)
Lemma loss_data_loops (prediction actual : Matrix) :
  wfMatrix prediction -> wfMatrix actual ->
  m_rows prediction = m_rows actual -> m_cols prediction = m_cols actual ->
  for_range 0 (m_rows prediction) (fun i total_err =>
      cur_err ← for_range 0 (m_cols prediction) (fun j cur_err =>
          a ← mget actual i j;
          p ← mget prediction i j;
          Ok (cur_err + a * libm_log (MAX DBL_MIN p))%float) 0%float;
      Ok (total_err + cur_err)%float) 0%float
  = Ok (dsum (zip_with
          (fun arow prow =>
             dsum (zip_with (fun a p => a * libm_log (floor_at DBL_MIN p))%float arow prow))
          (m_data actual) (m_data prediction))).
Proof.
  intros (_ & _ & Hlp & Hrp) (_ & _ & Hla & Hra) Hrows Hcols.
  unfold dsum at 1. apply for_range_fold.
  { rewrite length_zip_with_l_eq by lia. lia. }
  intros i x total Hx.
  apply array_get_zip_with in Hx as (arow & prow & Ea & Ep & ->).
  assert (Hal : Z.of_nat (length arow) = m_cols actual).
  { rewrite Forall_forall in Hra. apply Hra.
    apply array_get_Ok in Ea as [_ Ea]. eapply list_elem_of_lookup_2; exact Ea. }
  assert (Hpl : Z.of_nat (length prow) = m_cols prediction).
  { rewrite Forall_forall in Hrp. apply Hrp.
    apply array_get_Ok in Ep as [_ Ep]. eapply list_elem_of_lookup_2; exact Ep. }
  rewrite (for_range_fold
    (zip_with (fun a p => a * libm_log (floor_at DBL_MIN p))%float arow prow)
    PrimFloat.add).
  - reflexivity.
  - rewrite length_zip_with_l_eq by lia. lia.
  - intros j y cur Hy.
    apply array_get_zip_with in Hy as (a & p & Eaj & Epj & ->).
    unfold mget. rewrite Ea, Ep, !bind_Ok, Eaj, Epj, !bind_Ok. reflexivity.
Qed.

(** The regularization loops of [crossEntropyLoss]. *)
Lemma loss_penalty_loops (net : Network) :
  Z.of_nat (length (connections net)) = numConnections net ->
  Forall (fun c => wfMatrix (c_weights c)) (connections net) ->
  for_range 0 (numConnections net) (fun i reg_err =>
      c ← array_get (connections net) i;
      let weights := c_weights c in
      for_range 0 (m_rows weights) (fun j reg_err =>
        for_range 0 (m_cols weights) (fun k reg_err =>
          w ← mget weights j k;
          Ok (reg_err + w * w)%float) reg_err) reg_err) 0%float
  = Ok (sum_of_squares net).
Proof.
  intros Hlen Hwf. unfold sum_of_squares, dsum.
  rewrite concat_map, map_map, <- fold_left_concat_map.
  apply for_range_fold; [exact Hlen|].
  intros i c reg Hc. rewrite Hc, bind_Ok. cbv zeta.
  assert (Hw : wfMatrix (c_weights c)).
  { rewrite Forall_forall in Hwf. apply Hwf.
    apply array_get_Ok in Hc as [_ Hc]. eapply list_elem_of_lookup_2; exact Hc. }
  destruct Hw as (_ & _ & Hl & Hr).
  rewrite <- fold_left_add_concat.
  apply for_range_fold; [exact Hl|].
  intros j row reg' Hrow.
  assert (Hrl : Z.of_nat (length row) = m_cols (c_weights c)).
  { rewrite Forall_forall in Hr. apply Hr.
    apply array_get_Ok in Hrow as [_ Hrow]. eapply list_elem_of_lookup_2; exact Hrow. }
  rewrite (for_range_fold row (fun a w => a + w * w)%float); [|exact Hrl|].
  - clear. revert reg'. induction row as [|w row IH]; intros reg'; simpl;
      [reflexivity|apply IH].
  - intros k w reg'' Hw. unfold mget. rewrite Hrow, bind_Ok, Hw, bind_Ok. reflexivity.
Qed.

End Loss.

Lemma Prim2SF_inj (x y : double) : Prim2SF x = Prim2SF y -> x = y.
Proof.
  intros H. rewrite <- (SF2Prim_Prim2SF x), <- (SF2Prim_Prim2SF y), H. reflexivity.
Qed.

Lemma add_nan (x : double) : (x + nan)%float = nan.
Proof.
  apply Prim2SF_inj. rewrite add_spec.
  change (Prim2SF nan) with S754_nan. destruct (Prim2SF x); reflexivity.
Qed.

(** [t * 0.0] is a zero exactly when [t] is finite. *)
Lemma mul_zero_finite (t : double) : deq (t * 0)%float 0%float = finite t.
Proof.
  unfold deq, finite. rewrite FloatAxioms.eqb_spec, mul_spec.
  change (Prim2SF 0%float) with (S754_zero false).
  destruct (Prim2SF t) as [[|]|[|]| |[|] m e]; reflexivity.
Qed.

Lemma deq_zero_inv (z : double) :
  deq z 0%float = true -> exists sz, Prim2SF z = S754_zero sz.
Proof.
  unfold deq. rewrite FloatAxioms.eqb_spec.
  change (Prim2SF 0%float) with (S754_zero false).
  destruct (Prim2SF z) as [sz|[|]| |[|] m e]; try discriminate. eauto.
Qed.

(** Adding a zero of either sign gives the same value. *)
Lemma add_zero_deq (x z z' : double) :
  deq z 0%float = true -> deq z' 0%float = true -> is_nan x = false ->
  deq (x + z)%float (x + z')%float = true.
Proof.
  intros Hz Hz' Hx.
  apply deq_zero_inv in Hz as (sz & Ez). apply deq_zero_inv in Hz' as (sz' & Ez').
  apply is_nan_false in Hx.
  unfold deq. rewrite FloatAxioms.eqb_spec, !add_spec, Ez, Ez'.
  destruct (Prim2SF x) as [[|]|[|]| |[|] m e]; try congruence;
    destruct sz, sz'; try reflexivity;
    apply SFeqb_refl; discriminate.
Qed.

(** C2, in the form that holds: for matrices of identical shape [crossEntropyLoss]
    returns [(-1/N) * sum_i sum_j actual[i][j] * ln(max(prediction[i][j],
    DBL_MIN))], [DBL_MIN] = 2^-1022 being the smallest positive normalised
    double, plus [s * 0.5 * penalty], where the penalty is the sum of the
    squares of all connection weights for a network and [0.0] for NULL.
    Without a network the added term is a zero exactly when [s * 0.5] is
    finite, and the returned value then compares equal to the specified
    loss; the function returns a double and nothing else. *)
Theorem crossEntropyLoss_formula libm_log (network : option Network)
    (prediction actual : Matrix) (s : double) :
  wfMatrix prediction -> wfMatrix actual ->
  m_rows prediction = m_rows actual -> m_cols prediction = m_cols actual ->
  (forall net, network = Some net -> wfNetwork net) ->
  exists loss,
    crossEntropyLoss libm_log network prediction actual s = Ok loss /\
    loss = (mean_log_loss libm_log DBL_MIN prediction actual
            + s * 0.5 * penalty network)%float /\
    (forall net, network = Some net ->
       loss = specified_loss libm_log DBL_MIN network prediction actual s) /\
    (network = None ->
       deq (s * 0.5 * penalty network)%float 0%float = finite (s * 0.5)%float /\
       (finite (s * 0.5)%float = true ->
        is_nan (mean_log_loss libm_log DBL_MIN prediction actual) = false ->
        deq loss (specified_loss libm_log DBL_MIN network prediction actual s) = true)).
Proof.
  intros Hp Ha Hrows Hcols Hnet. eexists. split; [|split; [reflexivity|split]].
  - unfold crossEntropyLoss.
    rewrite (proj2 (Z.eqb_eq _ _) Hrows), (proj2 (Z.eqb_eq _ _) Hcols).
    simpl negb. cbv iota.
    rewrite (loss_data_loops libm_log prediction actual Hp Ha Hrows Hcols), bind_Ok.
    destruct network as [net|].
    + pose proof (Hnet net eq_refl) as W.
      rewrite loss_penalty_loops, bind_Ok; [reflexivity|apply (wf_conns_len net W)|].
      apply Forall_forall. intros c Hc. apply list_elem_of_lookup in Hc as (k & Hk).
      apply array_get_lookup in Hk.
      destruct (wf_links net W _ _ Hk) as (lf & lt & _ & _ & _ & _ & Hw & _).
      exact Hw.
    + rewrite bind_Ok. reflexivity.
  - intros net ->. reflexivity.
  - intros ->. simpl penalty. split; [apply mul_zero_finite|].
    intros Hfin Hnan. unfold specified_loss.
    apply add_zero_deq; [|reflexivity|exact Hnan].
    rewrite mul_zero_finite. exact Hfin.
Qed.

(** With an infinite strength and no network the regularization term
    [inf * 0.5 * 0.0] is NaN and so is the returned loss, although the
    specified loss does not depend on the strength; and the floor under the
    logarithm is [DBL_MIN], which lies above the smallest positive
    double. *)
Lemma crossEntropyLoss_infinite_strength :
  (forall libm_log,
     crossEntropyLoss libm_log None half_half first_class infinity = Ok nan) /\
  (forall libm_log,
     crossEntropyLoss libm_log None half_half first_class 0%float
     = Ok (specified_loss libm_log DBL_MIN None half_half first_class infinity)) /\
  deq (infinity * 0.5 * penalty None)%float 0%float = false /\
  floor_at DBL_MIN smallest_positive = DBL_MIN /\
  floor_at smallest_positive smallest_positive = smallest_positive /\
  PrimFloat.ltb 0%float smallest_positive = true /\
  PrimFloat.ltb smallest_positive DBL_MIN = true.
Proof.
  split; [|split; [|repeat split; reflexivity]].
  - intros libm_log. unfold crossEntropyLoss. simpl.
    change (infinity * 0.5 * 0)%float with nan. rewrite add_nan. reflexivity.
  - intros libm_log. reflexivity.
Qed.

(** ** Writing a network *)

Lemma fold_left_append {A : Type} (chunks : list (list A)) (acc : list A) :
  fold_left (fun a c => a ++ c) chunks acc = acc ++ concat chunks.
Proof.
  revert acc. induction chunks as [|c chunks IH]; intros acc; simpl.
  - rewrite app_nil_r. reflexivity.
  - rewrite IH, <- app_assoc. reflexivity.
Qed.

(** A loop that appends the chunk [chunks[i]] in iteration [i]. *)
Lemma for_range_append {A : Type} (chunks : list (list A))
    (body : Z -> list A -> result (list A)) (n : Z) (fp : list A) :
  Z.of_nat (length chunks) = n ->
  (forall i c fp, array_get chunks i = Ok c -> body i fp = Ok (fp ++ c)) ->
  for_range 0 n body fp = Ok (fp ++ concat chunks).
Proof.
  intros Hn H. rewrite <- fold_left_append.
  apply for_range_fold; [exact Hn|exact H].
Qed.

Lemma concat_map_singleton {A B : Type} (f : A -> B) (l : list A) :
  concat (map (fun x => [f x]) l) = map f l.
Proof. induction l as [|x l IH]; simpl; [reflexivity|]. rewrite IH. reflexivity. Qed.

Lemma array_get_map_inv {A B : Type} (f : A -> B) (l : list A) (i : Z) (y : B) :
  array_get (map f l) i = Ok y -> exists x, array_get l i = Ok x /\ y = f x.
Proof.
  rewrite array_get_Ok. intros [Hi H].
  change (map f l) with (f <$> l) in H. rewrite list_lookup_fmap in H.
  destruct (l !! Z.to_nat i) as [x|] eqn:E; [|discriminate].
  injection H as <-. exists x. split; [|reflexivity].
  apply array_get_Ok. auto.
Qed.

Lemma array_get_hidden_layers (n : Network) (i : Z) (l : Layer) :
  array_get (hidden_layers n) i = Ok l ->
  array_get (layers n) (1 + i) = Ok l /\ 0 <= i < numLayers n - 2.
Proof.
  unfold hidden_layers. rewrite !array_get_Ok. intros [Hi H].
  apply lookup_take_Some in H as [H Hlt]. rewrite lookup_drop in H.
  split; [|lia]. split; [lia|].
  replace (Z.to_nat (1 + i)) with (1 + Z.to_nat i)%nat by lia. exact H.
Qed.

Lemma hidden_layers_length (n : Network) :
  wfNetwork n -> Z.of_nat (length (hidden_layers n)) = numLayers n - 2.
Proof.
  intros W. pose proof (wf_layers_len n W). pose proof (wf_numLayers n W).
  unfold hidden_layers. rewrite length_take, length_drop. lia.
Qed.

Lemma wfNetwork_weights (n : Network) (k : Z) (c : Connection) :
  wfNetwork n -> array_get (connections n) k = Ok c ->
  wfMatrix (c_weights c) /\ wfMatrix (c_bias c) /\ m_rows (c_bias c) = 1.
Proof.
  intros W Hc.
  destruct (wf_links n W _ _ Hc) as (lf & lt & _ & _ & _ & _ & Hw & _ & _ & Hb & Hr & _).
  auto.
Qed.

Lemma Forall_array_get {A : Type} (P : A -> Prop) (l : list A) (i : Z) (x : A) :
  Forall P l -> array_get l i = Ok x -> P x.
Proof.
  intros H Hx. rewrite Forall_forall in H. apply H.
  apply array_get_Ok in Hx as [_ Hx]. eapply list_elem_of_lookup_2; exact Hx.
Qed.

Section Save.

Variable fmt_d : Z -> string.
Variable fmt_la : double -> string.

(** The rows of a matrix, written row-major. *)
Lemma save_matrix_rows (m : Matrix) (fp : file) :
  wfMatrix m ->
  for_range 0 (m_rows m) (fun i fp =>
      for_range 0 (m_cols m) (fun j fp =>
        x ← mget m i j;
        Ok (fp ++ [fmt_la x])) fp) fp
  = Ok (fp ++ map fmt_la (concat (m_data m))).
Proof.
  intros (_ & _ & Hl & Hr).
  rewrite (for_range_append (map (map fmt_la) (m_data m))).
  - rewrite <- concat_map. reflexivity.
  - rewrite length_map. exact Hl.
  - intros i c fp' Hc. apply array_get_map_inv in Hc as (row & Hrow & ->).
    rewrite (for_range_append (map (fun x => [fmt_la x]) row)).
    + rewrite concat_map_singleton. reflexivity.
    + rewrite length_map. apply (Forall_array_get _ _ _ _ Hr Hrow).
    + intros j c fp'' Hc. apply array_get_map_inv in Hc as (x & Hx & ->).
      unfold mget. rewrite Hrow, bind_Ok, Hx, bind_Ok. reflexivity.
Qed.

(** The bias row of a connection. *)
Lemma save_bias_row (m : Matrix) (fp : file) :
  wfMatrix m ->
  for_range 0 (m_cols m) (fun i fp =>
      x ← mget m 0 i;
      Ok (fp ++ [fmt_la x])) fp
  = Ok (fp ++ map fmt_la (nth 0 (m_data m) [])).
Proof.
  intros (Hr0 & _ & Hl & Hr).
  assert (Hrow : array_get (m_data m) 0 = Ok (nth 0 (m_data m) [])).
  { apply (array_get_nth (m_data m) 0 []). lia. }
  rewrite (for_range_append (map (fun x => [fmt_la x]) (nth 0 (m_data m) []))).
  - rewrite concat_map_singleton. reflexivity.
  - rewrite length_map. apply (Forall_array_get _ _ _ _ Hr Hrow).
  - intros j c fp' Hc. apply array_get_map_inv in Hc as (x & Hx & ->).
    unfold mget. rewrite Hrow, bind_Ok, Hx, bind_Ok. reflexivity.
Qed.

(** [saveNetwork] writes the file [saved]: the layer count, the sizes, one
    name per hidden layer, the output activation's name if it is softmax,
    the weights, the biases. *)
Lemma saveNetwork_saved (n : Network) :
  wfNetwork n -> saveNetwork fmt_d fmt_la n = Ok (saved fmt_d fmt_la n).
Proof.
  intros W. pose proof (wf_layers_len n W) as Hll. pose proof (wf_numLayers n W) as H2.
  pose proof (wf_conns_len n W) as Hcl.
  unfold saveNetwork.
  rewrite (for_range_append (map (fun l => [fmt_d (l_size l)]) (layers n))).
  2:{ rewrite length_map. exact Hll. }
  2:{ intros i c fp Hc. apply array_get_map_inv in Hc as (l & Hl & ->).
      rewrite Hl, bind_Ok. reflexivity. }
  rewrite bind_Ok, concat_map_singleton.
  rewrite (for_range_append (map (fun l => [hidden_name l]) (hidden_layers n))).
  2:{ rewrite length_map. apply hidden_layers_length, W. }
  2:{ intros i c fp Hc. apply array_get_map_inv in Hc as (l & Hl & ->).
      apply array_get_hidden_layers in Hl as [Hl _].
      rewrite Hl, bind_Ok. reflexivity. }
  rewrite bind_Ok, concat_map_singleton.
  destruct (array_get_in_range (layers n) (numLayers n - 1)) as (lo & Elo); [lia|].
  rewrite Elo, bind_Ok.
  rewrite (for_range_append
    (map (fun c => map fmt_la (concat (m_data (c_weights c)))) (connections n))).
  2:{ rewrite length_map. exact Hcl. }
  2:{ intros k c fp Hc. apply array_get_map_inv in Hc as (con & Hcon & ->).
      rewrite Hcon, bind_Ok. apply save_matrix_rows.
      apply (wfNetwork_weights n k con W Hcon). }
  rewrite bind_Ok.
  rewrite (for_range_append
    (map (fun c => map fmt_la (nth 0 (m_data (c_bias c)) [])) (connections n))).
  2:{ rewrite length_map. exact Hcl. }
  2:{ intros k c fp Hc. apply array_get_map_inv in Hc as (con & Hcon & ->).
      rewrite Hcon, bind_Ok. apply save_bias_row.
      apply (wfNetwork_weights n k con W Hcon). }
  rewrite bind_Ok. f_equal.
  unfold saved, saved_head, saved_parameters, output_name, output_activation,
    weight_values, bias_values.
  rewrite Elo, !concat_map, !map_map. unfold activation_is.
  destruct (l_activation lo) as [[| | | |]|]; simpl;
    rewrite <- ?app_assoc; simpl; rewrite <- ?app_assoc; reflexivity.
Qed.

End Save.

(** ** Reading a file *)

Lemma scan_line_cons {A : Type} (scan : string -> option A) (line : string)
    (rest : file) (buf : option string) :
  scan_line scan (line :: rest, buf) = Ok ((rest, Some EmptyString), scan line).
Proof. reflexivity. Qed.

Lemma scan_line_initialised {A : Type} (scan : string -> option A) (fp : file)
    (b : string) :
  exists fp' r, scan_line scan (fp, Some b) = Ok ((fp', Some EmptyString), r).
Proof. destruct fp as [|line rest]; eexists _, _; reflexivity. Qed.

(** A loop whose iteration [i] takes the lines [chunks[i]] off the stream
    ([buf] has been written to before). *)
Lemma chunk_loop {T : Type} (R : Z -> T -> Prop)
    (body : Z -> stream * T -> result (stream * T))
    (chunks : list (list string)) (rest : file) (n : Z) (buf : string) (t0 : T) :
  Z.of_nat (length chunks) = n ->
  R 0 t0 ->
  (forall i chunk tail buf t,
     array_get chunks i = Ok chunk -> R i t ->
     exists t' buf',
       body i ((chunk ++ tail, Some buf), t) = Ok ((tail, Some buf'), t') /\
       R (i + 1) t') ->
  exists t' buf',
    for_range 0 n body ((concat chunks ++ rest, Some buf), t0)
    = Ok ((rest, Some buf'), t') /\
    R n t'.
Proof.
  intros Hn H0 Hstep.
  destruct (for_range_inv
    (fun i (x : stream * T) =>
       exists buf, fst x = (concat (drop (Z.to_nat i) chunks) ++ rest, Some buf) /\
                   R i (snd x))
    body 0 n ((concat chunks ++ rest, Some buf), t0))
    as ([st t'] & E & (buf' & Hst & Ht)).
  - lia.
  - exists buf. split; [reflexivity|exact H0].
  - intros i [st t] Hi (b & Hst & Ht). simpl in Hst, Ht. subst st.
    destruct (array_get_in_range chunks i) as (chunk & Ec); [lia|].
    pose proof Ec as Ec'. apply array_get_Ok in Ec' as [_ Ec'].
    rewrite (drop_S _ _ _ Ec'). simpl concat. rewrite <- app_assoc.
    destruct (Hstep i chunk (concat (drop (S (Z.to_nat i)) chunks) ++ rest) b t Ec Ht)
      as (t' & b' & E & Ht').
    exists ((concat (drop (S (Z.to_nat i)) chunks) ++ rest, Some b'), t').
    split; [exact E|]. exists b'. simpl.
    replace (Z.to_nat (i + 1)) with (S (Z.to_nat i)) by lia. auto.
  - simpl in Hst, Ht. subst st. exists t', buf'. split; [|exact Ht].
    rewrite E. rewrite drop_ge by lia. reflexivity.
Qed.

(** A loop whose every iteration takes one line off the stream. *)
Lemma line_loop {T : Type} (R : Z -> T -> Prop)
    (body : Z -> stream * T -> result (stream * T))
    (lines : list string) (rest : file) (n : Z) (buf : string) (t0 : T) :
  Z.of_nat (length lines) = n ->
  R 0 t0 ->
  (forall i line tail buf t,
     array_get lines i = Ok line -> R i t ->
     exists t' buf',
       body i ((line :: tail, Some buf), t) = Ok ((tail, Some buf'), t') /\
       R (i + 1) t') ->
  exists t' buf',
    for_range 0 n body ((lines ++ rest, Some buf), t0) = Ok ((rest, Some buf'), t') /\
    R n t'.
Proof.
  intros Hn H0 Hstep.
  replace lines with (concat (map (fun l => [l]) lines))
    by (rewrite concat_map_singleton; apply map_id).
  apply chunk_loop; [rewrite length_map; exact Hn|exact H0|].
  intros i chunk tail b t Hc Ht.
  apply array_get_map_inv in Hc as (line & Hl & ->). apply Hstep; assumption.
Qed.

(** Storing [target[i]] in slot [i] of an array that already holds the
    first [i] entries of [target]. *)
Lemma insert_take_drop {A : Type} (target orig : list A) (i : nat) (x : A) :
  length target = length orig ->
  target !! i = Some x ->
  <[i := x]> (take i target ++ drop i orig) = take (S i) target ++ drop (S i) orig.
Proof.
  intros Hlen Hx. pose proof (lookup_lt_Some _ _ _ Hx) as Hi.
  rewrite insert_app_r_alt by (rewrite length_take; lia).
  rewrite length_take, Nat.min_l, Nat.sub_diag by lia.
  destruct (lookup_lt_is_Some_2 orig i) as [y Hy]; [lia|].
  rewrite (drop_S _ _ _ Hy). simpl.
  rewrite (take_S_r _ _ _ Hx), <- app_assoc. reflexivity.
Qed.

Lemma array_set_take_drop {A : Type} (target orig : list A) (i : Z) (x : A) :
  length target = length orig ->
  array_get target i = Ok x ->
  array_set (take (Z.to_nat i) target ++ drop (Z.to_nat i) orig) i x
  = Ok (take (Z.to_nat (i + 1)) target ++ drop (Z.to_nat (i + 1)) orig).
Proof.
  intros Hlen Hx. pose proof (array_get_length _ _ _ Hx) as Hi.
  apply array_get_Ok in Hx as [_ Hx].
  rewrite array_set_Ok.
  - rewrite insert_take_drop by assumption.
    replace (Z.to_nat (i + 1)) with (S (Z.to_nat i)) by lia. reflexivity.
  - rewrite length_app, length_take, length_drop. lia.
Qed.

Lemma take_drop_all {A : Type} (target orig : list A) (n : Z) :
  length target = length orig -> Z.of_nat (length target) = n ->
  take (Z.to_nat n) target ++ drop (Z.to_nat n) orig = target.
Proof.
  intros Hlen Hn. rewrite take_ge, drop_ge by lia. apply app_nil_r.
Qed.

Lemma same_dims_refl (m : Matrix) : wfMatrix m -> same_dims m m.
Proof. intros H. repeat split; apply H. Qed.

Lemma same_dims_trans (m0 m1 m2 : Matrix) :
  same_dims m0 m1 -> same_dims m1 m2 -> same_dims m0 m2.
Proof. intros (? & ? & ?) (? & ? & ?). repeat split; try congruence; apply H4. Qed.

Lemma mset_shape (w : Matrix) (i j : Z) (x : double) :
  wfMatrix w -> 0 <= i < m_rows w -> 0 <= j < m_cols w ->
  exists w', mset w i j x = Ok w' /\ same_dims w w'.
Proof.
  intros (Hr & Hc & Hl & Hrows) Hi Hj. unfold mset.
  destruct (array_get_in_range (m_data w) i) as (row & Erow); [lia|].
  pose proof (Forall_array_get _ _ _ _ Hrows Erow) as Hrl. simpl in Hrl.
  rewrite Erow, bind_Ok, array_set_Ok, bind_Ok, array_set_Ok, bind_Ok by lia.
  eexists. split; [reflexivity|].
  unfold same_dims, wfMatrix; simpl. rewrite length_insert.
  repeat split; try assumption.
  apply Forall_insert; [exact Hrows|]. rewrite length_insert. exact Hrl.
Qed.

Section ReadParameters.

Variable scan_la : string -> option double.

(** The loops that fill one weight matrix run to their end on any
    stream, and keep the shape of the matrix. *)
Lemma read_weights_completes (rows cols : Z) (w0 : Matrix) (fp : file) (b : string) :
  wfMatrix w0 -> rows = m_rows w0 -> cols = m_cols w0 ->
  exists fp' b' w',
    for_range 0 rows (fun i '(st, w) =>
        for_range 0 cols (fun j '(st, w) =>
          '(st, r) ← scan_line scan_la st;
          w ← match r with
               | Some x => mset w i j x
               | None => Ok w
               end;
          Ok (st, w)) (st, w)) ((fp, Some b), w0)
    = Ok ((fp', Some b'), w') /\ same_dims w0 w'.
Proof.
  intros Hw -> ->.
  pose (P := fun (_ : Z) (x : stream * Matrix) =>
               (exists fp b, fst x = (fp, Some b)) /\ same_dims w0 (snd x)).
  destruct (for_range_inv P
    (fun i '(st, w) =>
        for_range 0 (m_cols w0) (fun j '(st, w) =>
          '(st, r) ← scan_line scan_la st;
          w ← match r with
               | Some x => mset w i j x
               | None => Ok w
               end;
          Ok (st, w)) (st, w))
    0 (m_rows w0) ((fp, Some b), w0)) as ([st w'] & E & (fp' & b' & Hst) & Hd).
  - destruct Hw as (? & _). lia.
  - split; [eauto|apply same_dims_refl, Hw].
  - intros i [st w] Hi HP.
    destruct (for_range_inv P
      (fun j '(st, w) =>
          '(st, r) ← scan_line scan_la st;
          w ← match r with
               | Some x => mset w i j x
               | None => Ok w
               end;
          Ok (st, w))
      0 (m_cols w0) (st, w)) as (x & E & HP').
    + destruct Hw as (_ & ? & _). lia.
    + exact HP.
    + intros j [st1 w1] Hj ((fp1 & b1 & Hst1) & Hd1). simpl in Hst1, Hd1. subst st1.
      destruct (scan_line_initialised scan_la fp1 b1) as (fp2 & r & ->).
      rewrite bind_Ok. destruct Hd1 as (Hr1 & Hc1 & Hw1).
      destruct r as [x|].
      * destruct (mset_shape w1 i j x Hw1) as (w2 & -> & Hd2); [lia|lia|].
        rewrite bind_Ok. eexists. split; [reflexivity|].
        split; [simpl; eauto|]. simpl.
        apply (same_dims_trans w0 w1 w2); [exact (conj Hr1 (conj Hc1 Hw1))|exact Hd2].
      * rewrite bind_Ok. eexists. split; [reflexivity|].
        split; [simpl; eauto|]. exact (conj Hr1 (conj Hc1 Hw1)).
    + exists x. split; [exact E|exact HP'].
  - simpl in Hst, Hd. subst st. exists fp', b', w'. split; [exact E|exact Hd].
Qed.

(** So does the loop that fills one bias row. *)
Lemma read_bias_completes (cols : Z) (b0 : Matrix) (fp : file) (b : string) :
  wfMatrix b0 -> cols = m_cols b0 ->
  exists fp' b' m',
    for_range 0 cols (fun i '(st, m) =>
        '(st, r) ← scan_line scan_la st;
        m ← match r with
             | Some x => mset m 0 i x
             | None => Ok m
             end;
        Ok (st, m)) ((fp, Some b), b0)
    = Ok ((fp', Some b'), m') /\ same_dims b0 m'.
Proof.
  intros Hw ->.
  pose (P := fun (_ : Z) (x : stream * Matrix) =>
               (exists fp b, fst x = (fp, Some b)) /\ same_dims b0 (snd x)).
  destruct (for_range_inv P
    (fun i '(st, m) =>
        '(st, r) ← scan_line scan_la st;
        m ← match r with
             | Some x => mset m 0 i x
             | None => Ok m
             end;
        Ok (st, m))
    0 (m_cols b0) ((fp, Some b), b0)) as ([st m'] & E & (fp' & b' & Hst) & Hd).
  - destruct Hw as (_ & ? & _). lia.
  - split; [eauto|apply same_dims_refl, Hw].
  - intros j [st1 w1] Hj ((fp1 & b1 & Hst1) & Hd1). simpl in Hst1, Hd1. subst st1.
    destruct (scan_line_initialised scan_la fp1 b1) as (fp2 & r & ->).
    rewrite bind_Ok. destruct Hd1 as (Hr1 & Hc1 & Hw1).
    destruct r as [x|].
    + destruct (mset_shape w1 0 j x Hw1) as (w2 & -> & Hd2);
        [destruct Hw1 as (? & _); lia|lia|].
      rewrite bind_Ok. eexists. split; [reflexivity|].
      split; [simpl; eauto|]. simpl.
      apply (same_dims_trans b0 w1 w2); [exact (conj Hr1 (conj Hc1 Hw1))|exact Hd2].
    + rewrite bind_Ok. eexists. split; [reflexivity|].
      split; [simpl; eauto|]. exact (conj Hr1 (conj Hc1 Hw1)).
  - simpl in Hst, Hd. subst st. exists fp', b', m'. split; [exact E|exact Hd].
Qed.

End ReadParameters.

Lemma wired_like_insert (cs0 cs : list Connection) (k : Z) (c0 c' : Connection) :
  wired_like cs0 cs ->
  array_get cs0 k = Ok c0 -> same_wiring c0 c' ->
  wired_like cs0 (<[Z.to_nat k := c']> cs).
Proof.
  intros (Hlen & H) Hc0 Hw. split; [rewrite length_insert; exact Hlen|].
  intros j d0 d Hd0 Hd. pose proof (array_get_length _ _ _ Hc0) as Hk.
  destruct (Z.eq_dec j k) as [->|Hne].
  - rewrite array_get_insert_eq in Hd by lia. injection Hd as <-.
    assert (d0 = c0) by congruence. subst d0. exact Hw.
  - pose proof (array_get_length _ _ _ Hd0) as Hj.
    rewrite array_get_insert_ne in Hd by lia. apply (H j); assumption.
Qed.

Section ReadConnections.

Variable scan_la : string -> option double.

(** The weight loop of [readNetwork] runs to its end on any stream and
    keeps the wiring and the shapes of the connections. *)
Lemma weights_loop_completes (cs0 cs : list Connection) (nc : Z) (fp : file) (b : string) :
  wired_like cs0 cs -> Z.of_nat (length cs0) = nc ->
  exists fp' b' cs',
    fill_in_weights scan_la nc ((fp, Some b), cs)
    = Ok ((fp', Some b'), cs') /\ wired_like cs0 cs'.
Proof.
  unfold fill_in_weights.
  intros Hwl Hnc.
  pose (P := fun (_ : Z) (x : stream * list Connection) =>
               (exists fp b, fst x = (fp, Some b)) /\ wired_like cs0 (snd x)).
  destruct (for_range_inv P
    (fun k '(st, conns) =>
        con ← array_get conns k;
        '(st, w) ← for_range 0 (m_rows (c_weights con)) (fun i '(st, w) =>
            for_range 0 (m_cols (c_weights con)) (fun j '(st, w) =>
              '(st, r) ← scan_line scan_la st;
              w ← match r with
                   | Some x => mset w i j x
                   | None => Ok w
                   end;
              Ok (st, w)) (st, w)) (st, c_weights con);
        conns ← array_set conns k (set_weights con w);
        Ok (st, conns))
    0 nc ((fp, Some b), cs)) as ([st cs'] & E & (fp' & b' & Hst) & Hd).
  - lia.
  - split; [eauto|exact Hwl].
  - intros k [st1 cs1] Hk ((fp1 & b1 & Hst1) & Hw1). simpl in Hst1, Hw1. subst st1.
    pose proof Hw1 as (Hlen1 & Hall1).
    destruct (array_get_in_range cs1 k) as (con & Econ); [lia|].
    destruct (array_get_in_range cs0 k) as (c0 & Ec0); [lia|].
    destruct (Hall1 k c0 con Ec0 Econ) as (Hf & Ht & Hdw & Hdb).
    rewrite Econ, bind_Ok.
    destruct (read_weights_completes scan_la (m_rows (c_weights con))
                (m_cols (c_weights con)) (c_weights con) fp1 b1)
      as (fp2 & b2 & w2 & E2 & Hd2); [apply Hdw|reflexivity|reflexivity|].
    rewrite E2, bind_Ok, array_set_Ok, bind_Ok by lia.
    eexists. split; [reflexivity|]. split; [simpl; eauto|]. simpl.
    apply (wired_like_insert cs0 cs1 k c0); [exact Hw1|exact Ec0|].
    split; [exact Hf|]. split; [exact Ht|]. split; [|exact Hdb].
    apply (same_dims_trans _ (c_weights con)); assumption.
  - simpl in Hst, Hd. subst st. exists fp', b', cs'. split; [exact E|exact Hd].
Qed.

(** So does the bias loop. *)
Lemma bias_loop_completes (cs0 cs : list Connection) (nc : Z) (fp : file) (b : string) :
  wired_like cs0 cs -> Z.of_nat (length cs0) = nc ->
  exists fp' b' cs',
    fill_in_bias scan_la nc ((fp, Some b), cs)
    = Ok ((fp', Some b'), cs') /\ wired_like cs0 cs'.
Proof.
  unfold fill_in_bias.
  intros Hwl Hnc.
  pose (P := fun (_ : Z) (x : stream * list Connection) =>
               (exists fp b, fst x = (fp, Some b)) /\ wired_like cs0 (snd x)).
  destruct (for_range_inv P
    (fun k '(st, conns) =>
        con ← array_get conns k;
        '(st, b) ← for_range 0 (m_cols (c_bias con)) (fun i '(st, b) =>
            '(st, r) ← scan_line scan_la st;
            b ← match r with
                 | Some x => mset b 0 i x
                 | None => Ok b
                 end;
            Ok (st, b)) (st, c_bias con);
        conns ← array_set conns k (set_bias con b);
        Ok (st, conns))
    0 nc ((fp, Some b), cs)) as ([st cs'] & E & (fp' & b' & Hst) & Hd).
  - lia.
  - split; [eauto|exact Hwl].
  - intros k [st1 cs1] Hk ((fp1 & b1 & Hst1) & Hw1). simpl in Hst1, Hw1. subst st1.
    pose proof Hw1 as (Hlen1 & Hall1).
    destruct (array_get_in_range cs1 k) as (con & Econ); [lia|].
    destruct (array_get_in_range cs0 k) as (c0 & Ec0); [lia|].
    destruct (Hall1 k c0 con Ec0 Econ) as (Hf & Ht & Hdw & Hdb).
    rewrite Econ, bind_Ok.
    destruct (read_bias_completes scan_la (m_cols (c_bias con)) (c_bias con) fp1 b1)
      as (fp2 & b2 & w2 & E2 & Hd2); [apply Hdb|reflexivity|].
    rewrite E2, bind_Ok, array_set_Ok, bind_Ok by lia.
    eexists. split; [reflexivity|]. split; [simpl; eauto|]. simpl.
    apply (wired_like_insert cs0 cs1 k c0); [exact Hw1|exact Ec0|].
    split; [exact Hf|]. split; [exact Ht|]. split; [exact Hdw|].
    apply (same_dims_trans _ (c_bias con)); assumption.
  - simpl in Hst, Hd. subst st. exists fp', b', cs'. split; [exact E|exact Hd].
Qed.

End ReadConnections.

Lemma read_var_Some {A : Type} (a : A) : read_var (Some a) = Ok a.
Proof. reflexivity. Qed.

Lemma vla_pos {A : Type} (n : Z) :
  0 < n -> vla n = Ok (replicate (Z.to_nat n) (@None A)).
Proof. intros H. unfold vla. destruct (Z.ltb_spec 0 n); [reflexivity|lia]. Qed.

(** Reading slot [i] of a fully assigned array of variables. *)
Lemma array_get_assigned {A : Type} (l : list A) (i : Z) (x : A) :
  array_get l i = Ok x -> (array_get (map Some l) i ≫= read_var) = Ok x.
Proof. intros H. rewrite (array_get_map Some l i x H). reflexivity. Qed.

Lemma Forall2_array_get {A B : Type} (P : A -> B -> Prop) (l : list A) (k : list B)
    (i : Z) (x : A) :
  Forall2 P l k -> array_get l i = Ok x ->
  exists y, array_get k i = Ok y /\ P x y.
Proof.
  intros H Hx. apply array_get_Ok in Hx as [Hi Hx].
  destruct (Forall2_lookup_l _ _ _ _ _ H Hx) as (y & Hy & HP).
  exists y. split; [apply array_get_Ok; auto|exact HP].
Qed.

Lemma wired_like_refl (cs : list Connection) :
  (forall k c, array_get cs k = Ok c -> wfMatrix (c_weights c) /\ wfMatrix (c_bias c)) ->
  wired_like cs cs.
Proof.
  intros H. split; [reflexivity|]. intros k c0 c H0 H1.
  assert (c = c0) by congruence. subst c. destruct (H k c0 H0) as [Hw Hb].
  split; [reflexivity|]. split; [reflexivity|].
  split; apply same_dims_refl; assumption.
Qed.

Lemma array_get_take_drop {A : Type} (l : list A) (n : Z) (i : Z) (x : A) :
  array_get (take (Z.to_nat n) (drop 1 l)) i = Ok x ->
  array_get l (1 + i) = Ok x /\ 0 <= i < n.
Proof.
  rewrite !array_get_Ok. intros [Hi H].
  apply lookup_take_Some in H as [H Hlt]. rewrite lookup_drop in H.
  split; [|lia]. split; [lia|].
  replace (Z.to_nat (1 + i)) with (1 + Z.to_nat i)%nat by lia. exact H.
Qed.

Lemma array_get_take {A : Type} (l : list A) (n : Z) (i : Z) (x : A) :
  array_get (take (Z.to_nat n) l) i = Ok x -> array_get l i = Ok x /\ 0 <= i < n.
Proof.
  rewrite !array_get_Ok. intros [Hi H].
  apply lookup_take_Some in H as [H Hlt]. split; [|lia]. auto.
Qed.

Section ReadHeader.

Variable scan_d : string -> option Z.
Variable scan_la : string -> option double.
Variable scan_s : string -> option string.
Variable init_weight : Z -> Z -> Z -> double.
Variable init_bias : Z -> Z -> double.

(** The size loop of [readNetwork]. *)
Lemma read_sizes_loop (size_lines : file) (sizes : list Z) (rest : file)
    (buf : string) (L : Z) :
  Z.of_nat (length sizes) = L ->
  Forall2 (fun line v => scan_d line = Some v) size_lines sizes ->
  exists buf',
    for_range 0 L (fun i '(st, layerSizes) =>
        '(st, r) ← scan_line scan_d st;
        layerSizes ← match r with
                      | Some v => array_set layerSizes i (Some v)
                      | None => Ok layerSizes
                      end;
        Ok (st, layerSizes))
      ((size_lines ++ rest, Some buf), replicate (Z.to_nat L) None)
    = Ok ((rest, Some buf'), map Some sizes).
Proof.
  intros HL HF. pose proof (Forall2_length _ _ _ HF) as Hlen.
  match goal with
  | |- context [for_range 0 L ?body _] =>
      destruct (line_loop
        (fun i (arr : list (option Z)) =>
           arr = take (Z.to_nat i) (map Some sizes)
                 ++ drop (Z.to_nat i) (replicate (Z.to_nat L) None))
        body size_lines rest L buf (replicate (Z.to_nat L) None))
        as (arr & buf' & E & HR)
  end.
  - lia.
  - reflexivity.
  - intros i line tail b arr Hline ->.
    destruct (Forall2_array_get _ _ _ _ _ HF Hline) as (v & Hv & Hscan).
    rewrite scan_line_cons, bind_Ok. cbv beta iota. rewrite Hscan.
    rewrite (array_set_take_drop (map Some sizes) _ i (Some v)).
    + rewrite bind_Ok. eexists _, _. split; reflexivity.
    + rewrite length_map, length_replicate. lia.
    + apply array_get_map, Hv.
  - exists buf'. rewrite E, HR. f_equal. f_equal.
    apply take_drop_all; rewrite length_map; [rewrite length_replicate|]; lia.
Qed.

(** The activation loop of [readNetwork]. *)
Lemma read_funcs_loop (token_lines : file) (tokens : list string) (rest : file)
    (buf : string) (n : Z) :
  Z.of_nat (length tokens) = n ->
  Forall2 (fun line t => scan_s line = Some t) token_lines tokens ->
  exists buf' funcString,
    for_range 0 n (fun i '(st, (funcString, funcs)) =>
        '(st, r) ← scan_line scan_s st;
        let funcString := match r with Some s => Some s | None => funcString end in
        s ← read_var funcString;
        funcs ← array_set funcs i (Some (activation_of_name s));
        Ok (st, (funcString, funcs)))
      ((token_lines ++ rest, Some buf), (None, replicate (Z.to_nat n) None))
    = Ok ((rest, Some buf'), (funcString, map Some (map activation_of_name tokens))).
Proof.
  intros HL HF. pose proof (Forall2_length _ _ _ HF) as Hlen.
  match goal with
  | |- context [for_range 0 n ?body _] =>
      destruct (line_loop
        (fun i (x : option string * list (option Activation)) =>
           snd x = take (Z.to_nat i) (map Some (map activation_of_name tokens))
                   ++ drop (Z.to_nat i) (replicate (Z.to_nat n) None))
        body token_lines rest n buf (None, replicate (Z.to_nat n) None))
        as ([fs arr] & buf' & E & HR)
  end.
  - lia.
  - reflexivity.
  - intros i line tail b [fs arr] Hline HR. simpl in HR. subst arr.
    destruct (Forall2_array_get _ _ _ _ _ HF Hline) as (t & Ht & Hscan).
    rewrite scan_line_cons, bind_Ok. cbv beta iota zeta. rewrite Hscan.
    rewrite read_var_Some, bind_Ok.
    rewrite (array_set_take_drop (map Some (map activation_of_name tokens)) _ i
               (Some (activation_of_name t))).
    + rewrite bind_Ok. eexists (_, _), _. split; reflexivity.
    + rewrite !length_map, length_replicate. lia.
    + apply array_get_map, array_get_map, Ht.
  - simpl in HR. exists buf', fs. rewrite E, HR. f_equal. f_equal. f_equal.
    apply take_drop_all; rewrite !length_map; [rewrite length_replicate|]; lia.
Qed.

(** [readNetwork] on a file that starts with a layer count, as many
    positive sizes and one activation token per non-input layer: the
    reader constructs the network [read_built] and goes on to fill in its
    parameters from the rest of the file. *)
Lemma readNetwork_to_parameters (dl : string) (size_lines token_lines rest : file)
    (sizes : list Z) (tokens : list string) :
  scan_d dl = Some (Z.of_nat (length sizes)) ->
  2 <= Z.of_nat (length sizes) ->
  Forall2 (fun line v => scan_d line = Some v) size_lines sizes ->
  Forall (fun v => 0 < v) sizes ->
  Z.of_nat (length tokens) = Z.of_nat (length sizes) - 1 ->
  Forall2 (fun line t => scan_s line = Some t) token_lines tokens ->
  wfNetwork (read_built init_weight init_bias sizes tokens) /\
  exists buf,
    readNetwork scan_d scan_la scan_s init_weight init_bias
      (dl :: size_lines ++ token_lines ++ rest)
    = (let B := read_built init_weight init_bias sizes tokens in
       s ← fill_in_weights scan_la (numConnections B) ((rest, Some buf), connections B);
       '(st, conns) ← fill_in_bias scan_la (numConnections B) s;
       Ok (mkNetwork (numLayers B) (layers B) (numConnections B) conns)).
Proof.
  intros Hd H2 Hsz Hpos Htl Htok.
  assert (Hin : forall v, In v sizes -> 0 < v).
  { intros v Hv. rewrite Forall_forall in Hpos. apply Hpos, list_elem_of_In, Hv. }
  split.
  { unfold read_built. cbv zeta. apply built_wf; try lia.
    - apply Hin, nth_In. lia.
    - apply Hin, nth_In. lia.
    - rewrite length_take, length_drop. lia.
    - apply Forall_forall. intros v Hv. apply Hin, list_elem_of_In.
      apply (subseteq_drop 1 sizes),
            (subseteq_take (Z.to_nat (Z.of_nat (length sizes) - 2)) (drop 1 sizes)).
      exact Hv. }
  set (L := Z.of_nat (length sizes)) in *.
  unfold readNetwork.
  rewrite scan_line_cons, bind_Ok. cbv beta iota. rewrite Hd, read_var_Some, bind_Ok.
  rewrite (@vla_pos Z L) by lia. rewrite bind_Ok.
  destruct (read_sizes_loop size_lines sizes (token_lines ++ rest)
              EmptyString L eq_refl Hsz) as (buf1 & E1).
  rewrite E1, bind_Ok. cbv beta iota.
  rewrite (@vla_pos Activation (L - 1)) by lia. rewrite bind_Ok.
  destruct (read_funcs_loop token_lines tokens rest buf1 (L - 1) Htl Htok)
    as (buf2 & fs & E2).
  cbv zeta in E2 |- *. rewrite E2, bind_Ok. cbv beta iota.
  rewrite (array_get_assigned sizes 0 (nth 0 sizes 0)), bind_Ok
    by (apply (array_get_nth sizes 0 0); lia).
  rewrite (array_get_assigned sizes (L - 1) (nth (Z.to_nat (L - 1)) sizes 0)), bind_Ok
    by (apply array_get_nth; lia).
  rewrite (array_get_assigned (map activation_of_name tokens) (L - 2)
             (activation_of_name (nth (Z.to_nat (L - 2)) tokens EmptyString))), bind_Ok.
  2:{ apply array_get_map, array_get_nth. lia. }
  assert (Hcreate :
    (if 0 <? L - 2
     then
       hiddenSizes ← for_range 0 (L - 2) (fun i hiddenSizes =>
           v ← array_get (map Some sizes) (1 + i) ≫= read_var;
           Ok (hiddenSizes ++ [v])) [];
       hiddenFuncs ← for_range 0 (L - 2) (fun i hiddenFuncs =>
           f ← array_get (map Some (map activation_of_name tokens)) i ≫= read_var;
           Ok (hiddenFuncs ++ [f])) [];
       createNetwork init_weight init_bias (nth 0 sizes 0) (L - 2)
         hiddenSizes hiddenFuncs (nth (Z.to_nat (L - 1)) sizes 0)
         (activation_of_name (nth (Z.to_nat (L - 2)) tokens EmptyString))
     else
       createNetwork init_weight init_bias (nth 0 sizes 0) 0 [] []
         (nth (Z.to_nat (L - 1)) sizes 0)
         (activation_of_name (nth (Z.to_nat (L - 2)) tokens EmptyString)))
    = Ok (read_built init_weight init_bias sizes tokens)).
  { unfold read_built. fold L.
    assert (Hhl : Z.of_nat (length (take (Z.to_nat (L - 2)) (drop 1 sizes))) = L - 2).
    { rewrite length_take, length_drop. lia. }
    assert (Hfl : Z.of_nat (length (map activation_of_name
                                      (take (Z.to_nat (L - 2)) tokens))) = L - 2).
    { rewrite length_map, length_take. lia. }
    assert (Hhp : forall k, 0 <= k < L - 2 ->
              0 < nth (Z.to_nat k) (take (Z.to_nat (L - 2)) (drop 1 sizes)) 0).
    { intros k Hk. apply Hin.
      assert (In (nth (Z.to_nat k) (take (Z.to_nat (L - 2)) (drop 1 sizes)) 0)
                 (take (Z.to_nat (L - 2)) (drop 1 sizes))) as Hi by (apply nth_In; lia).
      apply list_elem_of_In in Hi. apply list_elem_of_In.
      apply (subseteq_drop 1 sizes), (subseteq_take (Z.to_nat (L - 2)) (drop 1 sizes)).
      exact Hi. }
    assert (Hf0 : 0 < nth 0 sizes 0) by (apply Hin, nth_In; lia).
    assert (Hfl' : 0 < nth (Z.to_nat (L - 1)) sizes 0) by (apply Hin, nth_In; lia).
    destruct (Z.ltb_spec 0 (L - 2)) as [Hh|Hh].
    - rewrite (for_range_append (map (fun v => [v]) (take (Z.to_nat (L - 2)) (drop 1 sizes)))).
      2:{ rewrite length_map. exact Hhl. }
      2:{ intros i c fp Hc. apply array_get_map_inv in Hc as (v & Hv & ->).
          apply array_get_take_drop in Hv as [Hv _].
          rewrite (array_get_assigned sizes (1 + i) v Hv), bind_Ok. reflexivity. }
      rewrite bind_Ok, concat_map_singleton, map_id, app_nil_l.
      rewrite (for_range_append
        (map (fun f => [f]) (map activation_of_name (take (Z.to_nat (L - 2)) tokens)))).
      2:{ rewrite length_map. exact Hfl. }
      2:{ intros i c fp Hc. apply array_get_map_inv in Hc as (f & Hf & ->).
          apply array_get_map_inv in Hf as (t & Ht & ->).
          apply array_get_take in Ht as [Ht _].
          rewrite (array_get_assigned (map activation_of_name tokens) i
                     (activation_of_name t)), bind_Ok; [reflexivity|].
          apply array_get_map, Ht. }
      rewrite bind_Ok, concat_map_singleton, map_id, app_nil_l.
      apply createNetwork_built; try assumption; lia.
    - replace (L - 2) with 0 by lia. simpl take. simpl map.
      apply createNetwork_built; try reflexivity; try lia; try assumption. }
  exists buf2. rewrite Hcreate, bind_Ok. reflexivity.
Qed.

(** Whatever follows the activation tokens, the reader returns the
    network [read_built] constructs, with parameters filled in from the
    rest of the file. *)
Lemma readNetwork_header (dl : string) (size_lines token_lines rest : file)
    (sizes : list Z) (tokens : list string) :
  scan_d dl = Some (Z.of_nat (length sizes)) ->
  2 <= Z.of_nat (length sizes) ->
  Forall2 (fun line v => scan_d line = Some v) size_lines sizes ->
  Forall (fun v => 0 < v) sizes ->
  Z.of_nat (length tokens) = Z.of_nat (length sizes) - 1 ->
  Forall2 (fun line t => scan_s line = Some t) token_lines tokens ->
  exists n',
    readNetwork scan_d scan_la scan_s init_weight init_bias
      (dl :: size_lines ++ token_lines ++ rest) = Ok n' /\
    numLayers n' = Z.of_nat (length sizes) /\
    numConnections n' = Z.of_nat (length sizes) - 1 /\
    layers n' = layers (read_built init_weight init_bias sizes tokens) /\
    wired_like (connections (read_built init_weight init_bias sizes tokens))
      (connections n').
Proof.
  intros Hd H2 Hsz Hpos Htl Htok.
  destruct (readNetwork_to_parameters dl size_lines token_lines rest sizes tokens
              Hd H2 Hsz Hpos Htl Htok) as (WB & buf & E).
  rewrite E. cbv zeta.
  set (B := read_built init_weight init_bias sizes tokens) in *.
  assert (Hwl : wired_like (connections B) (connections B)).
  { apply wired_like_refl. intros k c Hc.
    destruct (wfNetwork_weights B k c WB Hc) as (? & ? & _). auto. }
  destruct (weights_loop_completes scan_la (connections B) (connections B)
              (numConnections B) rest buf)
    as (fp3 & b3 & cs3 & E3 & Hw3); [exact Hwl|apply (wf_conns_len B WB)|].
  rewrite E3, bind_Ok.
  destruct (bias_loop_completes scan_la (connections B) cs3 (numConnections B) fp3 b3)
    as (fp4 & b4 & cs4 & E4 & Hw4); [exact Hw3|apply (wf_conns_len B WB)|].
  rewrite E4, bind_Ok. cbv beta iota.
  eexists. split; [reflexivity|]. simpl.
  split; [unfold B, read_built, built; simpl; lia|].
  split; [unfold B, read_built, built; simpl; lia|].
  split; [reflexivity|exact Hw4].
Qed.

End ReadHeader.

(** ** What survives a save followed by a read *)

Lemma activation_of_hidden_name (l : Layer) :
  activation_of_name (hidden_name l)
  = if activation_is l sigmoid then sigmoid
    else if activation_is l relu then relu else tanH.
Proof.
  unfold hidden_name.
  destruct (activation_is l sigmoid); [reflexivity|].
  destruct (activation_is l relu); reflexivity.
Qed.

Lemma activation_of_other_name (s : string) :
  s <> "sigmoid"%string -> s <> "relu"%string -> s <> "tanH"%string ->
  activation_of_name s = softmax.
Proof.
  intros H1 H2 H3. unfold activation_of_name.
  destruct (String.eqb_spec s "sigmoid"); [contradiction|].
  destruct (String.eqb_spec s "relu"); [contradiction|].
  destruct (String.eqb_spec s "tanH"); [contradiction|reflexivity].
Qed.

(** Layer [i + 1] of the network the reader constructs carries the
    activation named by token [i]. *)
Lemma read_built_activation init_weight init_bias (sizes : list Z) (tokens : list string)
    (i : Z) :
  2 <= Z.of_nat (length sizes) ->
  Z.of_nat (length tokens) = Z.of_nat (length sizes) - 1 ->
  0 <= i < Z.of_nat (length sizes) - 1 ->
  exists l,
    array_get (layers (read_built init_weight init_bias sizes tokens)) (i + 1) = Ok l /\
    l_size l = nth (Z.to_nat (i + 1)) sizes 0 /\
    l_activation l = Some (activation_of_name (nth (Z.to_nat i) tokens EmptyString)).
Proof.
  intros H2 Htl Hi. unfold read_built, built. cbv zeta. simpl layers.
  set (L := Z.of_nat (length sizes)) in *.
  eexists. split; [apply array_get_map_seqZ; lia|].
  unfold layer_at. destruct (Z.eqb_spec (i + 1) 0); [lia|].
  destruct (Z.eqb_spec (i + 1) (2 + (L - 2) - 1)) as [He|Hne]; simpl.
  - split; [f_equal; lia|]. do 3 f_equal. lia.
  - replace (i + 1 - 1) with i by lia. split.
    + rewrite !nth_lookup, lookup_take_lt, lookup_drop by lia.
      do 2 f_equal. lia.
    + rewrite (nth_indep _ linear (activation_of_name EmptyString))
        by (rewrite length_map, length_take; lia).
      rewrite map_nth. do 2 f_equal.
      rewrite !nth_lookup, lookup_take_lt by lia. reflexivity.
Qed.

Lemma weight_values_nonempty (n : Network) :
  wfNetwork n -> exists w ws, weight_values n = w :: ws.
Proof.
  intros W. pose proof (wf_conns_len n W). pose proof (wf_numConnections n W).
  pose proof (wf_numLayers n W).
  destruct (array_get_in_range (connections n) 0) as (c & Hc); [lia|].
  destruct (wfNetwork_weights n 0 c W Hc) as ((Hr & Hcs & Hl & Hrows) & _).
  unfold weight_values. apply array_get_Ok in Hc as [_ Hc].
  destruct (connections n) as [|c' cs]; [discriminate|]. injection Hc as ->.
  simpl. destruct (m_data (c_weights c)) as [|row rows]; [simpl in Hl; lia|].
  apply Forall_cons in Hrows as [Hrow _].
  destruct row as [|w row]; [simpl in Hrow; lia|].
  simpl. eauto.
Qed.

Section SaveThenRead.

Variable fmt_d : Z -> string.
Variable scan_d : string -> option Z.
Variable fmt_la : double -> string.
Variable scan_la : string -> option double.
Variable scan_s : string -> option string.
Variable init_weight : Z -> Z -> Z -> double.
Variable init_bias : Z -> Z -> double.

(** A saved file is a layer count, the sizes, the lines the reader takes
    for activation names, and a rest. *)
Lemma saved_split (n : Network) :
  wfNetwork n ->
  exists rest,
    saved fmt_d fmt_la n
    = fmt_d (numLayers n)
      :: map (fun l => fmt_d (l_size l)) (layers n)
      ++ saved_tokens fmt_la n ++ rest /\
    (output_activation n = Some softmax -> rest = saved_parameters fmt_la n).
Proof.
  intros W. unfold saved, saved_head, saved_tokens, output_token.
  destruct (weight_values_nonempty n W) as (w & ws & Hw).
  unfold output_name. destruct (output_activation n) as [[| | | |]|];
    try (exists (map fmt_la ws ++ map fmt_la (bias_values n));
         unfold saved_parameters; rewrite Hw; simpl;
         rewrite <- !app_assoc; simpl; split; [reflexivity|discriminate]).
  exists (saved_parameters fmt_la n). simpl. rewrite <- !app_assoc. simpl.
  split; reflexivity.
Qed.

Lemma saved_tokens_scan (n : Network) :
  wfNetwork n -> stdio_faithful_on fmt_d scan_d fmt_la scan_la scan_s n ->
  Forall2 (fun line t => scan_s line = Some t)
    (saved_tokens fmt_la n) (saved_tokens fmt_la n).
Proof.
  intros W (_ & _ & Hnames & Hvals).
  apply Forall_cons in Hnames as [Hsig Hnames].
  apply Forall_cons in Hnames as [Hrelu Hnames].
  apply Forall_cons in Hnames as [Htanh Hnames].
  apply Forall_cons in Hnames as [Hsoft _].
  apply Forall_Forall2_diag. unfold saved_tokens. apply Forall_app. split.
  - apply Forall_forall. intros t Ht. apply list_elem_of_In, in_map_iff in Ht.
    destruct Ht as (l & <- & _). unfold hidden_name.
    destruct (activation_is l sigmoid); [exact Hsig|].
    destruct (activation_is l relu); assumption.
  - constructor; [|constructor]. unfold output_token, output_name.
    destruct (weight_values_nonempty n W) as (w & ws & Hw).
    assert (Hw0 : scan_s (fmt_la w) = Some (fmt_la w)).
    { rewrite Hw in Hvals. simpl in Hvals. apply Forall_cons in Hvals as [[? _] _].
      assumption. }
    destruct (output_activation n) as [[| | | |]|];
      unfold saved_parameters; rewrite ?Hw; simpl; assumption.
Qed.

(** Reading back a saved file: the reader returns a network with the
    layer count and the sizes of the saved one, and with the activations
    named by the lines it took for names. *)
Lemma read_saved (n : Network) :
  wfNetwork n -> stdio_faithful_on fmt_d scan_d fmt_la scan_la scan_s n ->
  exists n',
    readNetwork scan_d scan_la scan_s init_weight init_bias (saved fmt_d fmt_la n)
      = Ok n' /\
    numLayers n' = numLayers n /\
    numConnections n' = numConnections n /\
    layers n' = layers (read_built init_weight init_bias (map l_size (layers n))
                          (saved_tokens fmt_la n)) /\
    wired_like
      (connections (read_built init_weight init_bias (map l_size (layers n))
                      (saved_tokens fmt_la n)))
      (connections n').
Proof.
  intros W F. pose proof F as (HL & Hsizes & _ & _).
  pose proof (wf_layers_len n W) as Hll. pose proof (wf_numLayers n W) as H2.
  pose proof (wf_numConnections n W) as Hnc.
  destruct (saved_split n W) as (rest & -> & _).
  destruct (readNetwork_header scan_d scan_la scan_s init_weight init_bias
              (fmt_d (numLayers n)) (map (fun l => fmt_d (l_size l)) (layers n))
              (saved_tokens fmt_la n) rest (map l_size (layers n))
              (saved_tokens fmt_la n))
    as (n' & E & H1 & H3 & H4 & H5).
  - rewrite length_map, Hll. exact HL.
  - rewrite length_map. lia.
  - apply Forall2_fmap_l, Forall2_fmap_r, Forall_Forall2_diag. exact Hsizes.
  - apply Forall_fmap. eapply Forall_impl; [apply (wf_layers n W)|].
    intros l (Hl & _). exact Hl.
  - unfold saved_tokens. rewrite length_app, !length_map. simpl.
    pose proof (hidden_layers_length n W). lia.
  - apply saved_tokens_scan; assumption.
  - exists n'. rewrite length_map in H1, H3. split; [exact E|].
    split; [lia|]. split; [lia|]. split; assumption.
Qed.

End SaveThenRead.

Lemma hidden_name_tanH (l : Layer) (a : Activation) :
  l_activation l = Some a -> a <> sigmoid -> a <> relu ->
  hidden_name l = "tanH"%string.
Proof.
  intros Ha H1 H2. unfold hidden_name, activation_is. rewrite Ha.
  destruct a; try contradiction; reflexivity.
Qed.

Lemma array_get_hidden (n : Network) (i : Z) (l : Layer) :
  wfNetwork n -> 1 <= i < numLayers n - 1 -> array_get (layers n) i = Ok l ->
  array_get (hidden_layers n) (i - 1) = Ok l.
Proof.
  intros W Hi Hl. pose proof (wf_layers_len n W).
  apply array_get_Ok in Hl as [_ Hl]. apply array_get_Ok. split; [lia|].
  unfold hidden_layers. rewrite lookup_take_lt, lookup_drop by lia.
  replace (1 + Z.to_nat (i - 1))%nat with (Z.to_nat i) by lia. exact Hl.
Qed.

(** C10: [saveNetwork] writes the token [tanH] for every hidden layer
    whose activation is neither sigmoid nor relu; read back, that layer
    carries tanH, so an activation such as softmax does not survive. *)
Theorem hidden_activation_saved_as_tanH fmt_d scan_d fmt_la scan_la scan_s
    init_weight init_bias (n : Network) (i : Z) (l : Layer) (a : Activation) :
  wfNetwork n ->
  stdio_faithful_on fmt_d scan_d fmt_la scan_la scan_s n ->
  1 <= i < numLayers n - 1 ->
  array_get (layers n) i = Ok l ->
  l_activation l = Some a -> a <> sigmoid -> a <> relu ->
  exists content n' l',
    saveNetwork fmt_d fmt_la n = Ok content /\
    array_get content (numLayers n + i) = Ok "tanH"%string /\
    readNetwork scan_d scan_la scan_s init_weight init_bias content = Ok n' /\
    array_get (layers n') i = Ok l' /\
    l_activation l' = Some tanH /\
    (a <> tanH -> l_activation l' <> l_activation l).
Proof.
  intros W F Hi Hl Ha Hns Hnr.
  pose proof (wf_layers_len n W) as Hll.
  pose proof (hidden_layers_length n W) as Hhl.
  pose proof (array_get_hidden n i l W Hi Hl) as Hh.
  pose proof (hidden_name_tanH l a Ha Hns Hnr) as Hname.
  assert (Htok : nth (Z.to_nat (i - 1)) (saved_tokens fmt_la n) EmptyString
                 = "tanH"%string).
  { unfold saved_tokens. rewrite app_nth1 by (rewrite length_map; lia).
    rewrite nth_lookup. change (map hidden_name (hidden_layers n))
      with (hidden_name <$> hidden_layers n).
    apply array_get_Ok in Hh as [_ Hh]. rewrite list_lookup_fmap, Hh. exact Hname. }
  destruct (read_saved fmt_d scan_d fmt_la scan_la scan_s init_weight init_bias n W F)
    as (n' & E & H1 & H3 & H4 & H5).
  destruct (read_built_activation init_weight init_bias (map l_size (layers n))
              (saved_tokens fmt_la n) (i - 1)) as (l' & El' & _ & Hact).
  { rewrite length_map. pose proof (wf_numLayers n W). lia. }
  { unfold saved_tokens. rewrite length_app, !length_map. simpl. lia. }
  { rewrite length_map. lia. }
  replace (i - 1 + 1) with i in El' by lia. rewrite Htok in Hact.
  exists (saved fmt_d fmt_la n), n', l'.
  split; [apply saveNetwork_saved, W|]. split.
  - destruct (saved_split fmt_d fmt_la n W) as (rest & -> & _).
    apply array_get_Ok. split; [lia|].
    replace (Z.to_nat (numLayers n + i))
      with (S (length (map (fun l => fmt_d (l_size l)) (layers n)) + Z.to_nat (i - 1)))
      by (rewrite length_map; lia).
    simpl. rewrite lookup_app_r by lia.
    replace (_ + Z.to_nat (i - 1) - _)%nat with (Z.to_nat (i - 1)) by lia.
    rewrite lookup_app_l by (unfold saved_tokens; rewrite length_app, length_map; lia).
    rewrite <- Htok.
    destruct (nth_lookup_or_length (saved_tokens fmt_la n) (Z.to_nat (i - 1))
                EmptyString) as [E'|E']; [exact E'|].
    unfold saved_tokens in E'. rewrite length_app, length_map in E'. simpl in E'. lia.
  - split; [exact E|]. rewrite H4. split; [exact El'|]. split; [exact Hact|].
    intros Hnt. rewrite Hact, Ha. intros Heq. injection Heq as Heq.
    apply Hnt. symmetry. exact Heq.
Qed.

(** C8: [saveNetwork] writes the output activation's name exactly when
    that activation is softmax (the file is the head, that optional line,
    the parameters); on a file whose lines fit its buffer, [readNetwork]
    gives each non-input layer the activation [activation_of_name] of its
    token, which is sigmoid, relu and tanH for their names and softmax
    for every other token. *)
Theorem output_name_written_only_for_softmax fmt_d scan_d fmt_la scan_la scan_s
    init_weight init_bias (n : Network) :
  wfNetwork n ->
  saveNetwork fmt_d fmt_la n
    = Ok (saved_head fmt_d n ++ output_name n ++ saved_parameters fmt_la n) /\
  (output_activation n = Some softmax -> output_name n = ["softmax"%string]) /\
  (output_activation n <> Some softmax -> output_name n = []) /\
  activation_of_name "sigmoid" = sigmoid /\
  activation_of_name "relu" = relu /\
  activation_of_name "tanH" = tanH /\
  (forall s, s <> "sigmoid"%string -> s <> "relu"%string -> s <> "tanH"%string ->
     activation_of_name s = softmax) /\
  (forall dl size_lines token_lines rest sizes tokens,
     fits_buffer (dl :: size_lines ++ token_lines ++ rest) ->
     scan_d dl = Some (Z.of_nat (length sizes)) ->
     2 <= Z.of_nat (length sizes) ->
     Forall2 (fun line v => scan_d line = Some v) size_lines sizes ->
     Forall (fun v => 0 < v) sizes ->
     Z.of_nat (length tokens) = Z.of_nat (length sizes) - 1 ->
     Forall2 (fun line t => scan_s line = Some t) token_lines tokens ->
     exists n',
       readNetwork scan_d scan_la scan_s init_weight init_bias
         (dl :: size_lines ++ token_lines ++ rest) = Ok n' /\
       forall i, 0 <= i < Z.of_nat (length tokens) ->
         exists l, array_get (layers n') (i + 1) = Ok l /\
           l_activation l
           = Some (activation_of_name (nth (Z.to_nat i) tokens EmptyString))).
Proof.
  intros W. split; [apply (saveNetwork_saved fmt_d fmt_la n W)|].
  split; [intros H; unfold output_name; rewrite H; reflexivity|].
  split.
  { intros H. unfold output_name.
    destruct (output_activation n) as [[| | | |]|]; try reflexivity.
    contradiction H. reflexivity. }
  split; [reflexivity|]. split; [reflexivity|]. split; [reflexivity|].
  split; [exact activation_of_other_name|].
  intros dl size_lines token_lines rest sizes tokens _ Hd H2 Hsz Hpos Htl Htok.
  destruct (readNetwork_header scan_d scan_la scan_s init_weight init_bias
              dl size_lines token_lines rest sizes tokens Hd H2 Hsz Hpos Htl Htok)
    as (n' & E & _ & _ & Hl & _).
  exists n'. split; [exact E|]. intros i Hi. rewrite Hl.
  destruct (read_built_activation init_weight init_bias sizes tokens i H2 Htl)
    as (l & El & _ & Ha); [lia|].
  exists l. split; assumption.
Qed.

Lemma sigmoid_network_wf : wfNetwork sigmoid_network.
Proof. concrete_wf. Qed.

Lemma softmax_hidden_network_wf : wfNetwork softmax_hidden_network.
Proof. concrete_wf. Qed.

(** C1 at the network [sigmoid_network]: its file holds no activation
    line; the reader takes the weight's line for the output activation's
    name (softmax), reads the bias as the weight and leaves the bias at its
    initial value. *)
Theorem sigmoid_output_lost_on_round_trip :
  wfNetwork sigmoid_network /\
  saveNetwork ref_fmt_d ref_fmt_la sigmoid_network = Ok sigmoid_network_file /\
  readNetwork ref_scan_d ref_scan_la ref_scan_s sample_weight sample_bias
    sigmoid_network_file = Ok sigmoid_network_read /\
  output_activation sigmoid_network = Some sigmoid /\
  output_activation sigmoid_network_read = Some softmax /\
  weight_values sigmoid_network = [1.5%float] /\
  weight_values sigmoid_network_read = [0.25%float] /\
  bias_values sigmoid_network = [0.25%float] /\
  bias_values sigmoid_network_read = [0%float].
Proof.
  split; [exact sigmoid_network_wf|repeat split; vm_compute; reflexivity].
Qed.

(** ** Parameters read back exactly *)

Lemma Matrix_eta (m : Matrix) : mkMatrix (m_rows m) (m_cols m) (m_data m) = m.
Proof. destruct m. reflexivity. Qed.

Lemma array_get_take_drop_at {A : Type} (target orig : list A) (k : Z) (x : A) :
  length target = length orig ->
  array_get orig k = Ok x ->
  array_get (take (Z.to_nat k) target ++ drop (Z.to_nat k) orig) k = Ok x.
Proof.
  intros Hlen Hx. pose proof (array_get_length _ _ _ Hx) as Hk.
  apply array_get_Ok in Hx as [_ Hx]. apply array_get_Ok. split; [lia|].
  rewrite lookup_app_r by (rewrite length_take; lia).
  rewrite length_take, Nat.min_l, Nat.sub_diag, lookup_drop, Nat.add_0_r by lia.
  exact Hx.
Qed.

Lemma Forall_concat_row {A : Type} (P : A -> Prop) (ls : list (list A)) (i : Z)
    (row : list A) :
  Forall P (concat ls) -> array_get ls i = Ok row -> Forall P row.
Proof.
  intros H Hrow. rewrite Forall_forall in H. apply Forall_forall. intros x Hx.
  apply H. apply list_elem_of_In, in_concat. exists row. split.
  - apply list_elem_of_In. apply array_get_Ok in Hrow as [_ Hrow].
    eapply list_elem_of_lookup_2; exact Hrow.
  - apply list_elem_of_In, Hx.
Qed.

Section ReadExact.

Variable fmt_la : double -> string.
Variable scan_la : string -> option double.

(** Reading the lines written for [row] into row [i] of a matrix. *)
Lemma read_row_exact (i : Z) (base : list (list double)) (row row0 : list double)
    (r c : Z) (rest : file) (b : string) :
  array_get base i = Ok row0 ->
  Z.of_nat (length row) = c -> Z.of_nat (length row0) = c ->
  Forall (fun x => scan_la (fmt_la x) = Some x) row ->
  exists b',
    for_range 0 c (fun j '(st, w) =>
        '(st, r) ← scan_line scan_la st;
        w ← match r with
             | Some x => mset w i j x
             | None => Ok w
             end;
        Ok (st, w)) ((map fmt_la row ++ rest, Some b), mkMatrix r c base)
    = Ok ((rest, Some b'), mkMatrix r c (<[Z.to_nat i := row]> base)).
Proof.
  intros Hbase Hrow Hrow0 Hscan.
  pose proof (array_get_length _ _ _ Hbase) as Hi.
  match goal with
  | |- context [for_range 0 c ?body _] =>
      destruct (line_loop
        (fun j (w : Matrix) =>
           w = mkMatrix r c
                 (<[Z.to_nat i := take (Z.to_nat j) row ++ drop (Z.to_nat j) row0]> base))
        body (map fmt_la row) rest c b (mkMatrix r c base))
        as (w & b' & E & HR)
  end.
  - rewrite length_map. exact Hrow.
  - simpl. rewrite list_insert_id; [reflexivity|].
    apply array_get_Ok in Hbase as [_ Hbase]. exact Hbase.
  - intros j line tail buf w Hline ->.
    apply array_get_map_inv in Hline as (x & Hx & ->).
    rewrite scan_line_cons, bind_Ok. cbv beta iota.
    rewrite (Forall_array_get _ _ _ _ Hscan Hx).
    unfold mset. simpl m_data. simpl m_rows. simpl m_cols.
    rewrite array_get_insert_eq, bind_Ok by lia.
    rewrite (array_set_take_drop row row0 j x), bind_Ok by (try assumption; lia).
    rewrite array_set_Ok, bind_Ok by (rewrite length_insert; lia).
    rewrite list_insert_insert_eq, bind_Ok.
    eexists _, _. split; reflexivity.
  - exists b'. rewrite E, HR. do 4 f_equal.
    apply take_drop_all; lia.
Qed.

(** Reading the lines written for the matrix [W] into a matrix of the
    same shape gives [W]. *)
Lemma read_matrix_exact (W w0 : Matrix) (rest : file) (b : string) :
  wfMatrix W -> wfMatrix w0 ->
  m_rows w0 = m_rows W -> m_cols w0 = m_cols W ->
  Forall (fun x => scan_la (fmt_la x) = Some x) (concat (m_data W)) ->
  exists b',
    for_range 0 (m_rows w0) (fun i '(st, w) =>
        for_range 0 (m_cols w0) (fun j '(st, w) =>
          '(st, r) ← scan_line scan_la st;
          w ← match r with
               | Some x => mset w i j x
               | None => Ok w
               end;
          Ok (st, w)) (st, w))
      ((map fmt_la (concat (m_data W)) ++ rest, Some b), w0)
    = Ok ((rest, Some b'), W).
Proof.
  intros (_ & _ & HlW & HrW) (_ & _ & Hl0 & Hr0) Hrows Hcols Hscan.
  rewrite concat_map.
  match goal with
  | |- context [for_range 0 (m_rows w0) ?body _] =>
      destruct (chunk_loop
        (fun i (w : Matrix) =>
           w = mkMatrix (m_rows w0) (m_cols w0)
                 (take (Z.to_nat i) (m_data W) ++ drop (Z.to_nat i) (m_data w0)))
        body (map (map fmt_la) (m_data W)) rest (m_rows w0) b w0)
        as (w & b' & E & HR)
  end.
  - rewrite length_map. lia.
  - simpl. symmetry. apply Matrix_eta.
  - intros i chunk tail buf w Hchunk ->.
    apply array_get_map_inv in Hchunk as (row & Hrow & ->).
    pose proof (array_get_length _ _ _ Hrow) as Hi.
    destruct (array_get_in_range (m_data w0) i) as (row0 & Hrow0); [lia|].
    destruct (read_row_exact i
                (take (Z.to_nat i) (m_data W) ++ drop (Z.to_nat i) (m_data w0))
                row row0 (m_rows w0) (m_cols w0) tail buf) as (b1 & E1).
    + apply array_get_take_drop_at; [lia|exact Hrow0].
    + rewrite Hcols. apply (Forall_array_get _ _ _ _ HrW Hrow).
    + apply (Forall_array_get _ _ _ _ Hr0 Hrow0).
    + apply (Forall_concat_row _ _ _ _ Hscan Hrow).
    + eexists _, b1. split; [exact E1|]. f_equal.
      apply array_get_Ok in Hrow as [_ Hrow].
      rewrite insert_take_drop by (try assumption; lia).
      replace (Z.to_nat (i + 1)) with (S (Z.to_nat i)) by lia. reflexivity.
  - exists b'. rewrite E, HR. do 2 f_equal.
    rewrite take_drop_all by lia. rewrite Hrows, Hcols. apply Matrix_eta.
Qed.

(** The weight loop of [readNetwork] on the lines written for the weights
    of [targets]. *)
Lemma weights_loop_exact (cs0 targets : list Connection) (nc : Z) (rest : file)
    (b : string) :
  Z.of_nat (length cs0) = nc -> length targets = length cs0 ->
  (forall k c0 c, array_get cs0 k = Ok c0 -> array_get targets k = Ok c ->
     wfMatrix (c_weights c) /\ wfMatrix (c_weights c0) /\
     m_rows (c_weights c0) = m_rows (c_weights c) /\
     m_cols (c_weights c0) = m_cols (c_weights c)) ->
  Forall (fun x => scan_la (fmt_la x) = Some x)
    (concat (map (fun c => concat (m_data (c_weights c))) targets)) ->
  exists b',
    fill_in_weights scan_la nc
      ((map fmt_la (concat (map (fun c => concat (m_data (c_weights c))) targets))
          ++ rest, Some b), cs0)
    = Ok ((rest, Some b'),
          zip_with (fun c0 c => set_weights c0 (c_weights c)) cs0 targets).
Proof.
  unfold fill_in_weights.
  intros Hnc Hlen Hshape Hscan.
  set (T := zip_with (fun c0 c => set_weights c0 (c_weights c)) cs0 targets).
  assert (HT : length T = length cs0).
  { unfold T. rewrite length_zip_with_l_eq by lia. reflexivity. }
  rewrite concat_map, map_map.
  match goal with
  | |- context [for_range 0 nc ?body _] =>
      destruct (chunk_loop
        (fun k (conns : list Connection) =>
           conns = take (Z.to_nat k) T ++ drop (Z.to_nat k) cs0)
        body
        (map (fun c => map fmt_la (concat (m_data (c_weights c)))) targets)
        rest nc b cs0)
        as (cs & b' & E & HR)
  end.
  - rewrite length_map. lia.
  - reflexivity.
  - intros k chunk tail buf conns Hchunk ->.
    apply array_get_map_inv in Hchunk as (c & Hc & ->).
    pose proof (array_get_length _ _ _ Hc) as Hk.
    destruct (array_get_in_range cs0 k) as (c0 & Hc0); [lia|].
    destruct (Hshape k c0 c Hc0 Hc) as (HW & Hw0 & Hr & Hcl).
    rewrite (array_get_take_drop_at T cs0 k c0 HT Hc0), bind_Ok.
    destruct (read_matrix_exact (c_weights c) (c_weights c0) tail buf HW Hw0 Hr Hcl)
      as (b1 & E1).
    { apply (Forall_concat_row _ _ k _ Hscan).
      apply (array_get_map (fun c => concat (m_data (c_weights c)))), Hc. }
    rewrite E1, bind_Ok. cbv beta iota.
    rewrite (array_set_take_drop T cs0 k (set_weights c0 (c_weights c)) HT), bind_Ok.
    + eexists _, b1. split; reflexivity.
    + apply array_get_Ok. split; [lia|]. unfold T.
      apply lookup_zip_with_Some. exists c0, c.
      apply array_get_Ok in Hc0 as [_ Hc0]. apply array_get_Ok in Hc as [_ Hc]. auto.
  - exists b'. rewrite E, HR. do 2 f_equal. apply take_drop_all; lia.
Qed.

(** The bias loop of [readNetwork] on the lines written for the biases of
    [targets]. *)
Lemma bias_loop_exact (cs0 targets : list Connection) (nc : Z) (rest : file)
    (b : string) :
  Z.of_nat (length cs0) = nc -> length targets = length cs0 ->
  (forall k c0 c, array_get cs0 k = Ok c0 -> array_get targets k = Ok c ->
     wfMatrix (c_bias c) /\ wfMatrix (c_bias c0) /\
     m_rows (c_bias c) = 1 /\ m_rows (c_bias c0) = 1 /\
     m_cols (c_bias c0) = m_cols (c_bias c)) ->
  Forall (fun x => scan_la (fmt_la x) = Some x)
    (concat (map (fun c => nth 0 (m_data (c_bias c)) []) targets)) ->
  exists b',
    fill_in_bias scan_la nc
      ((map fmt_la (concat (map (fun c => nth 0 (m_data (c_bias c)) []) targets))
          ++ rest, Some b), cs0)
    = Ok ((rest, Some b'),
          zip_with (fun c0 c => set_bias c0 (c_bias c)) cs0 targets).
Proof.
  unfold fill_in_bias.
  intros Hnc Hlen Hshape Hscan.
  set (T := zip_with (fun c0 c => set_bias c0 (c_bias c)) cs0 targets).
  assert (HT : length T = length cs0).
  { unfold T. rewrite length_zip_with_l_eq by lia. reflexivity. }
  rewrite concat_map, map_map.
  match goal with
  | |- context [for_range 0 nc ?body _] =>
      destruct (chunk_loop
        (fun k (conns : list Connection) =>
           conns = take (Z.to_nat k) T ++ drop (Z.to_nat k) cs0)
        body
        (map (fun c => map fmt_la (nth 0 (m_data (c_bias c)) [])) targets)
        rest nc b cs0)
        as (cs & b' & E & HR)
  end.
  - rewrite length_map. lia.
  - reflexivity.
  - intros k chunk tail buf conns Hchunk ->.
    apply array_get_map_inv in Hchunk as (c & Hc & ->).
    pose proof (array_get_length _ _ _ Hc) as Hk.
    destruct (array_get_in_range cs0 k) as (c0 & Hc0); [lia|].
    destruct (Hshape k c0 c Hc0 Hc) as (HB & Hb0 & Hr & Hr0 & Hcl).
    rewrite (array_get_take_drop_at T cs0 k c0 HT Hc0), bind_Ok.
    destruct HB as (_ & _ & HlB & HrB). destruct Hb0 as (_ & _ & Hl0 & Hrw0).
    destruct (m_data (c_bias c)) as [|row [|? ?]] eqn:EB; try (simpl in HlB; lia).
    destruct (m_data (c_bias c0)) as [|row0 [|? ?]] eqn:E0; try (simpl in Hl0; lia).
    apply Forall_cons in HrB as [HrB _]. apply Forall_cons in Hrw0 as [Hrw0 _].
    destruct (read_row_exact 0 [row0] row row0 (m_rows (c_bias c0)) (m_cols (c_bias c0))
                tail buf) as (b1 & E1); [reflexivity|lia|lia| |].
    { apply (Forall_concat_row _ _ k _ Hscan).
      replace row with (nth 0 (m_data (c_bias c)) []) by (rewrite EB; reflexivity).
      apply (array_get_map (fun c => nth 0 (m_data (c_bias c)) [])), Hc. }
    assert (Hb0 : mkMatrix (m_rows (c_bias c0)) (m_cols (c_bias c0)) [row0]
                  = c_bias c0) by (rewrite <- E0; apply Matrix_eta).
    assert (HB : mkMatrix (m_rows (c_bias c0)) (m_cols (c_bias c0))
                   (<[Z.to_nat 0 := row]> [row0]) = c_bias c).
    { simpl. rewrite <- (Matrix_eta (c_bias c)), EB. f_equal; congruence. }
    rewrite Hb0, HB in E1. simpl nth. rewrite E1, bind_Ok. cbv beta iota.
    rewrite (array_set_take_drop T cs0 k (set_bias c0 (c_bias c)) HT).
    + rewrite bind_Ok. eexists _, b1. split; reflexivity.
    + apply array_get_Ok. split; [lia|]. unfold T.
      apply lookup_zip_with_Some. exists c0, c.
      apply array_get_Ok in Hc0 as [_ Hc0]. apply array_get_Ok in Hc as [_ Hc]. auto.
  - exists b'. rewrite E, HR. do 2 f_equal. apply take_drop_all; lia.
Qed.

End ReadExact.

Lemma zip_with_set_bias_weights (cs0 targets : list Connection) :
  length targets = length cs0 ->
  (forall k c0 c, array_get cs0 k = Ok c0 -> array_get targets k = Ok c ->
     c_from c0 = c_from c /\ c_to c0 = c_to c) ->
  zip_with (fun c1 c => set_bias c1 (c_bias c))
    (zip_with (fun c0 c => set_weights c0 (c_weights c)) cs0 targets) targets
  = targets.
Proof.
  revert targets. induction cs0 as [|c0 cs0 IH]; intros [|c targets] Hlen H;
    try discriminate; [reflexivity|].
  simpl. f_equal.
  - destruct (H 0 c0 c eq_refl eq_refl) as [Hf Ht].
    unfold set_bias, set_weights. simpl. rewrite Hf, Ht. destruct c. reflexivity.
  - apply IH; [simpl in Hlen; lia|].
    intros k d0 d Hd0 Hd. apply (H (k + 1)).
    + apply array_get_Ok in Hd0 as [Hk Hd0]. apply array_get_Ok. split; [lia|].
      replace (Z.to_nat (k + 1)) with (S (Z.to_nat k)) by lia. exact Hd0.
    + apply array_get_Ok in Hd as [Hk Hd]. apply array_get_Ok. split; [lia|].
      replace (Z.to_nat (k + 1)) with (S (Z.to_nat k)) by lia. exact Hd.
Qed.


(** * Further properties of the code *)

(** ** Loops that are run twice, and loops that keep a property *)

Lemma for_loop_agree {St : Type} (R : Z -> St -> St -> Prop)
    (body : Z -> St -> result St) n lo s1 s2 :
  R lo s1 s2 ->
  (forall i s1 s2, lo <= i < lo + Z.of_nat n -> R i s1 s2 ->
     outcomes_agree (R (i + 1)) (body i s1) (body i s2)) ->
  outcomes_agree (R (lo + Z.of_nat n)) (for_loop n lo body s1) (for_loop n lo body s2).
Proof.
  revert lo s1 s2. induction n as [|n IH]; intros lo s1 s2 H0 Hstep.
  - simpl. replace (lo + Z.of_nat 0) with lo by lia. exact H0.
  - cbn [for_loop]. pose proof (Hstep lo s1 s2 ltac:(lia) H0) as Hb.
    destruct (body lo s1) as [a| |], (body lo s2) as [b| |]; simpl in Hb |- *;
      try contradiction; try exact I.
    replace (lo + Z.of_nat (S n)) with (lo + 1 + Z.of_nat n) by lia.
    apply IH; [exact Hb|]. intros i t1 t2 Hi. apply Hstep. lia.
Qed.

Lemma for_loop_keeps {St : Type} (P : St -> Prop) (body : Z -> St -> result St)
    n lo s s' :
  P s ->
  (forall i t t', lo <= i < lo + Z.of_nat n -> P t -> body i t = Ok t' -> P t') ->
  for_loop n lo body s = Ok s' -> P s'.
Proof.
  revert lo s. induction n as [|n IH]; intros lo s H0 Hstep E.
  - simpl in E. injection E as <-. exact H0.
  - cbn [for_loop] in E. apply bind_Ok_inv in E as (t & Et & E).
    apply (IH (lo + 1) t); [apply (Hstep lo s t); [lia|exact H0|exact Et]| |exact E].
    intros i u u' Hi. apply Hstep. lia.
Qed.

Lemma for_range_keeps {St : Type} (P : St -> Prop) (body : Z -> St -> result St)
    lo hi s s' :
  P s ->
  (forall i t t', lo <= i < hi -> P t -> body i t = Ok t' -> P t') ->
  for_range lo hi body s = Ok s' -> P s'.
Proof.
  intros H0 Hstep. unfold for_range. apply for_loop_keeps; [exact H0|].
  intros i t t' Hi. apply Hstep. lia.
Qed.

(** A loop whose every iteration returns the state it was given. *)
Lemma for_range_idle {St : Type} (body : Z -> St -> result St) lo hi s :
  (forall i, lo <= i < hi -> body i s = Ok s) ->
  for_range lo hi body s = Ok s.
Proof.
  intros H. destruct (Z.le_gt_cases lo hi) as [Hle|Hgt].
  - destruct (for_range_inv (fun _ t => t = s) body lo hi s Hle eq_refl)
      as (s' & E & ->); [|exact E].
    intros i t Hi ->. exists s. split; [apply H; exact Hi|reflexivity].
  - apply for_range_empty. lia.
Qed.

(** ** The forward pass and the state it leaves *)

Lemma Layer_eta (l : Layer) :
  mkLayer (l_type l) (l_size l) (l_activation l) (l_input l) = l.
Proof. destruct l. reflexivity. Qed.

Lemma set_input_same_layer (l l' : Layer) (m : Matrix) :
  same_layer l l' -> set_input l' m = set_input l m.
Proof. intros (Ht & Hs & Ha). unfold set_input. rewrite Ht, Hs, Ha. reflexivity. Qed.

Lemma same_layer_sym (l l' : Layer) : same_layer l l' -> same_layer l' l.
Proof. intros (Ht & Hs & Ha). repeat split; symmetry; assumption. Qed.

Lemma same_layer_trans (l1 l2 l3 : Layer) :
  same_layer l1 l2 -> same_layer l2 l3 -> same_layer l1 l3.
Proof.
  intros (Ht & Hs & Ha) (Ht' & Hs' & Ha'). repeat split; congruence.
Qed.

Lemma array_get_eq_lookup {A : Type} (a b : list A) (i : Z) :
  a !! Z.to_nat i = b !! Z.to_nat i -> array_get a i = array_get b i.
Proof. intros H. unfold array_get. rewrite H. reflexivity. Qed.

(** What a completed forward pass returns. *)
Lemma forwardPass_result libm_exp libm_tanh (n n' : Network) (input : Matrix) :
  wfNetwork n -> wfMatrix input ->
  forwardPass libm_exp libm_tanh n input = Ok n' ->
  exists ls l0,
    n' = mkNetwork (numLayers n) ls (numConnections n) (connections n) /\
    forward_inv n input (numConnections n) ls /\
    array_get (layers n) 0 = Ok l0 /\ m_cols input = l_size l0.
Proof.
  intros W Hin H.
  destruct (wfNetwork_layer0 n W) as (l0 & E0 & Hsz0 & Hwf0 & Hc0).
  assert (Hcols : m_cols input = l_size l0).
  { unfold forwardPass in H. rewrite E0, bind_Ok in H.
    destruct (Z.eqb_spec (m_cols input) (m_cols (l_input l0))); [congruence|discriminate]. }
  destruct (forwardPass_spec libm_exp libm_tanh n input l0 W Hin E0 Hcols)
    as (ls & E & Hinv).
  rewrite E in H. injection H as <-. exists ls, l0. auto.
Qed.

Lemma forward_inv_same_layers (n : Network) (input : Matrix) (i : Z) (ls : list Layer) :
  wfNetwork n -> forward_inv n input i ls -> Forall2 same_layer (layers n) ls.
Proof.
  intros W (Hlen & Hinv). pose proof (wf_layers_len n W) as Hl.
  apply Forall2_same_length_lookup_2; [lia|].
  intros k l l' Hk Hk'.
  destruct (Hinv (Z.of_nat k) l' (array_get_lookup _ _ _ Hk')) as (_ & (l0 & E0 & S) & _).
  apply array_get_Ok in E0 as [_ E0]. rewrite Nat2Z.id in E0.
  assert (l0 = l) by congruence. subst l0. exact S.
Qed.

Section ForwardTwice.

Variable libm_exp : double -> double.
Variable libm_tanh : double -> double.

(** The loop of [forwardPass], run on two layer arrays that differ in
    nothing but the stored inputs of the layers behind the first. *)
Lemma forward_loop_agree (cs : list Connection) (nc : Z) (ls1 ls2 : list Layer) :
  (forall i c, array_get cs i = Ok c -> c_to c = i + 1) ->
  Forall2 same_layer ls1 ls2 ->
  ls1 !! 0%nat = ls2 !! 0%nat ->
  Z.of_nat (length ls1) = nc + 1 ->
  for_range 0 nc (fun i ls =>
      li ← array_get ls i;
      ci ← array_get cs i;
      tmp ← multiply (l_input li) (c_weights ci);
      tmp2 ← addToEachRow tmp (c_bias ci);
      lto ← array_get ls (c_to ci);
      lto' ← activateLayer libm_exp libm_tanh (set_input lto tmp2);
      array_set ls (c_to ci) lto') ls1
  = for_range 0 nc (fun i ls =>
      li ← array_get ls i;
      ci ← array_get cs i;
      tmp ← multiply (l_input li) (c_weights ci);
      tmp2 ← addToEachRow tmp (c_bias ci);
      lto ← array_get ls (c_to ci);
      lto' ← activateLayer libm_exp libm_tanh (set_input lto tmp2);
      array_set ls (c_to ci) lto') ls2.
Proof.
  intros Hto HF H0 Hlen.
  pose proof (Forall2_length _ _ _ HF) as Hlen2.
  destruct (Z.le_gt_cases 0 nc) as [Hnc|Hnc].
  2:{ rewrite !for_range_empty by lia. f_equal.
      destruct ls1, ls2; simpl in *; try lia; reflexivity. }
  match goal with
  | |- for_range 0 nc ?body ls1 = _ =>
      pose proof (for_loop_agree
        (fun i (a b : list Layer) =>
           Forall2 same_layer a b /\ Z.of_nat (length a) = nc + 1 /\
           forall j, (j <= Z.to_nat i)%nat -> a !! j = b !! j)
        body (Z.to_nat (nc - 0)) 0 ls1 ls2) as Hloop
  end.
  unfold for_range.
  match type of Hloop with
  | _ -> _ -> outcomes_agree _ ?r1 ?r2 =>
      assert (Hag : outcomes_agree
                (fun a b : list Layer =>
                   Forall2 same_layer a b /\ Z.of_nat (length a) = nc + 1 /\
                   forall j, (j <= Z.to_nat (0 + Z.of_nat (Z.to_nat (nc - 0))))%nat ->
                             a !! j = b !! j) r1 r2)
  end.
  { apply Hloop.
    - split; [exact HF|]. split; [exact Hlen|].
      intros j Hj. replace j with 0%nat by lia. exact H0.
    - clear Hloop. intros i a b Hi (HFab & Hla & Hsame).
      pose proof (Forall2_length _ _ _ HFab) as Hlab.
      rewrite <- (array_get_eq_lookup a b i) by (apply Hsame; lia).
      destruct (array_get a i) as [li| |]; simpl; try exact I.
      destruct (array_get cs i) as [ci| |] eqn:Eci; simpl; try exact I.
      destruct (multiply (l_input li) (c_weights ci)) as [tmp| |]; simpl; try exact I.
      destruct (addToEachRow tmp (c_bias ci)) as [tmp2| |]; simpl; try exact I.
      rewrite (Hto i ci Eci).
      destruct (array_get_in_range a (i + 1)) as (la & Ea); [lia|].
      destruct (array_get_in_range b (i + 1)) as (lb & Eb); [lia|].
      rewrite Ea, Eb. simpl.
      assert (Sab : same_layer la lb).
      { apply array_get_Ok in Ea as [_ Ea]. apply array_get_Ok in Eb as [_ Eb].
        exact (Forall2_lookup_lr _ _ _ _ _ _ HFab Ea Eb). }
      rewrite (set_input_same_layer la lb tmp2 Sab).
      destruct (activateLayer libm_exp libm_tanh (set_input la tmp2)) as [lto'| |];
        simpl; try exact I.
      rewrite !array_set_Ok by lia. simpl.
      split; [|split].
      + apply Forall2_same_length_lookup_2; [rewrite !length_insert; lia|].
        intros k x y Hx Hy.
        destruct (Nat.eq_dec k (Z.to_nat (i + 1))) as [->|Hne].
        * rewrite list_lookup_insert_eq in Hx by lia.
          rewrite list_lookup_insert_eq in Hy by lia.
          injection Hx as <-. injection Hy as <-. apply same_layer_refl.
        * rewrite list_lookup_insert_ne in Hx by lia.
          rewrite list_lookup_insert_ne in Hy by lia.
          exact (Forall2_lookup_lr _ _ _ _ _ _ HFab Hx Hy).
      + rewrite length_insert. exact Hla.
      + intros j Hj.
        destruct (Nat.eq_dec j (Z.to_nat (i + 1))) as [->|Hne].
        * rewrite !list_lookup_insert_eq by lia. reflexivity.
        * rewrite !list_lookup_insert_ne by lia. apply Hsame. lia. }
  clear Hloop.
  match type of Hag with
  | outcomes_agree _ ?r1 ?r2 => destruct r1 as [a| |], r2 as [b| |]
  end; simpl in Hag; try contradiction; try reflexivity.
  destruct Hag as (HFab & Hla & Hsame). f_equal.
  pose proof (Forall2_length _ _ _ HFab) as Hlab.
  apply list_eq. intros j.
  destruct (Nat.le_gt_cases j (Z.to_nat nc)) as [Hj|Hj].
  - apply Hsame. lia.
  - rewrite !lookup_ge_None_2 by lia. reflexivity.
Qed.

(** [forwardPass] on two networks that differ in nothing but the stored
    inputs of their layers. *)
Lemma forwardPass_agree (n1 n2 : Network) (input : Matrix) :
  wfNetwork n1 -> wfNetwork n2 ->
  numLayers n2 = numLayers n1 ->
  connections n2 = connections n1 ->
  Forall2 same_layer (layers n1) (layers n2) ->
  forwardPass libm_exp libm_tanh n2 input = forwardPass libm_exp libm_tanh n1 input.
Proof.
  intros W1 W2 HL HC HF.
  destruct (wfNetwork_layer0 n1 W1) as (a & Ea & _ & _ & Hca).
  destruct (wfNetwork_layer0 n2 W2) as (b & Eb & _ & _ & Hcb).
  assert (Sab : same_layer a b).
  { apply array_get_Ok in Ea as [_ Ea]. apply array_get_Ok in Eb as [_ Eb].
    exact (Forall2_lookup_lr _ _ _ _ _ _ HF Ea Eb). }
  assert (HNC : numConnections n2 = numConnections n1).
  { rewrite (wf_numConnections n1 W1), (wf_numConnections n2 W2). lia. }
  pose proof (wf_layers_len n1 W1) as Hl1. pose proof (wf_layers_len n2 W2) as Hl2.
  pose proof (wf_numLayers n1 W1) as H2.
  unfold forwardPass. rewrite Ea, Eb, !bind_Ok, Hca, Hcb, HL, HC, HNC.
  destruct Sab as (St & Ss & Sa). rewrite Ss.
  destruct (m_cols input =? l_size a); [|reflexivity].
  rewrite !array_set_Ok, !bind_Ok by lia.
  rewrite (set_input_same_layer a b (copy input)) by (repeat split; assumption).
  rewrite (forward_loop_agree (connections n1) (numConnections n1)
             (<[Z.to_nat 0 := set_input a (copy input)]> (layers n2))
             (<[Z.to_nat 0 := set_input a (copy input)]> (layers n1))).
  - reflexivity.
  - intros i c Hc. destruct (wf_links n1 W1 i c Hc) as (? & ? & _ & _ & _ & Hto & _).
    exact Hto.
  - apply Forall2_same_length_lookup_2; [rewrite !length_insert; lia|].
    intros k x y Hx Hy. destruct k as [|k].
    + rewrite list_lookup_insert_eq in Hx by (simpl; lia).
      rewrite list_lookup_insert_eq in Hy by (simpl; lia).
      injection Hx as <-. injection Hy as <-. apply same_layer_refl.
    + rewrite list_lookup_insert_ne in Hx by (simpl; lia).
      rewrite list_lookup_insert_ne in Hy by (simpl; lia).
      apply same_layer_sym. exact (Forall2_lookup_lr _ _ _ _ _ _ HF Hy Hx).
  - rewrite !list_lookup_insert_eq by (simpl; lia). reflexivity.
  - rewrite length_insert, (wf_numConnections n1 W1). lia.
Qed.

End ForwardTwice.

(** X1: a forward pass leaves no trace of the batch that was run before
    it.  After [forwardPass network x] has completed, running any batch
    [y] ends exactly as it would have on the network before [x] was
    run, and running [x] again leaves the network as it is. *)
Theorem forwardPass_forgets_earlier_batch libm_exp libm_tanh (n n1 : Network)
    (x : Matrix) :
  wfNetwork n -> wfMatrix x ->
  forwardPass libm_exp libm_tanh n x = Ok n1 ->
  (forall y, forwardPass libm_exp libm_tanh n1 y = forwardPass libm_exp libm_tanh n y) /\
  forwardPass libm_exp libm_tanh n1 x = Ok n1.
Proof.
  intros W Hx E.
  pose proof (forwardPass_wf libm_exp libm_tanh n n1 x W Hx E) as W1.
  destruct (forwardPass_result libm_exp libm_tanh n n1 x W Hx E)
    as (ls & l0 & -> & Hinv & _).
  assert (Hall : forall y,
            forwardPass libm_exp libm_tanh
              (mkNetwork (numLayers n) ls (numConnections n) (connections n)) y
            = forwardPass libm_exp libm_tanh n y).
  { intros y. apply forwardPass_agree; [exact W|exact W1|reflexivity|reflexivity|].
    exact (forward_inv_same_layers n x _ ls W Hinv). }
  split; [exact Hall|]. rewrite Hall. exact E.
Qed.

(** X2: a completed forward pass keeps the invariants of the data model
    and changes nothing but stored inputs: the layer and connection
    counts and every weight and bias are as before, and the INPUT layer
    ends up holding the batch itself. *)
Theorem forwardPass_keeps_network libm_exp libm_tanh (n n' : Network) (input : Matrix) :
  wfNetwork n -> wfMatrix input ->
  forwardPass libm_exp libm_tanh n input = Ok n' ->
  wfNetwork n' /\
  numLayers n' = numLayers n /\
  numConnections n' = numConnections n /\
  connections n' = connections n /\
  Forall2 same_layer (layers n) (layers n') /\
  exists l0, array_get (layers n') 0 = Ok l0 /\ l_input l0 = input.
Proof.
  intros W Hin E.
  pose proof (forwardPass_wf libm_exp libm_tanh n n' input W Hin E) as W'.
  destruct (forwardPass_result libm_exp libm_tanh n n' input W Hin E)
    as (ls & l0 & -> & Hinv & E0 & Hcols).
  split; [exact W'|]. simpl.
  split; [reflexivity|]. split; [reflexivity|]. split; [reflexivity|].
  split; [exact (forward_inv_same_layers n input _ ls W Hinv)|].
  exists (set_input l0 input). split; [|reflexivity].
  pose proof (wf_layers_len n W) as Hl. pose proof (wf_numLayers n W) as H2.
  destruct (wfNetwork_layer0 n W) as (l0' & E0' & _ & _ & Hc0).
  assert (l0' = l0) by congruence. subst l0'.
  unfold forwardPass in E. rewrite E0, bind_Ok in E.
  rewrite (proj2 (Z.eqb_eq _ _)) in E by congruence.
  rewrite array_set_Ok, bind_Ok in E by lia.
  apply bind_Ok_inv in E as (ls' & Els & E). injection E as <-.
  simpl layers.
  eapply (for_range_keeps
            (fun t : list Layer => array_get t 0 = Ok (set_input l0 input)));
    [| |exact Els].
  - apply (array_get_insert_eq (layers n) 0). lia.
  - intros i t t' Hi Ht Hbody.
    apply bind_Ok_inv in Hbody as (li & _ & Hbody).
    apply bind_Ok_inv in Hbody as (ci & Eci & Hbody).
    apply bind_Ok_inv in Hbody as (tmp & _ & Hbody).
    apply bind_Ok_inv in Hbody as (tmp2 & _ & Hbody).
    apply bind_Ok_inv in Hbody as (lto & _ & Hbody).
    apply bind_Ok_inv in Hbody as (lto' & _ & Hbody).
    destruct (wf_links n W i ci Eci) as (? & ? & _ & _ & _ & Hto & _).
    rewrite Hto in Hbody. unfold array_set in Hbody.
    destruct ((0 <=? i + 1) && (i + 1 <? Z.of_nat (length t))); [|discriminate].
    injection Hbody as <-. rewrite array_get_insert_ne by lia. exact Ht.
Qed.

(** ** Prediction after a forward pass *)

(** [predict] on an OUTPUT layer that holds a stored input: one index
    per row, each below the layer's size. *)
Lemma predict_in_range (n : Network) (lo : Layer) :
  array_get (layers n) (numLayers n - 1) = Ok lo ->
  wfLayer lo ->
  exists ps,
    predict n = Ok ps /\
    Z.of_nat (length ps) = m_rows (l_input lo) /\
    Forall (fun p => 0 <= p < l_size lo) ps.
Proof.
  intros Elo (Hsz & (Hr & Hc & Hlen & Hrows) & Hcols).
  unfold predict. rewrite Elo, bind_Ok. unfold for_range. rewrite Z.sub_0_r.
  match goal with
  | |- context [for_loop ?k 0 (fun i predictions => max ← @?step i; _) []] =>
      rewrite (for_loop_collect step);
      destruct (collect_rel (fun _ m => 0 <= m < l_size lo) step k 0)
        as (ps & Eps & Hps & Hall)
  end.
  - intros i Hi.
    destruct (array_get_in_range (m_data (l_input lo)) i) as (row & Erow); [lia|].
    assert (Hrow : Z.of_nat (length row) = m_cols (l_input lo)).
    { rewrite Forall_forall in Hrows. apply Hrows.
      apply array_get_Ok in Erow as [_ Erow]. eapply list_elem_of_lookup_2; exact Erow. }
    destruct (predict_row (l_input lo) i row (l_size lo) Erow) as (m & Em & R & _); [lia|].
    exists m. split; [exact Em|exact R].
  - exists ps. rewrite Eps, bind_Ok. split; [reflexivity|]. split; [lia|].
    apply Forall_forall. intros p Hp. apply list_elem_of_lookup in Hp as (k & Hk).
    exact (Hall _ _ (array_get_lookup _ _ _ Hk)).
Qed.

(** X3: after a forward pass on a batch, [predict] returns exactly one
    class index for every row of the batch, and each index is below the
    OUTPUT layer's size. *)
Theorem predict_after_forwardPass libm_exp libm_tanh (n : Network) (input : Matrix)
    (l0 lo : Layer) :
  wfNetwork n -> wfMatrix input ->
  array_get (layers n) 0 = Ok l0 ->
  array_get (layers n) (numLayers n - 1) = Ok lo ->
  m_cols input = l_size l0 ->
  exists n' ps,
    forwardPass libm_exp libm_tanh n input = Ok n' /\
    predict n' = Ok ps /\
    Z.of_nat (length ps) = m_rows input /\
    Forall (fun p => 0 <= p < l_size lo) ps.
Proof.
  intros W Hin E0 Eo Hcols.
  destruct (forwardPass_spec libm_exp libm_tanh n input l0 W Hin E0 Hcols)
    as (ls & Efp & Hlen & Hinv).
  pose proof (wf_numLayers n W) as H2. pose proof (wf_numConnections n W) as Hnc.
  destruct (array_get_in_range ls (numLayers n - 1)) as (lo' & Elo'); [lia|].
  destruct (Hinv _ _ Elo') as (Hwf' & (lo0 & Elo0 & _ & Hs' & _) & Hr').
  assert (lo0 = lo) by congruence. subst lo0.
  destruct (predict_in_range
              (mkNetwork (numLayers n) ls (numConnections n) (connections n))
              lo' Elo' Hwf') as (ps & Eps & Hpl & Hps).
  eexists _, ps. split; [exact Efp|]. split; [exact Eps|].
  split; [rewrite Hpl; apply Hr'; lia|]. rewrite <- Hs'. exact Hps.
Qed.

(** ** Accuracy on a network whose ends differ in size *)

(** X4: [accuracy] compares the width of the batch with the OUTPUT
    layer's size and then hands the batch to [forwardPass], which
    compares it with the INPUT layer.  On a network whose INPUT and
    OUTPUT layers differ in size no batch passes both checks: every
    call stops on an assertion. *)
Theorem accuracy_needs_equal_ends libm_exp libm_tanh (n : Network)
    (data classes : Matrix) (l0 lo : Layer) :
  wfNetwork n ->
  array_get (layers n) 0 = Ok l0 ->
  array_get (layers n) (numLayers n - 1) = Ok lo ->
  l_size l0 <> l_size lo ->
  accuracy libm_exp libm_tanh n data classes = AssertionFailed.
Proof.
  intros W E0 Eo Hne. unfold accuracy.
  destruct (m_rows data =? m_rows classes); [|reflexivity]. simpl negb. cbv iota.
  rewrite Eo, bind_Ok.
  destruct (Z.eqb_spec (m_cols data) (l_size lo)) as [Hc|]; [|reflexivity].
  simpl negb. cbv iota.
  unfold forwardPass. rewrite E0, bind_Ok.
  destruct (wfNetwork_layer0 n W) as (l0' & E0' & _ & _ & Hc0).
  assert (l0' = l0) by congruence. subst l0'.
  destruct (Z.eqb_spec (m_cols data) (m_cols (l_input l0))); [congruence|reflexivity].
Qed.

(** ** The loss on mismatched shapes and on diverged weights *)

Lemma wfNetwork_weights_Forall (net : Network) :
  wfNetwork net -> Forall (fun c => wfMatrix (c_weights c)) (connections net).
Proof.
  intros W. apply Forall_forall. intros c Hc.
  apply list_elem_of_lookup in Hc as (k & Hk). apply array_get_lookup in Hk.
  destruct (wfNetwork_weights net _ c W Hk) as (Hw & _). exact Hw.
Qed.

(** The value [crossEntropyLoss] returns on matrices of one shape. *)
Lemma crossEntropyLoss_value libm_log (network : option Network)
    (prediction actual : Matrix) (s : double) :
  wfMatrix prediction -> wfMatrix actual ->
  m_rows prediction = m_rows actual -> m_cols prediction = m_cols actual ->
  (forall net, network = Some net -> wfNetwork net) ->
  crossEntropyLoss libm_log network prediction actual s
  = Ok (mean_log_loss libm_log DBL_MIN prediction actual
        + s * 0.5 * penalty network)%float.
Proof.
  intros Hp Ha Hrows Hcols Hnet. unfold crossEntropyLoss.
  rewrite (proj2 (Z.eqb_eq _ _) Hrows), (proj2 (Z.eqb_eq _ _) Hcols).
  simpl negb. cbv iota.
  rewrite (loss_data_loops libm_log prediction actual Hp Ha Hrows Hcols), bind_Ok.
  destruct network as [net|].
  - pose proof (Hnet net eq_refl) as W.
    rewrite loss_penalty_loops, bind_Ok;
      [reflexivity|apply (wf_conns_len net W)|apply wfNetwork_weights_Forall, W].
  - rewrite bind_Ok. reflexivity.
Qed.

(** X5: [crossEntropyLoss] stops on an assertion exactly when the two
    matrices differ in their row count or in their column count; on
    matrices of one shape it returns a value, and it never reads outside
    a buffer. *)
Theorem crossEntropyLoss_aborts_iff libm_log (network : option Network)
    (prediction actual : Matrix) (s : double) :
  wfMatrix prediction -> wfMatrix actual ->
  (forall net, network = Some net -> wfNetwork net) ->
  (crossEntropyLoss libm_log network prediction actual s = AssertionFailed
   <-> m_rows prediction <> m_rows actual \/ m_cols prediction <> m_cols actual) /\
  crossEntropyLoss libm_log network prediction actual s <> Undefined.
Proof.
  intros Hp Ha Hnet.
  destruct (Z.eq_dec (m_rows prediction) (m_rows actual)) as [Hr|Hr].
  - destruct (Z.eq_dec (m_cols prediction) (m_cols actual)) as [Hc|Hc].
    + rewrite (crossEntropyLoss_value libm_log network prediction actual s Hp Ha Hr Hc Hnet).
      split; [|discriminate]. split; [discriminate|]. intros [?|?]; contradiction.
    + assert (E : crossEntropyLoss libm_log network prediction actual s = AssertionFailed).
      { unfold crossEntropyLoss. rewrite (proj2 (Z.eqb_eq _ _) Hr). simpl negb. cbv iota.
        destruct (Z.eqb_spec (m_cols prediction) (m_cols actual)); [contradiction|].
        reflexivity. }
      rewrite E. split; [|discriminate]. split; [auto|reflexivity].
  - assert (E : crossEntropyLoss libm_log network prediction actual s = AssertionFailed).
    { unfold crossEntropyLoss.
      destruct (Z.eqb_spec (m_rows prediction) (m_rows actual)); [contradiction|].
      reflexivity. }
    rewrite E. split; [|discriminate]. split; [auto|reflexivity].
Qed.

Lemma nan_add (x : double) : (nan + x)%float = nan.
Proof.
  apply Prim2SF_inj. rewrite add_spec.
  change (Prim2SF nan) with S754_nan. reflexivity.
Qed.

Lemma mul_nan (x : double) : (x * nan)%float = nan.
Proof.
  apply Prim2SF_inj. rewrite mul_spec.
  change (Prim2SF nan) with S754_nan. destruct (Prim2SF x); reflexivity.
Qed.

Lemma is_nan_true (x : double) : is_nan x = true -> x = nan.
Proof.
  unfold is_nan. intros H. apply Prim2SF_inj. change (Prim2SF nan) with S754_nan.
  rewrite FloatAxioms.eqb_spec in H.
  destruct (Prim2SF x) as [s|s| |s m e] eqn:E; try reflexivity;
    rewrite SFeqb_refl in H by discriminate; discriminate.
Qed.

(** A sum that meets a NaN is NaN. *)
Lemma fold_add_nan (l : list double) : fold_left PrimFloat.add l nan = nan.
Proof.
  induction l as [|x l IH]; simpl; [reflexivity|]. rewrite nan_add. exact IH.
Qed.

Lemma dsum_nan (l : list double) (acc : double) :
  Exists (fun x => x = nan) l -> fold_left PrimFloat.add l acc = nan.
Proof.
  intros H. revert acc. induction H as [x l ->|x l _ IH]; intros acc; simpl.
  - rewrite add_nan. apply fold_add_nan.
  - apply IH.
Qed.

(** X6: one NaN among the weights makes the regularized loss NaN,
    whatever the predictions, the targets and the strength are. *)
Theorem crossEntropyLoss_nan_weight libm_log (net : Network)
    (prediction actual : Matrix) (s : double) :
  wfMatrix prediction -> wfMatrix actual ->
  m_rows prediction = m_rows actual -> m_cols prediction = m_cols actual ->
  wfNetwork net ->
  Exists (fun w => is_nan w = true) (weight_values net) ->
  crossEntropyLoss libm_log (Some net) prediction actual s = Ok nan.
Proof.
  intros Hp Ha Hr Hc W Hnan.
  rewrite (crossEntropyLoss_value libm_log (Some net) prediction actual s Hp Ha Hr Hc).
  2:{ intros net' [= <-]. exact W. }
  simpl penalty. unfold sum_of_squares, dsum. fold (weight_values net).
  rewrite (dsum_nan (map (fun w => w * w)%float (weight_values net))).
  - rewrite mul_nan, add_nan. reflexivity.
  - apply Exists_exists in Hnan as (w & Hin & Hw). apply Exists_exists.
    exists (w * w)%float. split.
    + apply list_elem_of_In, in_map_iff. exists w. split; [reflexivity|].
      apply list_elem_of_In, Hin.
    + apply is_nan_true in Hw. subst w. apply mul_nan.
Qed.

(** ** The size of a saved file *)

Lemma length_concat_rows {A : Type} (d : list (list A)) (c : Z) :
  Forall (fun row => Z.of_nat (length row) = c) d ->
  Z.of_nat (length (concat d)) = Z.of_nat (length d) * c.
Proof.
  induction 1 as [|row d Hrow _ IH]; simpl; [lia|].
  rewrite length_app. lia.
Qed.

Lemma parameter_count_cons (a b : Z) (rest : list Z) :
  parameter_count (a :: b :: rest) = (a + 1) * b + parameter_count (b :: rest).
Proof. reflexivity. Qed.

(** The weights and biases a chain of connections holds, counted through
    the sizes of the layers it links. *)
Lemma parameter_count_links (ls : list Layer) (cs : list Connection) :
  length ls = S (length cs) ->
  (forall k c, cs !! k = Some c ->
     exists lf lt, ls !! k = Some lf /\ ls !! S k = Some lt /\
       wfMatrix (c_weights c) /\
       m_rows (c_weights c) = l_size lf /\ m_cols (c_weights c) = l_size lt /\
       wfMatrix (c_bias c) /\ m_rows (c_bias c) = 1 /\ m_cols (c_bias c) = l_size lt) ->
  Z.of_nat (length (concat (map (fun c => concat (m_data (c_weights c))) cs)))
  + Z.of_nat (length (concat (map (fun c => nth 0 (m_data (c_bias c)) []) cs)))
  = parameter_count (map l_size ls).
Proof.
  revert ls. induction cs as [|c cs IH]; intros ls Hlen H.
  - destruct ls as [|a [|b ls]]; simpl in Hlen; try lia. reflexivity.
  - destruct ls as [|a [|b ls]]; simpl in Hlen; try lia.
    destruct (H 0%nat c eq_refl)
      as (lf & lt & [= <-] & [= <-] & Hw & Hwr & Hwc & Hb & Hbr & Hbc).
    specialize (IH (b :: ls) ltac:(simpl; lia)).
    cbn [map concat]. rewrite parameter_count_cons, !length_app.
    destruct Hw as (_ & _ & Hwl & Hwrows). destruct Hb as (_ & _ & Hbl & Hbrows).
    pose proof (length_concat_rows _ _ Hwrows) as Hcw.
    assert (Hcb : Z.of_nat (length (nth 0 (m_data (c_bias c)) [])) = m_cols (c_bias c)).
    { destruct (m_data (c_bias c)) as [|row rows]; [simpl in Hbl; lia|].
      apply Forall_cons in Hbrows as [Hrow _]. exact Hrow. }
    cbn [map] in IH. rewrite <- IH.
    + rewrite !Nat2Z.inj_add, Hcw, Hcb, Hwl, Hwr, Hwc, Hbc. ring.
    + intros k c' Hc'. apply (H (S k) c' Hc').
Qed.

Lemma wfNetwork_parameter_count (n : Network) :
  wfNetwork n ->
  Z.of_nat (length (weight_values n)) + Z.of_nat (length (bias_values n))
  = parameter_count (map l_size (layers n)).
Proof.
  intros W. unfold weight_values, bias_values. apply parameter_count_links.
  - pose proof (wf_layers_len n W). pose proof (wf_conns_len n W).
    pose proof (wf_numConnections n W). lia.
  - intros k c Hc.
    destruct (wf_links n W _ c (array_get_lookup _ _ _ Hc))
      as (lf & lt & Elf & Elt & _ & _ & R).
    apply array_get_Ok in Elf as [_ Elf]. apply array_get_Ok in Elt as [_ Elt].
    rewrite Nat2Z.id in Elf. replace (Z.to_nat (Z.of_nat k + 1)) with (S k) in Elt by lia.
    exists lf, lt. split; [exact Elf|]. split; [exact Elt|]. exact R.
Qed.

(** X7: [saveNetwork] writes a file whose length is fixed by the
    architecture: the layer count, one line for each layer size, one
    name for each hidden layer, one more line when the output activation
    is softmax, and one line for each weight and each bias. *)
Theorem saveNetwork_line_count fmt_d fmt_la (n : Network) :
  wfNetwork n ->
  exists content,
    saveNetwork fmt_d fmt_la n = Ok content /\
    Z.of_nat (length content)
    = 2 * numLayers n - 1 + output_lines n + parameter_count (map l_size (layers n)).
Proof.
  intros W. exists (saved fmt_d fmt_la n). split; [apply saveNetwork_saved, W|].
  pose proof (wfNetwork_parameter_count n W) as Hp.
  pose proof (hidden_layers_length n W) as Hh.
  pose proof (wf_layers_len n W) as Hl.
  assert (Ho : Z.of_nat (length (output_name n)) = output_lines n).
  { unfold output_name, output_lines.
    destruct (output_activation n) as [[| | | |]|]; reflexivity. }
  unfold saved, saved_head, saved_parameters.
  rewrite !length_app, !length_map. simpl length. lia.
Qed.

(** ** Saving after a forward pass *)

Lemma hidden_name_same_layer (l l' : Layer) :
  same_layer l l' -> hidden_name l' = hidden_name l.
Proof.
  intros (_ & _ & Ha). unfold hidden_name, activation_is. rewrite Ha. reflexivity.
Qed.

(** The text of a saved file depends on the layers through their sizes
    and activations only. *)
Lemma saved_same_layers fmt_d fmt_la (n n' : Network) :
  numLayers n' = numLayers n ->
  connections n' = connections n ->
  Forall2 same_layer (layers n) (layers n') ->
  saved fmt_d fmt_la n' = saved fmt_d fmt_la n.
Proof.
  intros HL HC HF.
  assert (Hsizes : map (fun l => fmt_d (l_size l)) (layers n')
                   = map (fun l => fmt_d (l_size l)) (layers n)).
  { clear HL HC. induction HF as [|l l' ls ls' (_ & Hs & _) _ IH]; simpl;
      [reflexivity|]. rewrite Hs, IH. reflexivity. }
  assert (Hhidden : map hidden_name (hidden_layers n')
                    = map hidden_name (hidden_layers n)).
  { unfold hidden_layers. rewrite HL.
    pose proof (Forall2_take _ _ _ (Z.to_nat (numLayers n - 2))
                  (Forall2_drop _ _ _ 1 HF)) as HF'.
    induction HF' as [|l l' ls ls' S _ IH]; simpl; [reflexivity|].
    rewrite (hidden_name_same_layer l l' S), IH. reflexivity. }
  assert (Hout : output_activation n' = output_activation n).
  { unfold output_activation, array_get. rewrite HL.
    destruct (numLayers n - 1 <? 0); [reflexivity|].
    destruct (layers n !! Z.to_nat (numLayers n - 1)) as [l|] eqn:El.
    - destruct (Forall2_lookup_l _ _ _ _ _ HF El) as (l' & -> & (_ & _ & Ha)).
      exact Ha.
    - apply lookup_ge_None in El. rewrite (Forall2_length _ _ _ HF) in El.
      apply lookup_ge_None in El. rewrite El. reflexivity. }
  unfold saved, saved_head, output_name, saved_parameters, weight_values, bias_values.
  rewrite HL, HC, Hsizes, Hhidden, Hout. reflexivity.
Qed.

(** X8: running a batch through a network does not change what
    [saveNetwork] writes for it: the file holds sizes, activation names,
    weights and biases, and none of the stored inputs. *)
Theorem saveNetwork_after_forwardPass libm_exp libm_tanh fmt_d fmt_la
    (n n' : Network) (input : Matrix) :
  wfNetwork n -> wfMatrix input ->
  forwardPass libm_exp libm_tanh n input = Ok n' ->
  exists content,
    saveNetwork fmt_d fmt_la n = Ok content /\
    saveNetwork fmt_d fmt_la n' = Ok content.
Proof.
  intros W Hin E.
  pose proof (forwardPass_wf libm_exp libm_tanh n n' input W Hin E) as W'.
  destruct (forwardPass_result libm_exp libm_tanh n n' input W Hin E)
    as (ls & l0 & -> & Hinv & _).
  exists (saved fmt_d fmt_la n). split; [apply saveNetwork_saved, W|].
  rewrite (saveNetwork_saved fmt_d fmt_la _ W'). f_equal.
  apply saved_same_layers; [reflexivity|reflexivity|].
  exact (forward_inv_same_layers n input _ ls W Hinv).
Qed.

(** ** Reading files that are not what the writer wrote *)

Lemma for_loop_last {St : Type} (P : St -> Prop) (body : Z -> St -> result St)
    n lo s s' :
  (0 < n)%nat ->
  (forall i t t', body i t = Ok t' -> P t') ->
  for_loop n lo body s = Ok s' -> P s'.
Proof.
  intros Hn Hbody. revert lo s. induction n as [|n IH]; intros lo s E; [lia|].
  cbn [for_loop] in E. apply bind_Ok_inv in E as (t & Et & E).
  destruct n as [|n].
  - simpl in E. injection E as <-. exact (Hbody lo s t Et).
  - apply (IH ltac:(lia) (lo + 1) t E).
Qed.

Lemma scan_line_clears {A : Type} (scan : string -> option A) (st st' : stream)
    (r : option A) :
  scan_line scan st = Ok (st', r) -> snd st' = Some EmptyString.
Proof.
  unfold scan_line. destruct (fgets st) as [fp [b|]]; [|discriminate].
  intros [= <- _]. reflexivity.
Qed.

Section ReadAnyHeader.

Variable scan_d : string -> option Z.
Variable scan_la : string -> option double.
Variable scan_s : string -> option string.
Variable init_weight : Z -> Z -> Z -> double.
Variable init_bias : Z -> Z -> double.

(** [readNetwork] up to the call of [createNetwork], on a file that
    starts with a layer count of at least 2, as many sizes and one
    activation token per non-input layer.  The sizes need not be
    positive; [buf] has been cleared when the parameters are read. *)
Lemma readNetwork_to_createNetwork (dl : string) (size_lines token_lines rest : file)
    (sizes : list Z) (tokens : list string) :
  scan_d dl = Some (Z.of_nat (length sizes)) ->
  2 <= Z.of_nat (length sizes) ->
  Forall2 (fun line v => scan_d line = Some v) size_lines sizes ->
  Z.of_nat (length tokens) = Z.of_nat (length sizes) - 1 ->
  Forall2 (fun line t => scan_s line = Some t) token_lines tokens ->
  readNetwork scan_d scan_la scan_s init_weight init_bias
    (dl :: size_lines ++ token_lines ++ rest)
  = (let L := Z.of_nat (length sizes) in
     network ← createNetwork init_weight init_bias (nth 0 sizes 0) (L - 2)
                 (take (Z.to_nat (L - 2)) (drop 1 sizes))
                 (map activation_of_name (take (Z.to_nat (L - 2)) tokens))
                 (nth (Z.to_nat (L - 1)) sizes 0)
                 (activation_of_name (nth (Z.to_nat (L - 2)) tokens EmptyString));
     s ← fill_in_weights scan_la (numConnections network)
           ((rest, Some EmptyString), connections network);
     '(st, conns) ← fill_in_bias scan_la (numConnections network) s;
     Ok (mkNetwork (numLayers network) (layers network) (numConnections network) conns)).
Proof.
  intros Hd H2 Hsz Htl Htok. cbv zeta.
  set (L := Z.of_nat (length sizes)) in *.
  unfold readNetwork.
  rewrite scan_line_cons, bind_Ok. cbv beta iota. rewrite Hd, read_var_Some, bind_Ok.
  rewrite (@vla_pos Z L) by lia. rewrite bind_Ok.
  destruct (read_sizes_loop scan_d size_lines sizes (token_lines ++ rest)
              EmptyString L eq_refl Hsz) as (buf1 & E1).
  rewrite E1, bind_Ok. cbv beta iota.
  rewrite (@vla_pos Activation (L - 1)) by lia. rewrite bind_Ok.
  destruct (read_funcs_loop scan_s token_lines tokens rest buf1 (L - 1) Htl Htok)
    as (buf2 & fs & E2).
  assert (Hbuf : buf2 = EmptyString).
  { pose proof E2 as E. unfold for_range in E.
    apply (for_loop_last (fun x : stream * (option string * list (option Activation)) =>
                            snd (fst x) = Some EmptyString)) in E.
    - simpl in E. congruence.
    - lia.
    - intros i [st [fs0 arr]] t' Hb.
      apply bind_Ok_inv in Hb as ([st1 r] & Escan & Hb). cbv beta iota zeta in Hb.
      apply bind_Ok_inv in Hb as (s0 & _ & Hb).
      apply bind_Ok_inv in Hb as (arr' & _ & Hb).
      injection Hb as <-. simpl. exact (scan_line_clears _ _ _ _ Escan). }
  subst buf2.
  cbv zeta in E2 |- *. rewrite E2, bind_Ok. cbv beta iota.
  rewrite (array_get_assigned sizes 0 (nth 0 sizes 0)), bind_Ok
    by (apply (array_get_nth sizes 0 0); lia).
  rewrite (array_get_assigned sizes (L - 1) (nth (Z.to_nat (L - 1)) sizes 0)), bind_Ok
    by (apply array_get_nth; lia).
  rewrite (array_get_assigned (map activation_of_name tokens) (L - 2)
             (activation_of_name (nth (Z.to_nat (L - 2)) tokens EmptyString))), bind_Ok.
  2:{ apply array_get_map, array_get_nth. lia. }
  assert (Hhl : Z.of_nat (length (take (Z.to_nat (L - 2)) (drop 1 sizes))) = L - 2).
  { rewrite length_take, length_drop. lia. }
  assert (Hfl : Z.of_nat (length (map activation_of_name
                                    (take (Z.to_nat (L - 2)) tokens))) = L - 2).
  { rewrite length_map, length_take. lia. }
  destruct (Z.ltb_spec 0 (L - 2)) as [Hh|Hh].
  - rewrite (for_range_append (map (fun v => [v]) (take (Z.to_nat (L - 2)) (drop 1 sizes)))).
    2:{ rewrite length_map. exact Hhl. }
    2:{ intros i c fp Hc. apply array_get_map_inv in Hc as (v & Hv & ->).
        apply array_get_take_drop in Hv as [Hv _].
        rewrite (array_get_assigned sizes (1 + i) v Hv), bind_Ok. reflexivity. }
    rewrite bind_Ok, concat_map_singleton, map_id, app_nil_l.
    rewrite (for_range_append
      (map (fun f => [f]) (map activation_of_name (take (Z.to_nat (L - 2)) tokens)))).
    2:{ rewrite length_map. exact Hfl. }
    2:{ intros i c fp Hc. apply array_get_map_inv in Hc as (f & Hf & ->).
        apply array_get_map_inv in Hf as (t & Ht & ->).
        apply array_get_take in Ht as [Ht _].
        rewrite (array_get_assigned (map activation_of_name tokens) i
                   (activation_of_name t)), bind_Ok; [reflexivity|].
        apply array_get_map, Ht. }
    rewrite bind_Ok, concat_map_singleton, map_id, app_nil_l. reflexivity.
  - replace (L - 2) with 0 by lia. reflexivity.
Qed.

Local Abbreviation unreadable := (unreadable scan_la).

Hypothesis scan_la_empty : scan_la EmptyString = None.

Lemma scan_line_unreadable (fp : file) :
  unreadable fp ->
  exists fp', scan_line scan_la (fp, Some EmptyString)
              = Ok ((fp', Some EmptyString), None) /\ unreadable fp'.
Proof.
  intros H. destruct fp as [|line fp].
  - exists []. unfold scan_line. simpl. rewrite scan_la_empty. split; [reflexivity|exact H].
  - apply Forall_cons in H as [Hl H]. exists fp.
    rewrite scan_line_cons, Hl. split; [reflexivity|exact H].
Qed.

(** A loop over unreadable lines whose iterations leave [t] alone. *)
Lemma unreadable_loop {T : Type} (body : Z -> stream * T -> result (stream * T))
    (lo hi : Z) (fp : file) (t : T) :
  (forall i fp, lo <= i < hi -> unreadable fp ->
     exists fp', body i ((fp, Some EmptyString), t) = Ok ((fp', Some EmptyString), t) /\
                 unreadable fp') ->
  unreadable fp ->
  exists fp', for_range lo hi body ((fp, Some EmptyString), t)
              = Ok ((fp', Some EmptyString), t) /\ unreadable fp'.
Proof.
  intros Hbody Hfp. destruct (Z.le_gt_cases lo hi) as [Hle|Hgt].
  - destruct (for_range_inv
      (fun _ (x : stream * T) =>
         exists fp', x = ((fp', Some EmptyString), t) /\ unreadable fp')
      body lo hi ((fp, Some EmptyString), t) Hle) as (x & E & (fp' & -> & Hfp')).
    + exists fp. auto.
    + intros i x Hi (fp0 & -> & H0).
      destruct (Hbody i fp0 Hi H0) as (fp1 & E1 & H1).
      eexists. split; [exact E1|]. exists fp1. auto.
    + exists fp'. auto.
  - exists fp. rewrite for_range_empty by lia. auto.
Qed.

Lemma fill_in_weights_unreadable (cs : list Connection) (nc : Z) (fp : file) :
  Z.of_nat (length cs) = nc -> unreadable fp ->
  exists fp', fill_in_weights scan_la nc ((fp, Some EmptyString), cs)
              = Ok ((fp', Some EmptyString), cs) /\ unreadable fp'.
Proof.
  intros Hlen Hfp. unfold fill_in_weights. apply unreadable_loop; [|exact Hfp].
  intros k fp0 Hk H0.
  destruct (array_get_in_range cs k) as (con & Econ); [lia|].
  rewrite Econ, bind_Ok.
  destruct (unreadable_loop
    (fun i '(st, w) =>
       for_range 0 (m_cols (c_weights con)) (fun j '(st, w) =>
         '(st, r) ← scan_line scan_la st;
         w ← match r with
              | Some x => mset w i j x
              | None => Ok w
              end;
         Ok (st, w)) (st, w))
    0 (m_rows (c_weights con)) fp0 (c_weights con)) as (fp1 & E1 & H1);
    [|exact H0|].
  - intros i fp1 _ H1. apply unreadable_loop; [|exact H1].
    intros j fp2 _ H2. destruct (scan_line_unreadable fp2 H2) as (fp3 & E3 & H3).
    exists fp3. rewrite E3. split; [reflexivity|exact H3].
  - rewrite E1, bind_Ok. cbv beta iota.
    rewrite array_set_Ok by lia. exists fp1. split; [|exact H1].
    rewrite bind_Ok. do 2 f_equal. apply list_insert_id.
    apply array_get_Ok in Econ as [_ Econ]. rewrite Econ. f_equal.
    destruct con. reflexivity.
Qed.

Lemma fill_in_bias_unreadable (cs : list Connection) (nc : Z) (fp : file) :
  Z.of_nat (length cs) = nc -> unreadable fp ->
  exists fp', fill_in_bias scan_la nc ((fp, Some EmptyString), cs)
              = Ok ((fp', Some EmptyString), cs) /\ unreadable fp'.
Proof.
  intros Hlen Hfp. unfold fill_in_bias. apply unreadable_loop; [|exact Hfp].
  intros k fp0 Hk H0.
  destruct (array_get_in_range cs k) as (con & Econ); [lia|].
  rewrite Econ, bind_Ok.
  destruct (unreadable_loop
    (fun i '(st, b) =>
       '(st, r) ← scan_line scan_la st;
       b ← match r with
            | Some x => mset b 0 i x
            | None => Ok b
            end;
       Ok (st, b))
    0 (m_cols (c_bias con)) fp0 (c_bias con)) as (fp1 & E1 & H1);
    [|exact H0|].
  - intros j fp2 _ H2. destruct (scan_line_unreadable fp2 H2) as (fp3 & E3 & H3).
    exists fp3. rewrite E3. split; [reflexivity|exact H3].
  - rewrite E1, bind_Ok. cbv beta iota.
    rewrite array_set_Ok by lia. exists fp1. split; [|exact H1].
    rewrite bind_Ok. do 2 f_equal. apply list_insert_id.
    apply array_get_Ok in Econ as [_ Econ]. rewrite Econ. f_equal.
    destruct con. reflexivity.
Qed.

End ReadAnyHeader.

(** X9: the parameter loops of [readNetwork] never check what [fgets]
    and [sscanf] return.  When the file stops after the activation names,
    or goes on with lines that ["%la"] converts nothing from, the call
    reports nothing and returns the network exactly as [createNetwork]
    initialized it. *)
Theorem readNetwork_unread_parameters scan_d scan_la scan_s init_weight init_bias
    (dl : string) (size_lines token_lines rest : file)
    (sizes : list Z) (tokens : list string) :
  scan_d dl = Some (Z.of_nat (length sizes)) ->
  2 <= Z.of_nat (length sizes) ->
  Forall2 (fun line v => scan_d line = Some v) size_lines sizes ->
  Forall (fun v => 0 < v) sizes ->
  Z.of_nat (length tokens) = Z.of_nat (length sizes) - 1 ->
  Forall2 (fun line t => scan_s line = Some t) token_lines tokens ->
  fits_buffer (dl :: size_lines ++ token_lines ++ rest) ->
  scan_la EmptyString = None ->
  unreadable scan_la rest ->
  exists n,
    createNetwork init_weight init_bias (nth 0 sizes 0) (Z.of_nat (length sizes) - 2)
      (take (Z.to_nat (Z.of_nat (length sizes) - 2)) (drop 1 sizes))
      (map activation_of_name (take (Z.to_nat (Z.of_nat (length sizes) - 2)) tokens))
      (nth (Z.to_nat (Z.of_nat (length sizes) - 1)) sizes 0)
      (activation_of_name
         (nth (Z.to_nat (Z.of_nat (length sizes) - 2)) tokens EmptyString)) = Ok n /\
    readNetwork scan_d scan_la scan_s init_weight init_bias
      (dl :: size_lines ++ token_lines ++ rest) = Ok n.
Proof.
  intros Hd H2 Hsz Hpos Htl Htok _ Hempty Hrest.
  rewrite (readNetwork_to_createNetwork scan_d scan_la scan_s init_weight init_bias
             dl size_lines token_lines rest sizes tokens Hd H2 Hsz Htl Htok).
  cbv zeta. set (L := Z.of_nat (length sizes)) in *.
  assert (Hin : forall v, In v sizes -> 0 < v).
  { intros v Hv. rewrite Forall_forall in Hpos. apply Hpos, list_elem_of_In, Hv. }
  assert (Hmid : forall v, In v (take (Z.to_nat (L - 2)) (drop 1 sizes)) -> 0 < v).
  { intros v Hv. apply Hin, list_elem_of_In.
    apply (subseteq_drop 1 sizes), (subseteq_take (Z.to_nat (L - 2)) (drop 1 sizes)).
    apply list_elem_of_In, Hv. }
  assert (Hhl : Z.of_nat (length (take (Z.to_nat (L - 2)) (drop 1 sizes))) = L - 2).
  { rewrite length_take, length_drop. lia. }
  assert (Hfl : Z.of_nat (length (map activation_of_name
                                    (take (Z.to_nat (L - 2)) tokens))) = L - 2).
  { rewrite length_map, length_take. lia. }
  rewrite createNetwork_built; try assumption; try lia.
  2:{ apply Hin, nth_In. lia. }
  2:{ apply Hin, nth_In. lia. }
  2:{ intros k Hk. apply Hmid, nth_In. lia. }
  match goal with |- exists n, Ok ?X = Ok n /\ _ => set (B := X) end.
  assert (WB : wfNetwork B).
  { apply built_wf; try lia.
    - apply Hin, nth_In. lia.
    - apply Hin, nth_In. lia.
    - apply Forall_forall. intros v Hv. apply Hmid, list_elem_of_In, Hv. }
  exists B. split; [reflexivity|]. rewrite bind_Ok.
  destruct (fill_in_weights_unreadable scan_la Hempty (connections B) (numConnections B)
              rest (wf_conns_len B WB) Hrest) as (fp1 & E1 & H1).
  rewrite E1, bind_Ok.
  destruct (fill_in_bias_unreadable scan_la Hempty (connections B) (numConnections B)
              fp1 (wf_conns_len B WB) H1) as (fp2 & E2 & H2').
  rewrite E2, bind_Ok. reflexivity.
Qed.

(** X10: [readNetwork] takes the layer count from the first line
    without any check.  On an empty file, on a first line ["%d"] does not
    convert, and on a count below 2 it has no defined behaviour: it
    reads a variable that was never assigned, or declares an array of no
    elements. *)
Theorem readNetwork_needs_layer_count scan_d scan_la scan_s init_weight init_bias
    (content : file) :
  fits_buffer content ->
  (forall L, first_count scan_d content = Some L -> L < 2) ->
  readNetwork scan_d scan_la scan_s init_weight init_bias content = Undefined.
Proof.
  intros _ H. unfold readNetwork. destruct content as [|line rest]; [reflexivity|].
  rewrite scan_line_cons, bind_Ok. cbv beta iota. simpl in H.
  destruct (scan_d line) as [L|]; [|reflexivity].
  specialize (H L eq_refl). rewrite read_var_Some, bind_Ok.
  destruct (Z.le_gt_cases L 0) as [Hle|Hpos].
  { assert (E : @vla Z L = Undefined).
    { unfold vla. destruct (Z.ltb_spec 0 L); [lia|reflexivity]. }
    rewrite E. reflexivity. }
  assert (L = 1) by lia. subst L. rewrite (@vla_pos Z 1), bind_Ok by lia.
  unfold for_range. change (Z.to_nat (1 - 0)) with 1%nat.
  cbn [for_loop]. cbv beta iota.
  destruct (scan_line_initialised scan_d rest EmptyString) as (fp' & r & ->).
  rewrite bind_Ok. cbv beta iota.
  destruct r as [v|]; reflexivity.
Qed.

Section CreateNetworkRejects.

Variable init_weight : Z -> Z -> Z -> double.
Variable init_bias : Z -> Z -> double.

(** [createNetwork] on a hidden size that is not positive. *)
Lemma createNetwork_rejects_hidden_size numFeatures numHiddenLayers hiddenSizes
    hiddenActivations numClasses outputActivation :
  Z.of_nat (length hiddenSizes) = numHiddenLayers ->
  Z.of_nat (length hiddenActivations) = numHiddenLayers ->
  Exists (fun sz => sz <= 0) hiddenSizes ->
  createNetwork init_weight init_bias numFeatures numHiddenLayers hiddenSizes
    hiddenActivations numClasses outputActivation = AssertionFailed.
Proof.
  intros Hl1 Hl2 Hex. rewrite createNetwork_unfold.
  destruct (Z.ltb_spec 0 numFeatures) as [Hf|]; [|reflexivity].
  destruct (Z.leb_spec 0 numHiddenLayers) as [Hh|]; [|reflexivity].
  destruct (Z.ltb_spec 0 numClasses) as [Hc|]; [|reflexivity]. simpl.
  apply Exists_exists in Hex as (sz & Hin & Hsz).
  apply list_elem_of_lookup in Hin as (k & Hk).
  pose proof (lookup_lt_Some _ _ _ Hk) as Hklt.
  rewrite (collect_abort _ _ 0 (Z.of_nat k + 1)); [reflexivity|lia| |].
  - unfold layer_step.
    destruct (Z.eqb_spec (Z.of_nat k + 1) 0); [lia|].
    destruct (Z.eqb_spec (Z.of_nat k + 1) (2 + numHiddenLayers - 1)); [lia|].
    replace (Z.of_nat k + 1 - 1) with (Z.of_nat k) by lia.
    rewrite (array_get_lookup _ _ _ Hk), bind_Ok.
    destruct (array_get_in_range hiddenActivations (Z.of_nat k)) as (a & ->); [lia|].
    rewrite bind_Ok. unfold createLayer.
    destruct (Z.ltb_spec 0 sz); [lia|reflexivity].
  - intros i Hi. unfold layer_step, createLayer.
    destruct (Z.eqb_spec i 0); [destruct (0 <? numFeatures); discriminate|].
    destruct (Z.eqb_spec i (2 + numHiddenLayers - 1)); [lia|].
    destruct (array_get_in_range hiddenSizes (i - 1)) as (x & ->); [lia|].
    rewrite bind_Ok.
    destruct (array_get_in_range hiddenActivations (i - 1)) as (a & ->); [lia|].
    rewrite bind_Ok. destruct (0 <? x); discriminate.
Qed.

End CreateNetworkRejects.

(** X11: a layer size in the file that is not positive stops
    [readNetwork] on an assertion: the sizes go to [createNetwork]
    unchecked, and its preconditions reject them before any parameter is
    read. *)
Theorem readNetwork_rejects_bad_size scan_d scan_la scan_s init_weight init_bias
    (dl : string) (size_lines token_lines rest : file)
    (sizes : list Z) (tokens : list string) :
  scan_d dl = Some (Z.of_nat (length sizes)) ->
  2 <= Z.of_nat (length sizes) ->
  Forall2 (fun line v => scan_d line = Some v) size_lines sizes ->
  Z.of_nat (length tokens) = Z.of_nat (length sizes) - 1 ->
  Forall2 (fun line t => scan_s line = Some t) token_lines tokens ->
  fits_buffer (dl :: size_lines ++ token_lines ++ rest) ->
  Exists (fun v => v <= 0) sizes ->
  readNetwork scan_d scan_la scan_s init_weight init_bias
    (dl :: size_lines ++ token_lines ++ rest) = AssertionFailed.
Proof.
  intros Hd H2 Hsz Htl Htok _ Hbad.
  rewrite (readNetwork_to_createNetwork scan_d scan_la scan_s init_weight init_bias
             dl size_lines token_lines rest sizes tokens Hd H2 Hsz Htl Htok).
  cbv zeta. set (L := Z.of_nat (length sizes)) in *.
  match goal with
  | |- (?c ≫= _) = _ => assert (E : c = AssertionFailed); [|rewrite E; reflexivity]
  end.
  apply Exists_exists in Hbad as (v & Hin & Hv).
  apply list_elem_of_lookup in Hin as (k & Hk).
  pose proof (lookup_lt_Some _ _ _ Hk) as Hklt.
  destruct (Nat.eq_dec k 0%nat) as [->|Hk0].
  { unfold createNetwork. rewrite (nth_lookup_Some _ _ _ _ Hk).
    destruct (Z.ltb_spec 0 v); [lia|reflexivity]. }
  destruct (Z.eq_dec (Z.of_nat k) (L - 1)) as [Hkl|Hkl].
  { unfold createNetwork. rewrite <- Hkl, Nat2Z.id, (nth_lookup_Some _ _ _ _ Hk).
    destruct (Z.ltb_spec 0 v); [lia|]. rewrite andb_false_r. reflexivity. }
  apply createNetwork_rejects_hidden_size.
  - rewrite length_take, length_drop. lia.
  - rewrite length_map, length_take. lia.
  - apply Exists_exists. exists v. split; [|exact Hv].
    apply list_elem_of_lookup. exists (k - 1)%nat.
    rewrite lookup_take_lt, lookup_drop by lia.
    replace (1 + (k - 1))%nat with k by lia. exact Hk.
Qed.

(** ** What a round trip through a file keeps *)

Lemma pointwise_same_layers (ls ls' : list Layer) (L : Z) :
  Z.of_nat (length ls) = L -> Z.of_nat (length ls') = L ->
  (forall i l, array_get ls i = Ok l ->
     exists l', array_get ls' i = Ok l' /\ same_layer l l') ->
  Forall2 same_layer ls ls'.
Proof.
  intros Hl Hl' H. apply Forall2_same_length_lookup_2; [lia|].
  intros k l l' Hk Hk'.
  destruct (H _ l (array_get_lookup _ _ _ Hk)) as (x & Ex & S).
  apply array_get_Ok in Ex as [_ Ex]. rewrite Nat2Z.id in Ex.
  assert (x = l') by congruence. subst x. exact S.
Qed.

(** Layer [i] of the network the reader constructs has the role of its
    place and the size it read for that place. *)
Lemma read_built_layer init_weight init_bias (sizes : list Z) (tokens : list string)
    (i : Z) :
  2 <= Z.of_nat (length sizes) ->
  0 <= i < Z.of_nat (length sizes) ->
  exists l,
    array_get (layers (read_built init_weight init_bias sizes tokens)) i = Ok l /\
    l_type l = role_at (Z.of_nat (length sizes)) i /\
    l_size l = nth (Z.to_nat i) sizes 0.
Proof.
  intros H2 Hi. unfold read_built, built. cbv zeta. simpl layers.
  set (L := Z.of_nat (length sizes)) in *.
  eexists. split; [apply array_get_map_seqZ; lia|].
  unfold layer_at, role_at. replace (2 + (L - 2) - 1) with (L - 1) by lia.
  destruct (Z.eqb_spec i 0) as [->|]; [split; reflexivity|].
  destruct (Z.eqb_spec i (L - 1)) as [->|]; [split; reflexivity|].
  simpl. split; [reflexivity|].
  rewrite !nth_lookup, lookup_take_lt, lookup_drop by lia.
  do 2 f_equal. lia.
Qed.

(** The lines the reader takes for names: the name written for hidden
    layer [i], and behind them the line that follows the names. *)
Lemma saved_token_hidden fmt_la (n : Network) (i : Z) (l : Layer) :
  wfNetwork n -> 1 <= i < numLayers n - 1 -> array_get (layers n) i = Ok l ->
  nth (Z.to_nat (i - 1)) (saved_tokens fmt_la n) EmptyString = hidden_name l.
Proof.
  intros W Hi Hl. pose proof (hidden_layers_length n W) as Hhl.
  pose proof (array_get_hidden n i l W Hi Hl) as Hh.
  unfold saved_tokens. rewrite app_nth1 by (rewrite length_map; lia).
  rewrite (nth_indep _ EmptyString (hidden_name l)) by (rewrite length_map; lia).
  rewrite map_nth. apply array_get_Ok in Hh as [_ Hh].
  rewrite (nth_lookup_Some _ _ _ _ Hh). reflexivity.
Qed.

Lemma saved_token_output fmt_la (n : Network) :
  wfNetwork n ->
  nth (Z.to_nat (numLayers n - 2)) (saved_tokens fmt_la n) EmptyString
  = output_token fmt_la n.
Proof.
  intros W. pose proof (hidden_layers_length n W) as Hhl.
  pose proof (wf_numLayers n W) as H2.
  unfold saved_tokens. rewrite app_nth2 by (rewrite length_map; lia).
  rewrite length_map.
  replace (Z.to_nat (numLayers n - 2) - length (hidden_layers n))%nat with 0%nat by lia.
  reflexivity.
Qed.

Lemma output_token_softmax fmt_la (n : Network) :
  output_activation n = Some softmax -> output_token fmt_la n = "softmax"%string.
Proof. intros H. unfold output_token, output_name. rewrite H. reflexivity. Qed.

Lemma nth_map_sizes (ls : list Layer) (i : Z) (l : Layer) :
  array_get ls i = Ok l -> nth (Z.to_nat i) (map l_size ls) 0 = l_size l.
Proof.
  intros Hl. pose proof (array_get_length _ _ _ Hl) as Hi.
  rewrite (nth_indep _ 0 (l_size l)) by (rewrite length_map; lia).
  rewrite map_nth. apply array_get_Ok in Hl as [_ Hl].
  rewrite (nth_lookup_Some _ _ _ _ Hl). reflexivity.
Qed.

Section RoundTrip.

Variable fmt_d : Z -> string.
Variable scan_d : string -> option Z.
Variable fmt_la : double -> string.
Variable scan_la : string -> option double.
Variable scan_s : string -> option string.
Variable init_weight : Z -> Z -> Z -> double.
Variable init_bias : Z -> Z -> double.

(** The network the reader constructs from the file of [n]: it satisfies
    the invariants of the data model, and its layers have the roles and
    sizes of the layers of [n] and the activations the names stand for. *)
Lemma read_built_of_saved (n : Network) :
  wfNetwork n ->
  let B := read_built init_weight init_bias (map l_size (layers n))
             (saved_tokens fmt_la n) in
  wfNetwork B /\
  numLayers B = numLayers n /\
  numConnections B = numConnections n /\
  forall i l, array_get (layers n) i = Ok l ->
    exists l', array_get (layers B) i = Ok l' /\
      l_type l' = l_type l /\ l_size l' = l_size l /\
      l_activation l'
      = if i =? 0 then None
        else Some (activation_of_name
                     (nth (Z.to_nat (i - 1)) (saved_tokens fmt_la n) EmptyString)).
Proof.
  intros W B.
  pose proof (wf_layers_len n W) as Hll. pose proof (wf_numLayers n W) as H2.
  pose proof (wf_numConnections n W) as Hnc.
  pose proof (hidden_layers_length n W) as Hhl.
  assert (WB : wfNetwork B).
  { unfold B, read_built. cbv zeta. rewrite length_map.
    assert (Hin : forall v, In v (map l_size (layers n)) -> 0 < v).
    { intros v Hv. apply in_map_iff in Hv as (l & <- & Hl).
      pose proof (wf_layers n W) as Hwf. rewrite Forall_forall in Hwf.
      apply (Hwf l), list_elem_of_In, Hl. }
    apply built_wf; try lia.
    - apply Hin, nth_In. rewrite length_map. lia.
    - apply Hin, nth_In. rewrite length_map. lia.
    - rewrite length_take, length_drop, length_map. lia.
    - apply Forall_forall. intros v Hv. apply Hin, list_elem_of_In.
      apply (subseteq_drop 1 (map l_size (layers n))),
            (subseteq_take (Z.to_nat (Z.of_nat (length (layers n)) - 2))
               (drop 1 (map l_size (layers n)))).
      exact Hv. }
  split; [exact WB|].
  split; [unfold B, read_built, built; simpl; rewrite length_map; lia|].
  split; [unfold B, read_built, built; simpl; rewrite length_map; lia|].
  intros i l Hl. pose proof (array_get_length _ _ _ Hl) as Hi.
  destruct (read_built_layer init_weight init_bias (map l_size (layers n))
              (saved_tokens fmt_la n) i) as (l' & El' & Ht & Hs);
    [rewrite length_map; lia|rewrite length_map; lia|].
  fold B in El'. exists l'. split; [exact El'|].
  rewrite length_map, Hll in Ht. destruct (wf_roles n W i l Hl) as (Hrole & _).
  split; [congruence|]. split; [rewrite Hs; apply nth_map_sizes, Hl|].
  destruct (Z.eqb_spec i 0) as [->|Hi0].
  - apply (wf_roles B WB 0 l' El'). reflexivity.
  - destruct (read_built_activation init_weight init_bias (map l_size (layers n))
                (saved_tokens fmt_la n) (i - 1)) as (l2 & El2 & _ & Hact).
    { rewrite length_map. lia. }
    { unfold saved_tokens. rewrite length_app, !length_map. simpl. lia. }
    { rewrite length_map. lia. }
    replace (i - 1 + 1) with i in El2 by lia. fold B in El2.
    assert (l2 = l') by congruence. subst l2. exact Hact.
Qed.

(** With a softmax output the parameters come back exactly: the reader
    returns the layers it constructs and the very connections of [n],
    whatever the hidden activations are.  Lines that follow the last bias
    are not read. *)
Lemma save_read_parameters (n : Network) (trailing : file) :
  wfNetwork n ->
  stdio_faithful_on fmt_d scan_d fmt_la scan_la scan_s n ->
  output_activation n = Some softmax ->
  readNetwork scan_d scan_la scan_s init_weight init_bias
    (saved fmt_d fmt_la n ++ trailing)
  = Ok (mkNetwork (numLayers n)
          (layers (read_built init_weight init_bias (map l_size (layers n))
                     (saved_tokens fmt_la n)))
          (numConnections n) (connections n)).
Proof.
  intros W F Hout. pose proof F as (HL & Hsizes & _ & Hvals).
  pose proof (wf_layers_len n W) as Hll. pose proof (wf_numLayers n W) as H2.
  pose proof (wf_numConnections n W) as Hnc. pose proof (wf_conns_len n W) as Hcl.
  pose proof (hidden_layers_length n W) as Hhl.
  destruct (saved_split fmt_d fmt_la n W) as (rest & Esaved & Hrest).
  rewrite (Hrest Hout) in Esaved. rewrite Esaved. clear rest Hrest Esaved.
  rewrite <- app_comm_cons, <- !app_assoc.
  destruct (readNetwork_to_parameters scan_d scan_la scan_s init_weight init_bias
              (fmt_d (numLayers n)) (map (fun l => fmt_d (l_size l)) (layers n))
              (saved_tokens fmt_la n) (saved_parameters fmt_la n ++ trailing)
              (map l_size (layers n)) (saved_tokens fmt_la n))
    as (_ & buf & E).
  { rewrite length_map, Hll. exact HL. }
  { rewrite length_map. lia. }
  { apply Forall2_fmap_l, Forall2_fmap_r, Forall_Forall2_diag. exact Hsizes. }
  { apply Forall_fmap. eapply Forall_impl; [apply (wf_layers n W)|].
    intros l (Hl & _). exact Hl. }
  { unfold saved_tokens. rewrite length_app, !length_map. simpl. lia. }
  { apply (saved_tokens_scan fmt_d scan_d fmt_la scan_la scan_s); assumption. }
  rewrite E. cbv zeta.
  destruct (read_built_of_saved n W) as (WB & HBL & HBC & Hlayers).
  set (B := read_built init_weight init_bias (map l_size (layers n))
              (saved_tokens fmt_la n)) in *.
  assert (HBl : Z.of_nat (length (connections B)) = numConnections n).
  { rewrite (wf_conns_len B WB). exact HBC. }
  (* the shapes of the connections of [B] against those of [n] *)
  assert (Hconn : forall k c0 c, array_get (connections B) k = Ok c0 ->
            array_get (connections n) k = Ok c ->
            c_from c0 = c_from c /\ c_to c0 = c_to c /\
            wfMatrix (c_weights c) /\ wfMatrix (c_weights c0) /\
            m_rows (c_weights c0) = m_rows (c_weights c) /\
            m_cols (c_weights c0) = m_cols (c_weights c) /\
            wfMatrix (c_bias c) /\ wfMatrix (c_bias c0) /\
            m_rows (c_bias c) = 1 /\ m_rows (c_bias c0) = 1 /\
            m_cols (c_bias c0) = m_cols (c_bias c)).
  { intros k c0 c Hc0 Hc.
    destruct (wf_links B WB k c0 Hc0)
      as (lf0 & lt0 & Elf0 & Elt0 & Hf0 & Ht0 & Hw0 & Hwr0 & Hwc0 & Hb0 & Hbr0 & Hbc0).
    destruct (wf_links n W k c Hc)
      as (lf & lt & Elf & Elt & Hf & Ht & Hw & Hwr & Hwc & Hb & Hbr & Hbc).
    destruct (Hlayers k lf Elf) as (x & Ex & _ & Hsx & _).
    destruct (Hlayers (k + 1) lt Elt) as (y & Ey & _ & Hsy & _).
    assert (x = lf0) by congruence. assert (y = lt0) by congruence. subst x y.
    repeat (split; [first [assumption | congruence]|]). congruence. }
  destruct (weights_loop_exact fmt_la scan_la (connections B) (connections n)
              (numConnections B) (map fmt_la (bias_values n) ++ trailing) buf)
    as (b1 & E1).
  { apply (wf_conns_len B WB). }
  { lia. }
  { intros k c0 c Hc0 Hc. destruct (Hconn k c0 c Hc0 Hc)
      as (_ & _ & ? & ? & ? & ? & _). auto. }
  { apply Forall_app in Hvals as [Hv _].
    eapply Forall_impl; [exact Hv|]. intros x [_ Hx]. exact Hx. }
  unfold saved_parameters, weight_values. rewrite <- app_assoc, E1, bind_Ok.
  destruct (bias_loop_exact fmt_la scan_la
              (zip_with (fun c0 c => set_weights c0 (c_weights c))
                 (connections B) (connections n))
              (connections n) (numConnections B) trailing b1)
    as (b2 & E2).
  { rewrite length_zip_with_l_eq by lia. apply (wf_conns_len B WB). }
  { rewrite length_zip_with_l_eq by lia. lia. }
  { intros k c1 c Hc1 Hc.
    apply array_get_zip_with in Hc1 as (c0 & c' & Hc0 & Hc' & ->).
    assert (c' = c) by congruence. subst c'.
    destruct (Hconn k c0 c Hc0 Hc) as (_ & _ & _ & _ & _ & _ & ? & ? & ? & ? & ?).
    simpl. auto. }
  { apply Forall_app in Hvals as [_ Hv].
    eapply Forall_impl; [exact Hv|]. intros x [_ Hx]. exact Hx. }
  unfold bias_values. rewrite E2, bind_Ok. cbv beta iota.
  rewrite zip_with_set_bias_weights.
  2:{ lia. }
  2:{ intros k c0 c Hc0 Hc. destruct (Hconn k c0 c Hc0 Hc) as (? & ? & _). auto. }
  rewrite HBL, HBC. reflexivity.
Qed.

(** Where the writer and the reader agree: with hidden activations among
    sigmoid, relu and tanH the layers come back with the roles, sizes and
    activations they had. *)
Lemma save_read_exact (n : Network) :
  wfNetwork n ->
  output_activation n = Some softmax ->
  Forall (fun l => l_activation l = Some sigmoid \/ l_activation l = Some relu \/
                   l_activation l = Some tanH) (hidden_layers n) ->
  forall i l, array_get (layers n) i = Ok l ->
    exists l',
      array_get (layers (read_built init_weight init_bias (map l_size (layers n))
                           (saved_tokens fmt_la n))) i = Ok l' /\
      same_layer l l'.
Proof.
  intros W Hout Hhidden i l Hl.
  destruct (read_built_of_saved n W) as (_ & _ & _ & Hlayers).
  destruct (Hlayers i l Hl) as (l' & El' & Ht & Hs & Ha).
  exists l'. split; [exact El'|]. split; [exact Ht|]. split; [exact Hs|].
  rewrite Ha. pose proof (array_get_length _ _ _ Hl) as Hi.
  pose proof (wf_layers_len n W) as Hll.
  destruct (Z.eqb_spec i 0) as [->|Hi0].
  - symmetry. apply (wf_roles n W 0 l Hl). reflexivity.
  - destruct (Z.eq_dec i (numLayers n - 1)) as [->|Hil].
    + replace (numLayers n - 1 - 1) with (numLayers n - 2) by lia.
      rewrite (saved_token_output fmt_la n W), (output_token_softmax fmt_la n Hout).
      unfold output_activation in Hout. rewrite Hl in Hout. rewrite Hout. reflexivity.
    + rewrite (saved_token_hidden fmt_la n i l W ltac:(lia) Hl),
              activation_of_hidden_name.
      pose proof (array_get_hidden n i l W ltac:(lia) Hl) as Hh.
      pose proof (Forall_array_get _ _ (i - 1) l Hhidden Hh) as Hcase.
      simpl in Hcase. unfold activation_is.
      destruct Hcase as [-> | [-> | ->]]; reflexivity.
Qed.

End RoundTrip.

(** X12: where the writer and the reader agree, the round trip is
    exact.  A network whose output activation is softmax and whose
    hidden activations are among sigmoid, relu and tanH is read back from
    the file [saveNetwork] wrote with the same layers (roles, sizes and
    activations) and with every weight and bias bit for bit, whatever
    values the reader's [createNetwork] had drawn for them; and whatever
    follows the last bias in the file is never read. *)
Theorem save_read_round_trip fmt_d scan_d fmt_la scan_la scan_s init_weight init_bias
    (n : Network) :
  wfNetwork n ->
  stdio_faithful_on fmt_d scan_d fmt_la scan_la scan_s n ->
  output_activation n = Some softmax ->
  Forall (fun l => l_activation l = Some sigmoid \/ l_activation l = Some relu \/
                   l_activation l = Some tanH) (hidden_layers n) ->
  exists content n',
    saveNetwork fmt_d fmt_la n = Ok content /\
    readNetwork scan_d scan_la scan_s init_weight init_bias content = Ok n' /\
    (forall trailing,
       readNetwork scan_d scan_la scan_s init_weight init_bias (content ++ trailing)
       = Ok n') /\
    numLayers n' = numLayers n /\
    numConnections n' = numConnections n /\
    connections n' = connections n /\
    Forall2 same_layer (layers n) (layers n').
Proof.
  intros W F Hout Hhidden.
  pose proof (save_read_parameters fmt_d scan_d fmt_la scan_la scan_s
                init_weight init_bias n) as Hread.
  destruct (read_built_of_saved fmt_la init_weight init_bias n W)
    as (WB & HBL & _ & _).
  exists (saved fmt_d fmt_la n). eexists.
  split; [apply saveNetwork_saved, W|].
  split; [rewrite <- (app_nil_r (saved fmt_d fmt_la n)); exact (Hread [] W F Hout)|].
  split; [intros trailing; exact (Hread trailing W F Hout)|].
  cbn [numLayers layers numConnections connections].
  split; [reflexivity|]. split; [reflexivity|]. split; [reflexivity|].
  apply (pointwise_same_layers _ _ (numLayers n)).
  - apply (wf_layers_len n W).
  - rewrite (wf_layers_len _ WB). exact HBL.
  - exact (save_read_exact fmt_la init_weight init_bias n W Hout Hhidden).
Qed.

(** X13: the architecture survives a round trip through a file for
    every network, also where activations or parameters do not: the
    network read back has the same number of layers, each with the role
    and the size of the original, and connections between the same layers
    with matrices of the same shapes. *)
Theorem round_trip_keeps_architecture fmt_d scan_d fmt_la scan_la scan_s
    init_weight init_bias (n : Network) :
  wfNetwork n ->
  stdio_faithful_on fmt_d scan_d fmt_la scan_la scan_s n ->
  exists content n',
    saveNetwork fmt_d fmt_la n = Ok content /\
    readNetwork scan_d scan_la scan_s init_weight init_bias content = Ok n' /\
    numLayers n' = numLayers n /\
    numConnections n' = numConnections n /\
    (forall i l, array_get (layers n) i = Ok l ->
       exists l', array_get (layers n') i = Ok l' /\
         l_type l' = l_type l /\ l_size l' = l_size l) /\
    (forall k c, array_get (connections n) k = Ok c ->
       exists c', array_get (connections n') k = Ok c' /\
         c_from c' = c_from c /\ c_to c' = c_to c /\
         m_rows (c_weights c') = m_rows (c_weights c) /\
         m_cols (c_weights c') = m_cols (c_weights c) /\
         m_rows (c_bias c') = m_rows (c_bias c) /\
         m_cols (c_bias c') = m_cols (c_bias c)).
Proof.
  intros W F.
  destruct (read_saved fmt_d scan_d fmt_la scan_la scan_s init_weight init_bias n W F)
    as (n' & E & HL & HC & Hls & Hwl & Hwired).
  pose proof (wf_layers_len n W) as Hll. pose proof (wf_numLayers n W) as H2.
  pose proof (wf_numConnections n W) as Hnc. pose proof (wf_conns_len n W) as Hcl.
  set (B := read_built init_weight init_bias (map l_size (layers n))
              (saved_tokens fmt_la n)) in *.
  assert (Hlayer : forall i l, array_get (layers n) i = Ok l ->
            exists l', array_get (layers B) i = Ok l' /\
              l_type l' = l_type l /\ l_size l' = l_size l).
  { intros i l Hl. pose proof (array_get_length _ _ _ Hl) as Hi.
    destruct (read_built_layer init_weight init_bias (map l_size (layers n))
                (saved_tokens fmt_la n) i) as (l' & El' & Ht & Hs);
      [rewrite length_map; lia|rewrite length_map; lia|].
    exists l'. split; [exact El'|]. rewrite length_map, Hll in Ht.
    destruct (wf_roles n W i l Hl) as (Hrole & _). split; [congruence|].
    rewrite Hs, (nth_indep _ 0 (l_size l)) by (rewrite length_map; lia).
    rewrite map_nth. apply array_get_Ok in Hl as [_ Hl].
    rewrite (nth_lookup_Some _ _ _ _ Hl). reflexivity. }
  assert (WB : wfNetwork B).
  { unfold B, read_built. cbv zeta. rewrite length_map.
    assert (Hin : forall v, In v (map l_size (layers n)) -> 0 < v).
    { intros v Hv. apply in_map_iff in Hv as (l & <- & Hl).
      pose proof (wf_layers n W) as Hwf. rewrite Forall_forall in Hwf.
      apply (Hwf l), list_elem_of_In, Hl. }
    apply built_wf; try lia.
    - apply Hin, nth_In. rewrite length_map. lia.
    - apply Hin, nth_In. rewrite length_map. lia.
    - rewrite length_take, length_drop, length_map. lia.
    - apply Forall_forall. intros v Hv. apply Hin, list_elem_of_In.
      apply (subseteq_drop 1 (map l_size (layers n))),
            (subseteq_take (Z.to_nat (Z.of_nat (length (layers n)) - 2))
               (drop 1 (map l_size (layers n)))).
      exact Hv. }
  exists (saved fmt_d fmt_la n), n'. split; [apply saveNetwork_saved, W|].
  split; [exact E|]. split; [exact HL|]. split; [exact HC|]. split.
  - intros i l Hl. rewrite Hls. exact (Hlayer i l Hl).
  - intros k c Hc. pose proof (array_get_length _ _ _ Hc) as Hk.
    assert (HBlen : Z.of_nat (length (connections B)) = numConnections n).
    { rewrite (wf_conns_len B WB), (wf_numConnections B WB).
      unfold B, read_built, built. simpl. rewrite length_map. lia. }
    destruct (array_get_in_range (connections n') k) as (c' & Ec'); [lia|].
    destruct (array_get_in_range (connections B) k) as (c0 & Ec0); [lia|].
    destruct (Hwired k c0 c' Ec0 Ec')
      as (Hf & Ht & (Hwr & Hwc & _) & (Hbr & Hbc & _)).
    destruct (wf_links B WB k c0 Ec0)
      as (lf0 & lt0 & Elf0 & Elt0 & Hf0 & Ht0 & _ & Hwr0 & Hwc0 & _ & Hbr0 & Hbc0).
    destruct (wf_links n W k c Hc)
      as (lf & lt & Elf & Elt & Hf1 & Ht1 & _ & Hwr1 & Hwc1 & _ & Hbr1 & Hbc1).
    destruct (Hlayer k lf Elf) as (x & Ex & _ & Hsx).
    destruct (Hlayer (k + 1) lt Elt) as (y & Ey & _ & Hsy).
    assert (x = lf0) by congruence. assert (y = lt0) by congruence. subst x y.
    exists c'. split; [exact Ec'|]. repeat split; congruence.
Qed.

(** ** A fresh network through a file *)

Lemma built_layers_fresh init_weight init_bias numFeatures numHiddenLayers hiddenSizes
    hiddenActivations numClasses outputActivation (i : Z) (l : Layer) :
  array_get (layers (built init_weight init_bias numFeatures numHiddenLayers
                       hiddenSizes hiddenActivations numClasses outputActivation)) i
  = Ok l ->
  l_input l = createMatrixZeroes 1 (l_size l).
Proof.
  unfold built. simpl layers. intros H.
  apply array_get_map_seqZ_inv in H as [_ ->]. unfold layer_at.
  destruct (i =? 0); [reflexivity|].
  destruct (i =? 2 + numHiddenLayers - 1); reflexivity.
Qed.

(** X14: a network fresh from [createNetwork], with a softmax output
    and hidden activations among sigmoid, relu and tanH, comes back from
    [saveNetwork] and [readNetwork] as the very same network, whatever
    initialization policy the reader runs with: every value the reader's
    [createNetwork] draws is overwritten from the file. *)
Theorem fresh_network_round_trip fmt_d scan_d fmt_la scan_la scan_s
    init_weight init_bias init_weight' init_bias'
    numFeatures numHiddenLayers hiddenSizes hiddenActivations numClasses :
  0 < numFeatures -> 0 <= numHiddenLayers -> 0 < numClasses ->
  Z.of_nat (length hiddenSizes) = numHiddenLayers ->
  Forall (fun sz => 0 < sz) hiddenSizes ->
  Z.of_nat (length hiddenActivations) = numHiddenLayers ->
  Forall (fun a => a = sigmoid \/ a = relu \/ a = tanH) hiddenActivations ->
  (forall n,
     createNetwork init_weight init_bias numFeatures numHiddenLayers hiddenSizes
       hiddenActivations numClasses softmax = Ok n ->
     stdio_faithful_on fmt_d scan_d fmt_la scan_la scan_s n) ->
  exists n content,
    createNetwork init_weight init_bias numFeatures numHiddenLayers hiddenSizes
      hiddenActivations numClasses softmax = Ok n /\
    saveNetwork fmt_d fmt_la n = Ok content /\
    readNetwork scan_d scan_la scan_s init_weight' init_bias' content = Ok n.
Proof.
  intros Hf Hh Hc Hlen Hpos Hlen' Hacts Hstdio.
  set (N := built init_weight init_bias numFeatures numHiddenLayers hiddenSizes
              hiddenActivations numClasses softmax).
  assert (EN : createNetwork init_weight init_bias numFeatures numHiddenLayers
                 hiddenSizes hiddenActivations numClasses softmax = Ok N).
  { apply createNetwork_built; auto.
    intros k Hk. rewrite Forall_forall in Hpos. apply Hpos.
    apply list_elem_of_In, nth_In. lia. }
  assert (W : wfNetwork N) by (apply built_wf; assumption).
  pose proof (Hstdio N EN) as F.
  assert (Hout : output_activation N = Some softmax).
  { unfold output_activation, N, built. simpl.
    rewrite array_get_map_seqZ by lia. unfold layer_at.
    destruct (Z.eqb_spec (2 + numHiddenLayers - 1) 0); [lia|].
    rewrite Z.eqb_refl. reflexivity. }
  assert (Hhidden : Forall (fun l => l_activation l = Some sigmoid \/
                                     l_activation l = Some relu \/
                                     l_activation l = Some tanH) (hidden_layers N)).
  { apply Forall_forall. intros l Hl. apply list_elem_of_lookup in Hl as (k & Hk).
    apply array_get_lookup, array_get_hidden_layers in Hk as [Hk Hr].
    unfold N, built in Hk, Hr. simpl in Hk, Hr.
    apply array_get_map_seqZ_inv in Hk as [_ ->]. unfold layer_at.
    destruct (Z.eqb_spec (1 + Z.of_nat k) 0); [lia|].
    destruct (Z.eqb_spec (1 + Z.of_nat k) (2 + numHiddenLayers - 1)); [lia|]. simpl.
    rewrite Forall_forall in Hacts.
    destruct (Hacts (nth (Z.to_nat (1 + Z.of_nat k - 1)) hiddenActivations linear))
      as [-> | [-> | ->]]; auto.
    apply list_elem_of_In, nth_In. lia. }
  pose proof (save_read_parameters fmt_d scan_d fmt_la scan_la scan_s
                init_weight' init_bias' N [] W F Hout) as E.
  rewrite app_nil_r in E.
  pose proof (save_read_exact fmt_la init_weight' init_bias' N W Hout Hhidden) as Hls.
  exists N, (saved fmt_d fmt_la N). split; [exact EN|].
  split; [apply saveNetwork_saved, W|]. rewrite E.
  set (B := read_built init_weight' init_bias' (map l_size (layers N))
              (saved_tokens fmt_la N)) in *.
  assert (Hlayers : layers B = layers N).
  { apply list_eq. intros k.
    destruct (layers N !! k) as [l|] eqn:El.
    - destruct (Hls _ l (array_get_lookup _ _ _ El)) as (l' & El' & (Ht & Hs & Ha)).
      assert (Hfresh' : l_input l' = createMatrixZeroes 1 (l_size l')).
      { exact (built_layers_fresh _ _ _ _ _ _ _ _ _ _ El'). }
      assert (Hfresh : l_input l = createMatrixZeroes 1 (l_size l)).
      { exact (built_layers_fresh _ _ _ _ _ _ _ _ _ _ (array_get_lookup _ _ _ El)). }
      apply array_get_Ok in El' as [_ El']. rewrite Nat2Z.id in El'. rewrite El'.
      f_equal. rewrite <- (Layer_eta l'), <- (Layer_eta l).
      rewrite Ht, Hs, Ha, Hfresh', Hfresh, Hs. reflexivity.
    - apply lookup_ge_None in El. apply lookup_ge_None.
      destruct (read_built_of_saved fmt_la init_weight' init_bias' N W)
        as (WB & HBL & _ & _). fold B in WB, HBL.
      pose proof (wf_layers_len N W). pose proof (wf_layers_len B WB). lia. }
  rewrite Hlayers. reflexivity.
Qed.

(** ** Saving what was read *)

Lemma hidden_name_normal (l l' : Layer) :
  l_activation l' = Some (activation_of_name (hidden_name l)) ->
  hidden_name l' = hidden_name l.
Proof.
  intros H. rewrite activation_of_hidden_name in H.
  unfold hidden_name, activation_is in *. rewrite H.
  destruct (l_activation l) as [[| | | |]|]; reflexivity.
Qed.

Lemma map_pointwise {A B : Type} (f : A -> B) (l l' : list A) :
  length l = length l' ->
  (forall k x y, l !! k = Some x -> l' !! k = Some y -> f x = f y) ->
  map f l = map f l'.
Proof.
  intros Hlen H. apply list_eq. intros k.
  change (map f l) with (f <$> l). change (map f l') with (f <$> l').
  rewrite !list_lookup_fmap.
  destruct (l !! k) as [x|] eqn:Ex, (l' !! k) as [y|] eqn:Ey; simpl.
  - f_equal. exact (H k x y Ex Ey).
  - apply lookup_lt_Some in Ex. apply lookup_ge_None in Ey. lia.
  - apply lookup_ge_None in Ex. apply lookup_lt_Some in Ey. lia.
  - reflexivity.
Qed.

(** The text of a saved file depends on the layers through their sizes,
    the names of the hidden activations and the output activation. *)
Lemma saved_ext fmt_d fmt_la (n n' : Network) :
  numLayers n' = numLayers n ->
  connections n' = connections n ->
  map l_size (layers n') = map l_size (layers n) ->
  map hidden_name (hidden_layers n') = map hidden_name (hidden_layers n) ->
  output_activation n' = output_activation n ->
  saved fmt_d fmt_la n' = saved fmt_d fmt_la n.
Proof.
  intros HL HC Hs Hh Ho.
  unfold saved, saved_head, output_name, saved_parameters, weight_values, bias_values.
  rewrite <- !(map_map l_size fmt_d), HL, HC, Hs, Hh, Ho. reflexivity.
Qed.

Section SaveAgain.

Variable fmt_la : double -> string.
Variable init_weight : Z -> Z -> Z -> double.
Variable init_bias : Z -> Z -> double.

(** The network [readNetwork] returns for the file of a network with a
    softmax output satisfies the invariants of the data model. *)
Lemma read_back_wf (n : Network) :
  wfNetwork n ->
  wfNetwork (mkNetwork (numLayers n)
               (layers (read_built init_weight init_bias (map l_size (layers n))
                          (saved_tokens fmt_la n)))
               (numConnections n) (connections n)).
Proof.
  intros W.
  destruct (read_built_of_saved fmt_la init_weight init_bias n W)
    as (WB & HBL & HBC & Hlayers).
  set (B := read_built init_weight init_bias (map l_size (layers n))
              (saved_tokens fmt_la n)) in *.
  constructor; cbn [numLayers layers numConnections connections].
  - rewrite (wf_layers_len B WB). exact HBL.
  - apply (wf_numLayers n W).
  - apply (wf_conns_len n W).
  - apply (wf_numConnections n W).
  - apply (wf_layers B WB).
  - apply (wf_activations B WB).
  - intros i c Hc.
    destruct (wf_links n W i c Hc) as (lf & lt & Elf & Elt & R).
    destruct (Hlayers i lf Elf) as (lf' & Elf' & _ & Hsf & _).
    destruct (Hlayers (i + 1) lt Elt) as (lt' & Elt' & _ & Hst & _).
    exists lf', lt'. rewrite Hsf, Hst. split; [exact Elf'|]. split; [exact Elt'|].
    exact R.
  - intros i l Hl. rewrite <- HBL. apply (wf_roles B WB i l Hl).
Qed.

End SaveAgain.

(** X19: what the file loses it loses once.  For a network with a
    softmax output, whatever its hidden activations are, [readNetwork] on
    the file [saveNetwork] wrote returns a network with the same number
    of layers, of the same roles and sizes, and every weight and bias of
    the saved one bit for bit; a hidden layer comes back with sigmoid or
    relu if it had that activation and with tanH otherwise, and the
    output layer with softmax.  [saveNetwork] on the network read back
    writes the same file again. *)
Theorem saved_file_is_stable fmt_d scan_d fmt_la scan_la scan_s init_weight init_bias
    (n : Network) :
  wfNetwork n ->
  stdio_faithful_on fmt_d scan_d fmt_la scan_la scan_s n ->
  output_activation n = Some softmax ->
  exists content n',
    saveNetwork fmt_d fmt_la n = Ok content /\
    readNetwork scan_d scan_la scan_s init_weight init_bias content = Ok n' /\
    numLayers n' = numLayers n /\
    connections n' = connections n /\
    (forall i l, array_get (layers n) i = Ok l ->
       exists l', array_get (layers n') i = Ok l' /\
         l_type l' = l_type l /\ l_size l' = l_size l /\
         (i = 0 -> l_activation l' = None) /\
         (1 <= i < numLayers n - 1 ->
            l_activation l'
            = Some (if activation_is l sigmoid then sigmoid
                    else if activation_is l relu then relu else tanH)) /\
         (i = numLayers n - 1 -> l_activation l' = Some softmax)) /\
    saveNetwork fmt_d fmt_la n' = Ok content.
Proof.
  intros W F Hout.
  pose proof (save_read_parameters fmt_d scan_d fmt_la scan_la scan_s
                init_weight init_bias n [] W F Hout) as E.
  rewrite app_nil_r in E.
  pose proof (read_back_wf fmt_la init_weight init_bias n W) as W'.
  destruct (read_built_of_saved fmt_la init_weight init_bias n W)
    as (WB & HBL & HBC & Hlayers).
  set (B := read_built init_weight init_bias (map l_size (layers n))
              (saved_tokens fmt_la n)) in *.
  set (n' := mkNetwork (numLayers n) (layers B) (numConnections n) (connections n)) in *.
  pose proof (wf_layers_len n W) as Hll. pose proof (wf_layers_len B WB) as HlB.
  pose proof (wf_numLayers n W) as H2.
  assert (Hln' : layers n' = layers B) by reflexivity.
  assert (HLn' : numLayers n' = numLayers n) by reflexivity.
  exists (saved fmt_d fmt_la n), n'. split; [apply saveNetwork_saved, W|].
  split; [exact E|]. split; [reflexivity|]. split; [reflexivity|].
  split.
  { intros i l Hl. destruct (Hlayers i l Hl) as (l' & El' & Ht & Hs & Ha).
    exists l'. rewrite Hln'. split; [exact El'|]. split; [exact Ht|].
    split; [exact Hs|]. split; [|split].
    - intros ->. exact Ha.
    - intros Hi. destruct (Z.eqb_spec i 0) as [|_]; [lia|].
      rewrite (saved_token_hidden fmt_la n i l W Hi Hl) in Ha.
      rewrite Ha, activation_of_hidden_name. reflexivity.
    - intros ->. destruct (Z.eqb_spec (numLayers n - 1) 0) as [|_]; [lia|].
      replace (numLayers n - 1 - 1) with (numLayers n - 2) in Ha by lia.
      rewrite (saved_token_output fmt_la n W), (output_token_softmax fmt_la n Hout) in Ha.
      exact Ha. }
  rewrite (saveNetwork_saved fmt_d fmt_la n' W'). f_equal.
  apply saved_ext; try reflexivity.
  - rewrite Hln'. apply map_pointwise; [lia|].
    intros k x y Hx Hy.
    destruct (Hlayers _ y (array_get_lookup _ _ _ Hy)) as (l' & El' & _ & Hs & _).
    rewrite (array_get_lookup _ _ _ Hx) in El'.
    injection El' as <-. exact Hs.
  - apply map_pointwise.
    + pose proof (hidden_layers_length n W). pose proof (hidden_layers_length n' W').
      rewrite HLn' in *. lia.
    + intros k x y Hx Hy.
      apply array_get_lookup, array_get_hidden_layers in Hx as [Hx Hk].
      apply array_get_lookup, array_get_hidden_layers in Hy as [Hy _].
      rewrite Hln' in Hx. rewrite HLn' in Hk.
      destruct (Hlayers _ y Hy) as (l' & El' & _ & _ & Ha).
      rewrite Hx in El'. injection El' as <-.
      destruct (Z.eqb_spec (1 + Z.of_nat k) 0) as [|_]; [lia|].
      rewrite (saved_token_hidden fmt_la n (1 + Z.of_nat k) y W ltac:(lia) Hy) in Ha.
      apply hidden_name_normal, Ha.
  - rewrite Hout. unfold output_activation. rewrite Hln', HLn'.
    destruct (array_get_in_range (layers n) (numLayers n - 1)) as (lo & Elo); [lia|].
    destruct (Hlayers _ lo Elo) as (l' & El' & _ & _ & Ha).
    rewrite El', Ha.
    destruct (Z.eqb_spec (numLayers n - 1) 0) as [|_]; [lia|].
    replace (numLayers n - 1 - 1) with (numLayers n - 2) by lia.
    rewrite (saved_token_output fmt_la n W), (output_token_softmax fmt_la n Hout).
    reflexivity.
Qed.

(** ** The arrays [createNetwork] is given *)

Lemma collect_ext {A : Type} (step step' : Z -> result A) n lo :
  (forall i, lo <= i < lo + Z.of_nat n -> step i = step' i) ->
  collect n lo step = collect n lo step'.
Proof.
  revert lo. induction n as [|n IH]; intros lo H; [reflexivity|].
  cbn [collect]. rewrite (H lo) by lia. rewrite (IH (lo + 1)); [reflexivity|].
  intros i Hi. apply H. lia.
Qed.

Lemma array_get_app_l {A : Type} (a b : list A) (i : Z) :
  0 <= i < Z.of_nat (length a) -> array_get (a ++ b) i = array_get a i.
Proof.
  intros Hi. unfold array_get. rewrite lookup_app_l by lia. reflexivity.
Qed.

(** X15: [createNetwork] reads the first [numHiddenLayers] entries of
    [hiddenSizes] and of [hiddenActivations] and nothing behind them:
    whatever follows in the two arrays has no effect on the outcome. *)
Theorem createNetwork_reads_prefix init_weight init_bias numFeatures numHiddenLayers
    hiddenSizes hiddenActivations numClasses outputActivation
    (moreSizes : list Z) (moreActivations : list Activation) :
  Z.of_nat (length hiddenSizes) = numHiddenLayers ->
  Z.of_nat (length hiddenActivations) = numHiddenLayers ->
  createNetwork init_weight init_bias numFeatures numHiddenLayers
    (hiddenSizes ++ moreSizes) (hiddenActivations ++ moreActivations)
    numClasses outputActivation
  = createNetwork init_weight init_bias numFeatures numHiddenLayers
      hiddenSizes hiddenActivations numClasses outputActivation.
Proof.
  intros Hl1 Hl2. rewrite !createNetwork_unfold.
  destruct ((0 <? numFeatures) && (0 <=? numHiddenLayers) && (0 <? numClasses));
    [|reflexivity].
  rewrite (collect_ext
             (layer_step numFeatures numHiddenLayers (hiddenSizes ++ moreSizes)
                (hiddenActivations ++ moreActivations) numClasses outputActivation)
             (layer_step numFeatures numHiddenLayers hiddenSizes hiddenActivations
                numClasses outputActivation)); [reflexivity|].
  intros i Hi. unfold layer_step.
  destruct (Z.eqb_spec i 0); [reflexivity|].
  destruct (Z.eqb_spec i (2 + numHiddenLayers - 1)); [reflexivity|].
  rewrite !array_get_app_l by lia. reflexivity.
Qed.

(** ** The loss of a forward pass *)

(** X16: what a forward pass leaves in the OUTPUT layer fits the loss.
    After [forwardPass] on a batch, [crossEntropyLoss] on the OUTPUT
    layer's stored input and a target matrix with one row per batch row
    and one column per class passes both its assertions and returns the
    regularized loss of the network. *)
Theorem loss_after_forwardPass libm_exp libm_tanh libm_log (n : Network)
    (data classes : Matrix) (l0 lo : Layer) (s : double) :
  wfNetwork n -> wfMatrix data -> wfMatrix classes ->
  array_get (layers n) 0 = Ok l0 ->
  array_get (layers n) (numLayers n - 1) = Ok lo ->
  m_cols data = l_size l0 ->
  m_rows classes = m_rows data ->
  m_cols classes = l_size lo ->
  exists n' lo',
    forwardPass libm_exp libm_tanh n data = Ok n' /\
    array_get (layers n') (numLayers n' - 1) = Ok lo' /\
    crossEntropyLoss libm_log (Some n') (l_input lo') classes s
    = Ok (mean_log_loss libm_log DBL_MIN (l_input lo') classes
          + s * 0.5 * sum_of_squares n)%float.
Proof.
  intros W Hd Hc E0 Eo Hin Hrows Hcols.
  destruct (forwardPass_spec libm_exp libm_tanh n data l0 W Hd E0 Hin)
    as (ls & Efp & Hlen & Hinv).
  pose proof (forwardPass_wf libm_exp libm_tanh n _ data W Hd Efp) as W'.
  pose proof (wf_numLayers n W) as H2.
  destruct (array_get_in_range ls (numLayers n - 1)) as (lo' & Elo'); [lia|].
  destruct (Hinv _ _ Elo') as ((_ & Hwf' & Hc') & (lo0 & Elo0 & _ & Hs' & _) & Hr').
  assert (lo0 = lo) by congruence. subst lo0.
  eexists _, lo'. split; [exact Efp|]. split; [exact Elo'|].
  rewrite crossEntropyLoss_value.
  - reflexivity.
  - exact Hwf'.
  - exact Hc.
  - rewrite Hrows. apply Hr'. pose proof (wf_numConnections n W). lia.
  - congruence.
  - intros net [= <-]. exact W'.
Qed.

(** ** The output activation through a file *)

(** X17: an output activation other than softmax never survives a round
    trip.  For every such network [saveNetwork] writes no name for it,
    [readNetwork] takes the line of the first weight for the name, and,
    as [fprintf] prints no number as [sigmoid], [relu] or [tanH], the
    network read back has a softmax output. *)
Theorem output_activation_read_back_as_softmax fmt_d scan_d fmt_la scan_la scan_s
    init_weight init_bias (n : Network) (a : Activation) :
  wfNetwork n ->
  stdio_faithful_on fmt_d scan_d fmt_la scan_la scan_s n ->
  output_activation n = Some a -> a <> softmax ->
  Forall (fun x => fmt_la x <> "sigmoid"%string /\ fmt_la x <> "relu"%string /\
                   fmt_la x <> "tanH"%string) (weight_values n) ->
  exists content n',
    saveNetwork fmt_d fmt_la n = Ok content /\
    readNetwork scan_d scan_la scan_s init_weight init_bias content = Ok n' /\
    output_activation n' = Some softmax /\
    output_activation n' <> output_activation n.
Proof.
  intros W F Hout Ha Hnames.
  pose proof (wf_layers_len n W) as Hll. pose proof (wf_numLayers n W) as H2.
  pose proof (hidden_layers_length n W) as Hhl.
  destruct (read_saved fmt_d scan_d fmt_la scan_la scan_s init_weight init_bias n W F)
    as (n' & E & HL & _ & Hls & _).
  destruct (read_built_activation init_weight init_bias (map l_size (layers n))
              (saved_tokens fmt_la n) (numLayers n - 2)) as (l' & El' & _ & Hact).
  { rewrite length_map. lia. }
  { unfold saved_tokens. rewrite length_app, !length_map. simpl. lia. }
  { rewrite length_map. lia. }
  replace (numLayers n - 2 + 1) with (numLayers n - 1) in El' by lia.
  destruct (weight_values_nonempty n W) as (w & ws & Hw).
  assert (Htok : nth (Z.to_nat (numLayers n - 2)) (saved_tokens fmt_la n) EmptyString
                 = fmt_la w).
  { unfold saved_tokens. rewrite app_nth2 by (rewrite length_map; lia).
    rewrite length_map.
    replace (Z.to_nat (numLayers n - 2) - length (hidden_layers n))%nat
      with 0%nat by lia.
    simpl. unfold output_token, output_name, saved_parameters.
    rewrite Hout, Hw. destruct a; try reflexivity. contradiction Ha. reflexivity. }
  assert (Hsoft : output_activation n' = Some softmax).
  { unfold output_activation. rewrite HL, Hls, El', Hact, Htok. f_equal.
    rewrite Hw in Hnames. apply Forall_cons in Hnames as [(H1 & H2' & H3) _].
    apply activation_of_other_name; assumption. }
  exists (saved fmt_d fmt_la n), n'. split; [apply saveNetwork_saved, W|].
  split; [exact E|]. split; [exact Hsoft|].
  rewrite Hsoft, Hout. intros [= <-]. apply Ha. reflexivity.
Qed.

(** ** Integers as doubles *)

Lemma digits2_pos_bounds (p : positive) :
  2 ^ (Zpos (digits2_pos p) - 1) <= Zpos p < 2 ^ Zpos (digits2_pos p).
Proof.
  induction p as [p IH|p IH|]; simpl digits2_pos; [| |simpl; lia].
  - rewrite Pos2Z.inj_succ, (Pos2Z.inj_xI p).
    replace (Z.succ (Zpos (digits2_pos p)) - 1) with (Z.succ (Zpos (digits2_pos p) - 1)) by lia.
    rewrite !Z.pow_succ_r by lia. lia.
  - rewrite Pos2Z.inj_succ, (Pos2Z.inj_xO p).
    replace (Z.succ (Zpos (digits2_pos p)) - 1) with (Z.succ (Zpos (digits2_pos p) - 1)) by lia.
    rewrite !Z.pow_succ_r by lia. lia.
Qed.

Lemma digits2_pos_unique (p : positive) (d : Z) :
  2 ^ (d - 1) <= Zpos p < 2 ^ d -> Zpos (digits2_pos p) = d.
Proof.
  intros H. pose proof (digits2_pos_bounds p) as B.
  destruct (Z.lt_trichotomy (Zpos (digits2_pos p)) d) as [L|[E|G]]; [|exact E|].
  - assert (2 ^ Zpos (digits2_pos p) <= 2 ^ (d - 1)) by (apply Z.pow_le_mono_r; lia). lia.
  - assert (0 <= d \/ d < 0) as [Hd|Hd] by lia.
    + assert (2 ^ d <= 2 ^ (Zpos (digits2_pos p) - 1)) by (apply Z.pow_le_mono_r; lia). lia.
    + rewrite (Z.pow_neg_r 2 d) in H by lia. lia.
Qed.

Lemma Zpos_iter_xO (p n : positive) : Zpos (Pos.iter xO p n) = Zpos p * 2 ^ Zpos n.
Proof.
  change (Pos.iter xO p n) with (shift_pos n p).
  rewrite shift_pos_correct. change (2 ^ Zpos n) with (Z.pow_pos 2 n).
  apply Z.mul_comm.
Qed.

Lemma Zpos_shiftl (p : positive) (n : N) : Zpos (Pos.shiftl p n) = Zpos p * 2 ^ Z.of_N n.
Proof.
  destruct n as [|n]; [|apply Zpos_iter_xO].
  change (Pos.shiftl p 0) with p. change (2 ^ Z.of_N 0) with 1. lia.
Qed.

(** Scaling a mantissa by a power of two moves its digit count. *)
Lemma digits2_pos_scaled (m q : positive) (a b : Z) :
  0 <= a -> 0 <= b -> Zpos m * 2 ^ a = Zpos q * 2 ^ b ->
  Zpos (digits2_pos m) + a = Zpos (digits2_pos q) + b.
Proof.
  intros Ha Hb H.
  pose proof (digits2_pos_bounds m) as Bm. pose proof (digits2_pos_bounds q) as Bq.
  set (dm := Zpos (digits2_pos m)) in *. set (dq := Zpos (digits2_pos q)) in *.
  assert (Hdm : 1 <= dm) by (unfold dm; lia). assert (Hdq : 1 <= dq) by (unfold dq; lia).
  assert (Pa : 0 < 2 ^ a) by (apply Z.pow_pos_nonneg; lia).
  assert (Pb : 0 < 2 ^ b) by (apply Z.pow_pos_nonneg; lia).
  assert (L1 : 2 ^ (dm - 1 + a) <= Zpos m * 2 ^ a) by (rewrite Z.pow_add_r by lia; nia).
  assert (U1 : Zpos m * 2 ^ a < 2 ^ (dm + a)) by (rewrite Z.pow_add_r by lia; nia).
  assert (L2 : 2 ^ (dq - 1 + b) <= Zpos q * 2 ^ b) by (rewrite Z.pow_add_r by lia; nia).
  assert (U2 : Zpos q * 2 ^ b < 2 ^ (dq + b)) by (rewrite Z.pow_add_r by lia; nia).
  destruct (Z.lt_trichotomy (dm + a) (dq + b)) as [L|[E|G]]; [|exact E|].
  - assert (2 ^ (dm + a) <= 2 ^ (dq - 1 + b)) by (apply Z.pow_le_mono_r; lia). lia.
  - assert (2 ^ (dq + b) <= 2 ^ (dm - 1 + a)) by (apply Z.pow_le_mono_r; lia). lia.
Qed.

(** A mantissa of 53 bits with an exponent in range is left as it is. *)
Lemma binary_round_aux_fixed (m : positive) (e : Z) :
  Zpos (digits2_pos m) = 53 -> -1074 <= e <= 971 ->
  binary_round_aux 53 1024 false (Zpos m) e loc_Exact = S754_finite false m e.
Proof.
  intros Hd He. unfold binary_round_aux, shr_fexp, fexp, emin.
  cbn [Zdigits2 shr_record_of_loc]. rewrite Hd.
  replace (Z.max (53 + e - 53) (3 - 1024 - 53) - e) with 0 by lia.
  cbn [shr shr_m loc_of_shr_record round_nearest_even Zdigits2 shr_record_of_loc].
  rewrite Hd.
  replace (Z.max (53 + e - 53) (3 - 1024 - 53) - e) with 0 by lia.
  cbn [shr shr_m].
  replace (e <=? 1024 - 53) with true by (symmetry; apply Z.leb_le; lia).
  reflexivity.
Qed.

Lemma iter_pos_shr_1 (j p : positive) :
  SpecFloat.iter_pos shr_1 j (Build_shr_record (Zpos (Pos.iter xO p j)) false false)
  = Build_shr_record (Zpos p) false false.
Proof.
  revert p. induction j as [j IH|j IH|]; intros p; simpl.
  - rewrite !IH. reflexivity.
  - rewrite !IH. reflexivity.
  - reflexivity.
Qed.

(** Trailing zero bits beyond 53 are shifted out exactly. *)
Lemma binary_round_aux_shifted (q j : positive) (e : Z) :
  Zpos (digits2_pos q) = 53 -> -1074 <= e + Zpos j <= 971 ->
  binary_round_aux 53 1024 false (Zpos (Pos.iter xO q j)) e loc_Exact
  = S754_finite false q (e + Zpos j).
Proof.
  intros Hd He.
  assert (Hdj : Zpos (digits2_pos (Pos.iter xO q j)) = 53 + Zpos j).
  { pose proof (digits2_pos_scaled (Pos.iter xO q j) q 0 (Zpos j)) as H.
    rewrite Zpos_iter_xO in H. rewrite Hd in H. lia. }
  unfold binary_round_aux, shr_fexp, fexp, emin.
  cbn [Zdigits2 shr_record_of_loc]. rewrite Hdj.
  replace (Z.max (53 + Zpos j + e - 53) (3 - 1024 - 53) - e) with (Zpos j) by lia.
  cbn [shr]. rewrite iter_pos_shr_1.
  cbn [shr_m loc_of_shr_record round_nearest_even Zdigits2 shr_record_of_loc].
  rewrite Hd.
  replace (Z.max (53 + (e + Zpos j) - 53) (3 - 1024 - 53) - (e + Zpos j)) with 0 by lia.
  cbn [shr shr_m].
  replace (e + Zpos j <=? 1024 - 53) with true by (symmetry; apply Z.leb_le; lia).
  reflexivity.
Qed.

(** Rounding is exact on a value that a mantissa of 53 bits holds:
    [m * 2^e = q * 2^t] with [q] of 53 bits and [t] in range. *)
Lemma binary_round_exact (m q : positive) (e t : Z) :
  Zpos (digits2_pos q) = 53 -> -1074 <= t <= 971 ->
  Zpos m * 2 ^ (e - Z.min e t) = Zpos q * 2 ^ (t - Z.min e t) ->
  binary_round 53 1024 false m e = S754_finite false q t.
Proof.
  intros Hd Ht H.
  pose proof (digits2_pos_scaled m q (e - Z.min e t) (t - Z.min e t)
                ltac:(lia) ltac:(lia) H) as Hdm.
  unfold binary_round, fexp, emin.
  replace (Z.max (Zpos (digits2_pos m) + e - 53) (3 - 1024 - 53)) with t by lia.
  unfold shl_align. destruct (t - e) as [|j|j] eqn:E.
  - assert (t = e) by lia. subst t. rewrite Z.min_id, Z.sub_diag in H.
    assert (m = q) by lia. subst m. apply binary_round_aux_fixed; assumption.
  - replace (Z.min e t) with e in H by lia. rewrite Z.sub_diag in H.
    replace (t - e) with (Zpos j) in H by lia.
    assert (m = Pos.iter xO q j) as ->.
    { apply Pos2Z.inj. rewrite Zpos_iter_xO. lia. }
    replace t with (e + Zpos j) by lia.
    apply binary_round_aux_shifted; [exact Hd|lia].
  - replace (Z.min e t) with t in H by lia. rewrite Z.sub_diag in H.
    replace (e - t) with (Zpos j) in H by lia.
    assert (Pos.iter xO m j = q) as ->.
    { apply Pos2Z.inj. rewrite Zpos_iter_xO. lia. }
    apply binary_round_aux_fixed; assumption.
Qed.

Lemma int_repr_digits (p : positive) :
  Zpos p < 2 ^ 53 ->
  Zpos (digits2_pos (Pos.shiftl p (Z.to_N (53 - Zpos (digits2_pos p))))) = 53 /\
  1 <= Zpos (digits2_pos p) <= 53.
Proof.
  intros Hp. pose proof (digits2_pos_bounds p) as B.
  assert (Hd : 1 <= Zpos (digits2_pos p) <= 53).
  { split; [lia|]. destruct (Z.le_gt_cases (Zpos (digits2_pos p)) 53) as [L|G]; [exact L|].
    assert (2 ^ 53 <= 2 ^ (Zpos (digits2_pos p) - 1)) by (apply Z.pow_le_mono_r; lia). lia. }
  split; [|exact Hd].
  pose proof (digits2_pos_scaled
                (Pos.shiftl p (Z.to_N (53 - Zpos (digits2_pos p)))) p
                0 (53 - Zpos (digits2_pos p)) ltac:(lia) ltac:(lia)) as H.
  rewrite Zpos_shiftl, Z2N.id in H by lia. lia.
Qed.

(** [(double) n] for a positive [n] below 2^53. *)
Lemma double_of_int_repr (p : positive) :
  Zpos p < 2 ^ 53 -> Prim2SF (double_of_int (Zpos p)) = int_repr p.
Proof.
  intros Hp. unfold double_of_int. change (Zpos p <? 0) with false. cbv iota.
  rewrite of_uint63_spec.
  assert (E : Uint63Axioms.to_Z (Uint63.of_Z (Zpos p)) = Zpos p).
  { rewrite Uint63.of_Z_spec. apply Z.mod_small. change Uint63.wB with (2 ^ 63).
    assert (2 ^ 53 < 2 ^ 63) by reflexivity. lia. }
  rewrite E. cbn [binary_normalize]. unfold int_repr.
  destruct (int_repr_digits p Hp) as (Hq & Hd).
  apply binary_round_exact; [exact Hq|lia|].
  rewrite Zpos_shiftl, Z2N.id by lia.
  replace (Z.min 0 (Zpos (digits2_pos p) - 53)) with (Zpos (digits2_pos p) - 53) by lia.
  rewrite Z.sub_diag, Z.pow_0_r, Z.mul_1_r. f_equal. f_equal. lia.
Qed.

Lemma shl_align_value (m : positive) (e e' : Z) :
  e' <= e -> Zpos (fst (shl_align m e e')) = Zpos m * 2 ^ (e - e').
Proof.
  intros H. unfold shl_align. destruct (e' - e) as [|j|j] eqn:E; cbn [fst].
  - replace (e - e') with 0 by lia. lia.
  - lia.
  - rewrite Zpos_iter_xO. f_equal. f_equal. lia.
Qed.

(** Counting in doubles is exact below 2^53. *)
Lemma int_repr_succ (p : positive) :
  Zpos p + 1 < 2 ^ 53 ->
  SF64add (int_repr p) (Prim2SF 1) = int_repr (p + 1).
Proof.
  intros Hp.
  destruct (int_repr_digits p ltac:(lia)) as (Hq & Hd).
  destruct (int_repr_digits (p + 1) ltac:(lia)) as (Hq' & Hd').
  change (Prim2SF 1) with (S754_finite false 4503599627370496 (-52)).
  unfold SF64add, int_repr, SFadd. cbn [cond_Zopp].
  replace (Z.min (Zpos (digits2_pos p) - 53) (-52)) with (-52) by lia.
  cbn [binary_normalize Z.add].
  apply binary_round_exact; [exact Hq'|lia|].
  replace (Z.min (-52) (Zpos (digits2_pos (p + 1)) - 53)) with (-52) by lia.
  rewrite Z.sub_diag, Z.pow_0_r, Z.mul_1_r, Pos2Z.inj_add.
  rewrite !shl_align_value by lia.
  rewrite !Zpos_shiftl, !Z2N.id by lia.
  rewrite Z.sub_diag, Z.pow_0_r, Z.mul_1_r, <- !Z.mul_assoc, <- !Z.pow_add_r by lia.
  replace (53 - Zpos (digits2_pos p) + (Zpos (digits2_pos p) - 53 - -52)) with 52 by lia.
  replace (53 - Zpos (digits2_pos (p + 1)) + (Zpos (digits2_pos (p + 1)) - 53 - -52))
    with 52 by lia.
  rewrite Pos2Z.inj_add. change (2 ^ 52) with 4503599627370496. lia.
Qed.

Lemma double_of_int_succ (k : Z) :
  0 <= k -> k + 1 < 2 ^ 53 ->
  (double_of_int k + 1)%float = double_of_int (k + 1).
Proof.
  intros H0 H1. apply Prim2SF_inj. rewrite add_spec.
  destruct k as [|p|p]; [reflexivity| |lia].
  rewrite double_of_int_repr by lia.
  replace (Zpos p + 1) with (Zpos (p + 1)) by lia.
  rewrite double_of_int_repr by lia.
  apply int_repr_succ. lia.
Qed.

(** A finite double divided by itself is 1. *)
Lemma SFdiv_same (s : bool) (m : positive) (e : Z) :
  SF64div (S754_finite s m e) (S754_finite s m e) = Prim2SF 1.
Proof.
  unfold SF64div, SFdiv, SFdiv_core_binary, fexp, emin.
  replace (Z.min (Z.max (Zdigits2 (Zpos m) + e - (Zdigits2 (Zpos m) + e) - prec)
                    (3 - emax - prec)) (e - e))
    with (-53) by (unfold prec, emax; lia).
  replace (e - e - -53) with 53 by lia. cbv iota.
  rewrite Z.shiftl_mul_pow2 by lia.
  destruct (Z.div_eucl (Zpos m * 2 ^ 53) (Zpos m)) as (q, r) eqn:E.
  assert (Hq : q = Zpos m * 2 ^ 53 / Zpos m) by (unfold Z.div; rewrite E; reflexivity).
  assert (Hr : r = (Zpos m * 2 ^ 53) mod Zpos m) by (unfold Z.modulo; rewrite E; reflexivity).
  rewrite Z.mul_comm, Z.div_mul in Hq by lia.
  rewrite Z.mul_comm, Z.mod_mul in Hr by lia. subst q r.
  assert (L : new_location (Zpos m) 0 = loc_Exact).
  { unfold new_location, new_location_even, new_location_odd.
    destruct (Z.even (Zpos m)); reflexivity. }
  rewrite L. destruct s; reflexivity.
Qed.

Lemma double_div_same (k : Z) :
  0 < k < 2 ^ 53 -> (double_of_int k / double_of_int k)%float = 1%float.
Proof.
  intros H. apply Prim2SF_inj. rewrite div_spec.
  destruct k as [|p|p]; [lia| |lia].
  rewrite double_of_int_repr by lia. apply SFdiv_same.
Qed.

Lemma double_div_zero (k : Z) :
  0 < k < 2 ^ 53 -> (0 / double_of_int k)%float = 0%float.
Proof.
  intros H. apply Prim2SF_inj. rewrite div_spec.
  destruct k as [|p|p]; [lia| |lia].
  rewrite double_of_int_repr by lia. reflexivity.
Qed.

(** ** Targets that are not one-hot *)

(** The counting loop of [accuracy]: below 2^53 rows the double
    [numCorrect] holds the number of hits exactly. *)
Lemma accuracy_count (classes : Matrix) (ps : list Z) (size : Z) :
  wfMatrix classes ->
  m_rows classes < 2 ^ 53 ->
  Z.of_nat (length ps) = m_rows classes ->
  size <= m_cols classes ->
  (forall i p, array_get ps i = Ok p -> 0 <= p < size) ->
  for_range 0 (m_rows classes) (fun i numCorrect =>
      p ← array_get ps i;
      c ← mget classes i p;
      Ok (if deq c 1%float then (numCorrect + 1)%float else numCorrect)) 0%float
  = Ok (double_of_int (hits classes ps (Z.to_nat (m_rows classes)))).
Proof.
  intros (Hr & Hc & Hlen & Hrows) Hmax Hps Hsize Hrange.
  destruct (for_range_inv
    (fun i numCorrect => numCorrect = double_of_int (hits classes ps (Z.to_nat i)))
    (fun i numCorrect =>
       p ← array_get ps i;
       c ← mget classes i p;
       Ok (if deq c 1%float then (numCorrect + 1)%float else numCorrect))
    0 (m_rows classes) 0%float) as (c & E & Hc').
  - lia.
  - reflexivity.
  - intros i numCorrect Hi ->.
    rewrite (array_get_nth ps i 0) by lia. rewrite bind_Ok.
    pose proof (Hrange i _ (array_get_nth ps i 0 ltac:(lia))) as Hp.
    unfold mget. rewrite (array_get_nth (m_data classes) i []) by lia.
    rewrite bind_Ok.
    assert (Hrow : Z.of_nat (length (nth (Z.to_nat i) (m_data classes) []))
                   = m_cols classes).
    { rewrite Forall_forall in Hrows. apply Hrows.
      apply list_elem_of_In, nth_In. lia. }
    rewrite array_get_entry by lia. rewrite bind_Ok.
    eexists. split; [reflexivity|].
    replace (Z.to_nat (i + 1)) with (S (Z.to_nat i)) by lia.
    pose proof (hits_bounds classes ps (Z.to_nat i)) as Hb.
    simpl hits. unfold hit. destruct (deq _ _).
    + apply double_of_int_succ; lia.
    + rewrite Z.add_0_r. reflexivity.
  - rewrite E, Hc'. reflexivity.
Qed.

(** The value of [accuracy] where it returns one. *)
Lemma accuracy_value libm_exp libm_tanh (n : Network) (data classes : Matrix)
    (l0 lo : Layer) :
  wfNetwork n -> wfMatrix data -> wfMatrix classes ->
  array_get (layers n) 0 = Ok l0 ->
  array_get (layers n) (numLayers n - 1) = Ok lo ->
  m_rows data = m_rows classes ->
  m_cols data = l_size lo ->
  m_cols data = l_size l0 ->
  l_size lo <= m_cols classes ->
  m_rows classes < 2 ^ 53 ->
  exists n' ps,
    accuracy libm_exp libm_tanh n data classes
    = Ok (n', (double_of_int (hits classes ps (Z.to_nat (m_rows classes)))
               / double_of_int (m_rows classes))%float) /\
    Z.of_nat (length ps) = m_rows classes /\
    Forall (fun p => 0 <= p < l_size lo) ps.
Proof.
  intros W Hd Hc E0 Eo Hrows Hout Hin Hcls Hmax.
  destruct (forwardPass_spec libm_exp libm_tanh n data l0 W Hd E0 Hin)
    as (ls & Efp & Hlen & Hinv).
  pose proof (wf_numLayers n W) as H2. pose proof (wf_numConnections n W) as Hnc.
  destruct (array_get_in_range ls (numLayers n - 1)) as (lo' & Elo'); [lia|].
  destruct (Hinv _ _ Elo') as (Hwf' & (lo0 & Elo0 & _ & Hs' & _) & Hr').
  assert (lo0 = lo) by congruence. subst lo0.
  destruct (predict_in_range
              (mkNetwork (numLayers n) ls (numConnections n) (connections n))
              lo' Elo' Hwf') as (ps & Eps & Hpl & Hps).
  assert (Hrd : m_rows (l_input lo') = m_rows data) by (apply Hr'; lia).
  rewrite Hs' in Hps.
  eexists _, ps. split; [|split; [congruence|exact Hps]].
  unfold accuracy.
  rewrite (proj2 (Z.eqb_eq _ _) Hrows). simpl negb. cbv iota.
  rewrite Eo, bind_Ok. rewrite (proj2 (Z.eqb_eq _ _) Hout). simpl negb. cbv iota.
  rewrite Efp, bind_Ok, Eps, bind_Ok.
  rewrite Hrows, (accuracy_count classes ps (l_size lo)), bind_Ok;
    [reflexivity|exact Hc|exact Hmax|congruence|exact Hcls|].
  intros i p Hp. rewrite Forall_forall in Hps. apply Hps.
  apply array_get_Ok in Hp as [_ Hp]. eapply list_elem_of_lookup_2; exact Hp.
Qed.

(** The hits among the first [k] rows when every row counts, and when
    none does. *)
Lemma hits_all (classes : Matrix) (ps : list Z) (k : nat) :
  (forall i, (i < k)%nat -> hit classes ps i = true) ->
  hits classes ps k = Z.of_nat k.
Proof.
  induction k as [|k IH]; intros H; simpl hits; [reflexivity|].
  rewrite IH, (H k) by (intros; try apply H; lia). lia.
Qed.

Lemma hits_none (classes : Matrix) (ps : list Z) (k : nat) :
  (forall i, (i < k)%nat -> hit classes ps i = false) ->
  hits classes ps k = 0.
Proof.
  induction k as [|k IH]; intros H; simpl hits; [reflexivity|].
  rewrite IH, (H k) by (intros; try apply H; lia). lia.
Qed.

(** The entry [accuracy] looks at in row [i] is an entry of the class
    matrix. *)
Lemma hit_entry (P : double -> Prop) (classes : Matrix) (ps : list Z) (size : Z)
    (i : nat) :
  wfMatrix classes ->
  Z.of_nat (length ps) = m_rows classes ->
  size <= m_cols classes ->
  Forall (fun p => 0 <= p < size) ps ->
  Forall (Forall P) (m_data classes) ->
  (Z.of_nat i < m_rows classes) ->
  P (entry (nth i (m_data classes) []) (nth i ps 0)).
Proof.
  intros (_ & _ & Hlen & Hrows) Hps Hsize Hrange Hall Hi.
  assert (Hrow : In (nth i (m_data classes) []) (m_data classes)) by (apply nth_In; lia).
  assert (Hp : In (nth i ps 0) ps) by (apply nth_In; lia).
  rewrite Forall_forall in Hrows. rewrite Forall_forall in Hrange.
  rewrite Forall_forall in Hall.
  pose proof (Hrows _ (proj2 (list_elem_of_In _ _) Hrow)) as Hl.
  pose proof (Hrange _ (proj2 (list_elem_of_In _ _) Hp)) as Hr.
  pose proof (Hall _ (proj2 (list_elem_of_In _ _) Hrow)) as HP.
  rewrite Forall_forall in HP. apply HP, list_elem_of_In.
  unfold entry. apply nth_In. lia.
Qed.

(** X18: [accuracy] does not check that [classes] is one-hot.  It
    compares one entry of each row with 1: on a class matrix whose
    every entry is 1 it returns the double 1.0, and on one without any 1
    it returns 0.0, whatever the network predicts.  The row count is
    below 2^53, as every 32-bit [int] is, so that the double [numCorrect]
    counts the rows exactly. *)
Theorem accuracy_unchecked_targets libm_exp libm_tanh (n : Network)
    (data classes : Matrix) (l0 lo : Layer) :
  wfNetwork n -> wfMatrix data -> wfMatrix classes ->
  array_get (layers n) 0 = Ok l0 ->
  array_get (layers n) (numLayers n - 1) = Ok lo ->
  m_rows data = m_rows classes ->
  m_cols data = l_size lo ->
  m_cols data = l_size l0 ->
  l_size lo <= m_cols classes ->
  m_rows classes < 2 ^ 53 ->
  (Forall (Forall (fun c => deq c 1%float = true)) (m_data classes) ->
   exists n', accuracy libm_exp libm_tanh n data classes = Ok (n', 1%float)) /\
  (Forall (Forall (fun c => deq c 1%float = false)) (m_data classes) ->
   exists n', accuracy libm_exp libm_tanh n data classes = Ok (n', 0%float)).
Proof.
  intros W Hd Hc E0 Eo Hrows Hout Hin Hcls Hmax.
  destruct (accuracy_value libm_exp libm_tanh n data classes l0 lo
              W Hd Hc E0 Eo Hrows Hout Hin Hcls Hmax) as (n' & ps & E & Hpl & Hps).
  pose proof Hc as (Hr & _).
  split; intros Hall.
  - rewrite hits_all in E.
    + rewrite Z2Nat.id, double_div_same in E by lia. exists n'. exact E.
    + intros i Hi. unfold hit.
      apply (hit_entry (fun c => deq c 1%float = true) classes ps (l_size lo));
        try assumption. lia.
  - rewrite hits_none in E.
    + change (double_of_int 0) with 0%float in E.
      rewrite double_div_zero in E by lia. exists n'. exact E.
    + intros i Hi. unfold hit.
      apply (hit_entry (fun c => deq c 1%float = false) classes ps (l_size lo));
        try assumption. lia.
Qed.

(** * Worked instances *)

Lemma small_network_wf : wfNetwork small_network.
Proof. apply built_wf; try lia; [reflexivity|repeat constructor]. Qed.

Lemma square_network_wf : wfNetwork square_network.
Proof. apply built_wf; try lia; [reflexivity|constructor]. Qed.

Lemma one_row_wf : wfMatrix one_row.
Proof. repeat split; simpl; try lia. repeat constructor. Qed.

Lemma three_rows_wf : wfMatrix three_rows.
Proof. repeat split; simpl; try lia. repeat constructor. Qed.

Lemma first_class_wf : wfMatrix first_class.
Proof. repeat split; simpl; try lia. repeat constructor. Qed.

Lemma half_half_wf : wfMatrix half_half.
Proof. repeat split; simpl; try lia. repeat constructor. Qed.

Lemma one_by_one_wf : wfMatrix one_by_one.
Proof. repeat split; simpl; try lia. repeat constructor. Qed.

Lemma ref_stdio_faithful_on_softmax_hidden :
  stdio_faithful_on ref_fmt_d ref_scan_d ref_fmt_la ref_scan_la ref_scan_s
    softmax_hidden_network.
Proof.
  unfold stdio_faithful_on. split; [reflexivity|].
  split; [repeat constructor|]. split; [repeat constructor|].
  repeat constructor; vm_compute; reflexivity.
Qed.

Lemma ref_stdio_faithful_on_sigmoid :
  stdio_faithful_on ref_fmt_d ref_scan_d ref_fmt_la ref_scan_la ref_scan_s
    sigmoid_network.
Proof.
  unfold stdio_faithful_on. split; [reflexivity|].
  split; [repeat constructor|]. split; [repeat constructor|].
  repeat constructor; vm_compute; reflexivity.
Qed.

Lemma createNetwork_structure_witness :
  exists n,
    createNetwork sample_weight sample_bias 2 1 [3] [sigmoid] 2 softmax = Ok n /\
    numLayers n = 3 /\ numConnections n = 2 /\
    layer_is (layers n) 0 INPUT 2 None /\
    layer_is (layers n) 2 OUTPUT 2 (Some softmax).
Proof.
  destruct (createNetwork_structure sample_weight sample_bias 2 1 [3] [sigmoid] 2 softmax)
    as (n & E & HL & HC & _ & _ & Hin & Hout & _);
    [lia|lia|lia|reflexivity|repeat constructor|reflexivity|].
  exists n. rewrite HL in Hout, HC. simpl in Hout, HC.
  split; [exact E|]. split; [exact HL|]. split; [exact HC|]. split; assumption.
Defined.

Lemma createNetwork_aborts_on_bad_sizes_witness :
  createNetwork sample_weight sample_bias 2 1 [0] [sigmoid] 2 softmax = AssertionFailed.
Proof.
  apply (proj1 (createNetwork_aborts_on_bad_sizes sample_weight sample_bias
                  2 1 [0] [sigmoid] 2 softmax
                  (fun _ => conj eq_refl eq_refl))).
  right. right. right. constructor. lia.
Defined.

Lemma forwardPass_shapes_witness :
  exists n' l0 lo,
    forwardPass sample_exp sample_tanh small_network three_rows = Ok n' /\
    array_get (layers n') 0 = Ok l0 /\ l_input l0 = three_rows /\
    array_get (layers n') 2 = Ok lo /\
    Z.of_nat (length (m_data (l_input lo))) = 3 /\
    Forall (fun row => Z.of_nat (length row) = 2) (m_data (l_input lo)).
Proof.
  destruct (forwardPass_shapes sample_exp sample_tanh small_network three_rows)
    as (n' & E & HL & _ & _ & Hout & (l0 & El0 & Hl0) & _);
    [exact small_network_wf|exact three_rows_wf| |].
  - eexists. split; reflexivity.
  - destruct (Hout 2 (Some softmax)) as (lo & Elo & _ & _ & Hr & Hc).
    + eexists. split; [reflexivity|]. repeat split.
    + rewrite HL in Elo. exists n', l0, lo. split; [exact E|].
      split; [exact El0|]. split; [exact Hl0|].
      split; [exact Elo|]. split; [exact Hr|exact Hc].
Defined.

Lemma forwardPass_aborts_iff_witness :
  forwardPass sample_exp sample_tanh small_network one_by_one = AssertionFailed.
Proof.
  apply (proj1 (forwardPass_aborts_iff sample_exp sample_tanh small_network one_by_one
                  (layer_at 2 1 [3] [sigmoid] 2 softmax 0)
                  small_network_wf one_by_one_wf eq_refl)).
  simpl. lia.
Defined.

Lemma predict_argmax_witness :
  exists ps, predict nan_network = Ok ps /\ Z.of_nat (length ps) = 1.
Proof.
  destruct (predict_argmax nan_network
              (mkLayer OUTPUT 2 (Some softmax) (mkMatrix 1 2 [nan_row])))
    as (ps & E & Hlen & _); [reflexivity| |].
  - repeat split; simpl; try lia. repeat constructor.
  - exists ps. split; [exact E|exact Hlen].
Defined.


Lemma crossEntropyLoss_formula_witness :
  exists loss,
    crossEntropyLoss sample_log None half_half first_class 0%float = Ok loss /\
    loss = (mean_log_loss sample_log DBL_MIN half_half first_class
            + 0 * 0.5 * penalty None)%float.
Proof.
  destruct (crossEntropyLoss_formula sample_log None half_half first_class 0%float)
    as (loss & E & Hl & _);
    [exact half_half_wf|exact first_class_wf|reflexivity|reflexivity
    |intros net H; discriminate H|].
  exists loss. split; [exact E|exact Hl].
Defined.

Lemma output_name_written_only_for_softmax_witness :
  (saveNetwork ref_fmt_d ref_fmt_la sigmoid_network
     = Ok (saved_head ref_fmt_d sigmoid_network ++ output_name sigmoid_network
           ++ saved_parameters ref_fmt_la sigmoid_network) /\
   output_name sigmoid_network = []) /\
  exists n' l1 l2,
    readNetwork ref_scan_d ref_scan_la ref_scan_s sample_weight sample_bias
      ["3"; "2"; "3"; "2"; "relu"; "linear"]%string = Ok n' /\
    array_get (layers n') 1 = Ok l1 /\ l_activation l1 = Some relu /\
    array_get (layers n') 2 = Ok l2 /\ l_activation l2 = Some softmax.
Proof.
  destruct (output_name_written_only_for_softmax ref_fmt_d ref_scan_d ref_fmt_la
              ref_scan_la ref_scan_s sample_weight sample_bias sigmoid_network
              sigmoid_network_wf) as (E & _ & Hnone & _ & _ & _ & _ & Hread).
  split; [split; [exact E|apply Hnone; discriminate]|].
  destruct (Hread "3"%string ["2"; "3"; "2"]%string ["relu"; "linear"]%string []
              [2; 3; 2] ["relu"; "linear"]%string) as (n' & En' & Hact).
  - repeat constructor.
  - reflexivity.
  - simpl. lia.
  - repeat constructor.
  - repeat constructor.
  - reflexivity.
  - repeat constructor.
  - destruct (Hact 0) as (l1 & E1 & A1); [simpl; lia|].
    destruct (Hact 1) as (l2 & E2 & A2); [simpl; lia|].
    exists n', l1, l2. split; [exact En'|].
    split; [exact E1|]. split; [exact A1|]. split; [exact E2|exact A2].
Defined.

Lemma hidden_activation_saved_as_tanH_witness :
  exists content n' l',
    saveNetwork ref_fmt_d ref_fmt_la softmax_hidden_network = Ok content /\
    array_get content 4 = Ok "tanH"%string /\
    readNetwork ref_scan_d ref_scan_la ref_scan_s sample_weight sample_bias content
      = Ok n' /\
    array_get (layers n') 1 = Ok l' /\
    l_activation l' = Some tanH.
Proof.
  destruct (hidden_activation_saved_as_tanH ref_fmt_d ref_scan_d ref_fmt_la
              ref_scan_la ref_scan_s sample_weight sample_bias
              softmax_hidden_network 1
              (mkLayer HIDDEN 1 (Some softmax) (createMatrixZeroes 1 1)) softmax)
    as (content & n' & l' & E1 & E2 & E3 & E4 & E5 & _);
    [exact softmax_hidden_network_wf|exact ref_stdio_faithful_on_softmax_hidden
    |simpl; lia|reflexivity|reflexivity|discriminate|discriminate|].
  exists content, n', l'. repeat split; assumption.
Defined.

Lemma ref_stdio_faithful_on_small :
  stdio_faithful_on ref_fmt_d ref_scan_d ref_fmt_la ref_scan_la ref_scan_s
    small_network.
Proof.
  unfold stdio_faithful_on. split; [reflexivity|].
  split; [repeat constructor|]. split; [repeat constructor|].
  repeat constructor; vm_compute; reflexivity.
Qed.

(** A network of two features and one class whose weights have diverged. *)
Lemma diverged_network_wf :
  wfNetwork (two_to_one (fun _ _ _ => nan) sample_bias).
Proof. apply built_wf; try lia; [reflexivity|constructor]. Qed.

Lemma two_to_one_wf : wfNetwork (two_to_one sample_weight sample_bias).
Proof. apply built_wf; try lia; [reflexivity|constructor]. Qed.

Lemma forwardPass_forgets_earlier_batch_witness :
  exists n1,
    forwardPass sample_exp sample_tanh small_network one_row = Ok n1 /\
    forwardPass sample_exp sample_tanh n1 one_row = Ok n1.
Proof.
  destruct (forwardPass_spec sample_exp sample_tanh small_network one_row
              (layer_at 2 1 [3] [sigmoid] 2 softmax 0)
              small_network_wf one_row_wf eq_refl eq_refl) as (ls & E & _).
  destruct (forwardPass_forgets_earlier_batch sample_exp sample_tanh small_network _
              one_row small_network_wf one_row_wf E) as (_ & H).
  eexists. split; [exact E|exact H].
Defined.

Lemma forwardPass_keeps_network_witness :
  exists n',
    forwardPass sample_exp sample_tanh small_network one_row = Ok n' /\
    wfNetwork n' /\ connections n' = connections small_network.
Proof.
  destruct (forwardPass_spec sample_exp sample_tanh small_network one_row
              (layer_at 2 1 [3] [sigmoid] 2 softmax 0)
              small_network_wf one_row_wf eq_refl eq_refl) as (ls & E & _).
  destruct (forwardPass_keeps_network sample_exp sample_tanh small_network _
              one_row small_network_wf one_row_wf E) as (W & _ & _ & Hc & _).
  eexists. split; [exact E|]. split; [exact W|exact Hc].
Defined.

Lemma predict_after_forwardPass_witness :
  exists n' ps,
    forwardPass sample_exp sample_tanh small_network one_row = Ok n' /\
    predict n' = Ok ps /\ Z.of_nat (length ps) = 1 /\
    Forall (fun p => 0 <= p < 2) ps.
Proof.
  exact (predict_after_forwardPass sample_exp sample_tanh small_network one_row
           (layer_at 2 1 [3] [sigmoid] 2 softmax 0)
           (layer_at 2 1 [3] [sigmoid] 2 softmax 2)
           small_network_wf one_row_wf eq_refl eq_refl eq_refl).
Defined.

Lemma accuracy_needs_equal_ends_witness :
  accuracy sample_exp sample_tanh (two_to_one sample_weight sample_bias)
    one_by_one one_by_one = AssertionFailed.
Proof.
  apply (accuracy_needs_equal_ends sample_exp sample_tanh
           (two_to_one sample_weight sample_bias) one_by_one one_by_one
           (layer_at 2 0 [] [] 1 softmax 0) (layer_at 2 0 [] [] 1 softmax 1)
           two_to_one_wf eq_refl eq_refl).
  simpl. lia.
Defined.

Lemma crossEntropyLoss_aborts_iff_witness :
  crossEntropyLoss sample_log None half_half one_by_one 0%float = AssertionFailed.
Proof.
  apply (proj1 (crossEntropyLoss_aborts_iff sample_log None half_half one_by_one 0%float
                  half_half_wf one_by_one_wf (fun net H => ltac:(discriminate H)))).
  right. simpl. lia.
Defined.

Lemma crossEntropyLoss_nan_weight_witness :
  crossEntropyLoss sample_log (Some (two_to_one (fun _ _ _ => nan) sample_bias))
    half_half first_class 0.5%float = Ok nan.
Proof.
  apply (crossEntropyLoss_nan_weight sample_log
           (two_to_one (fun _ _ _ => nan) sample_bias) half_half first_class 0.5%float
           half_half_wf first_class_wf eq_refl eq_refl diverged_network_wf).
  apply Exists_cons_hd. reflexivity.
Defined.

Lemma saveNetwork_line_count_witness :
  exists content,
    saveNetwork ref_fmt_d ref_fmt_la small_network = Ok content /\
    Z.of_nat (length content) = 23.
Proof.
  destruct (saveNetwork_line_count ref_fmt_d ref_fmt_la small_network small_network_wf)
    as (content & E & H).
  exists content. split; [exact E|]. rewrite H. reflexivity.
Defined.

Lemma saveNetwork_after_forwardPass_witness :
  exists n' content,
    forwardPass sample_exp sample_tanh small_network one_row = Ok n' /\
    saveNetwork ref_fmt_d ref_fmt_la small_network = Ok content /\
    saveNetwork ref_fmt_d ref_fmt_la n' = Ok content.
Proof.
  destruct (forwardPass_spec sample_exp sample_tanh small_network one_row
              (layer_at 2 1 [3] [sigmoid] 2 softmax 0)
              small_network_wf one_row_wf eq_refl eq_refl) as (ls & E & _).
  destruct (saveNetwork_after_forwardPass sample_exp sample_tanh ref_fmt_d ref_fmt_la
              small_network _ one_row small_network_wf one_row_wf E)
    as (content & E1 & E2).
  eexists _, content. split; [exact E|]. split; [exact E1|exact E2].
Defined.

Lemma readNetwork_unread_parameters_witness :
  exists n,
    createNetwork sample_weight sample_bias 1 0 [] [] 1 softmax = Ok n /\
    readNetwork ref_scan_d ref_scan_la ref_scan_s sample_weight sample_bias
      ["2"; "1"; "1"; "softmax"; "end of file"]%string = Ok n.
Proof.
  apply (readNetwork_unread_parameters ref_scan_d ref_scan_la ref_scan_s
           sample_weight sample_bias "2"%string ["1"; "1"]%string ["softmax"%string]
           ["end of file"%string] [1; 1] ["softmax"%string]).
  - reflexivity.
  - simpl. lia.
  - repeat constructor.
  - repeat constructor.
  - reflexivity.
  - repeat constructor.
  - repeat constructor.
  - reflexivity.
  - repeat constructor.
Defined.

Lemma readNetwork_needs_layer_count_witness :
  readNetwork ref_scan_d ref_scan_la ref_scan_s sample_weight sample_bias
    ["1"; "5"]%string = Undefined.
Proof.
  apply readNetwork_needs_layer_count.
  - repeat constructor.
  - intros L H. vm_compute in H. injection H as <-. lia.
Defined.

Lemma readNetwork_rejects_bad_size_witness :
  readNetwork ref_scan_d ref_scan_la ref_scan_s sample_weight sample_bias
    ["2"; "0"; "1"; "softmax"; "0x1p+0"; "0x1p+0"]%string = AssertionFailed.
Proof.
  apply (readNetwork_rejects_bad_size ref_scan_d ref_scan_la ref_scan_s
           sample_weight sample_bias "2"%string ["0"; "1"]%string ["softmax"%string]
           ["0x1p+0"; "0x1p+0"]%string [0; 1] ["softmax"%string]).
  - reflexivity.
  - simpl. lia.
  - repeat constructor.
  - reflexivity.
  - repeat constructor.
  - repeat constructor.
  - apply Exists_cons_hd. lia.
Defined.

Lemma save_read_round_trip_witness :
  exists content n',
    saveNetwork ref_fmt_d ref_fmt_la small_network = Ok content /\
    readNetwork ref_scan_d ref_scan_la ref_scan_s sample_weight sample_bias content
      = Ok n' /\
    connections n' = connections small_network.
Proof.
  destruct (save_read_round_trip ref_fmt_d ref_scan_d ref_fmt_la ref_scan_la
              ref_scan_s sample_weight sample_bias small_network
              small_network_wf ref_stdio_faithful_on_small eq_refl)
    as (content & n' & E1 & E2 & _ & _ & _ & Hc & _).
  - repeat constructor.
  - exists content, n'. split; [exact E1|]. split; [exact E2|exact Hc].
Defined.

Lemma round_trip_keeps_architecture_witness :
  exists content n',
    saveNetwork ref_fmt_d ref_fmt_la sigmoid_network = Ok content /\
    readNetwork ref_scan_d ref_scan_la ref_scan_s sample_weight sample_bias content
      = Ok n' /\
    numLayers n' = 2.
Proof.
  destruct (round_trip_keeps_architecture ref_fmt_d ref_scan_d ref_fmt_la ref_scan_la
              ref_scan_s sample_weight sample_bias sigmoid_network
              sigmoid_network_wf ref_stdio_faithful_on_sigmoid)
    as (content & n' & E1 & E2 & HL & _).
  exists content, n'. split; [exact E1|]. split; [exact E2|exact HL].
Defined.

Lemma fresh_network_round_trip_witness :
  exists n content,
    createNetwork sample_weight sample_bias 2 1 [3] [sigmoid] 2 softmax = Ok n /\
    saveNetwork ref_fmt_d ref_fmt_la n = Ok content /\
    readNetwork ref_scan_d ref_scan_la ref_scan_s
      (fun _ _ _ => 1%float) (fun _ _ => 1%float) content = Ok n.
Proof.
  apply (fresh_network_round_trip ref_fmt_d ref_scan_d ref_fmt_la ref_scan_la ref_scan_s
           sample_weight sample_bias (fun _ _ _ => 1%float) (fun _ _ => 1%float)
           2 1 [3] [sigmoid] 2).
  - lia.
  - lia.
  - lia.
  - reflexivity.
  - repeat constructor.
  - reflexivity.
  - repeat constructor.
  - intros n E. rewrite createNetwork_built in E.
    + injection E as <-. exact ref_stdio_faithful_on_small.
    + lia.
    + lia.
    + lia.
    + reflexivity.
    + reflexivity.
    + intros k Hk. replace k with 0 by lia. simpl. lia.
Defined.

Lemma createNetwork_reads_prefix_witness :
  createNetwork sample_weight sample_bias 2 1 [3; 7] [sigmoid; relu] 2 softmax
  = createNetwork sample_weight sample_bias 2 1 [3] [sigmoid] 2 softmax.
Proof.
  exact (createNetwork_reads_prefix sample_weight sample_bias 2 1 [3] [sigmoid] 2 softmax
           [7] [relu] eq_refl eq_refl).
Defined.

Lemma loss_after_forwardPass_witness :
  exists n' lo' loss,
    forwardPass sample_exp sample_tanh square_network one_row = Ok n' /\
    array_get (layers n') 1 = Ok lo' /\
    crossEntropyLoss sample_log (Some n') (l_input lo') first_class 0.5%float = Ok loss.
Proof.
  destruct (loss_after_forwardPass sample_exp sample_tanh sample_log square_network
              one_row first_class
              (layer_at 2 0 [] [] 2 softmax 0) (layer_at 2 0 [] [] 2 softmax 1) 0.5%float
              square_network_wf one_row_wf first_class_wf
              eq_refl eq_refl eq_refl eq_refl eq_refl)
    as (n' & lo' & E & Elo & Eloss).
  assert (HL : numLayers n' = 2).
  { destruct (forwardPass_result sample_exp sample_tanh square_network n' one_row
                square_network_wf one_row_wf E) as (ls & l0 & -> & _). reflexivity. }
  rewrite HL in Elo.
  exists n', lo'. eexists. split; [exact E|]. split; [exact Elo|exact Eloss].
Defined.

Lemma output_activation_read_back_as_softmax_witness :
  exists content n',
    saveNetwork ref_fmt_d ref_fmt_la sigmoid_network = Ok content /\
    readNetwork ref_scan_d ref_scan_la ref_scan_s sample_weight sample_bias content
      = Ok n' /\
    output_activation n' = Some softmax.
Proof.
  destruct (output_activation_read_back_as_softmax ref_fmt_d ref_scan_d ref_fmt_la
              ref_scan_la ref_scan_s sample_weight sample_bias sigmoid_network sigmoid
              sigmoid_network_wf ref_stdio_faithful_on_sigmoid eq_refl)
    as (content & n' & E1 & E2 & H & _).
  - discriminate.
  - repeat constructor; discriminate.
  - exists content, n'. split; [exact E1|]. split; [exact E2|exact H].
Defined.

Lemma all_ones_wf : wfMatrix all_ones.
Proof. repeat split; simpl; try lia. repeat constructor. Qed.

Lemma three_ones_wf : wfMatrix three_ones.
Proof. repeat split; simpl; try lia. repeat constructor. Qed.

Lemma accuracy_unchecked_targets_witness :
  exists n',
    accuracy sample_exp sample_tanh square_network three_rows three_ones
    = Ok (n', 1%float).
Proof.
  apply (proj1 (accuracy_unchecked_targets sample_exp sample_tanh square_network
                  three_rows three_ones
                  (layer_at 2 0 [] [] 2 softmax 0) (layer_at 2 0 [] [] 2 softmax 1)
                  square_network_wf three_rows_wf three_ones_wf
                  eq_refl eq_refl eq_refl eq_refl eq_refl ltac:(simpl; lia)
                  ltac:(reflexivity))).
  repeat constructor.
Defined.

Lemma saved_file_is_stable_witness :
  exists content n' l1,
    saveNetwork ref_fmt_d ref_fmt_la softmax_hidden_network = Ok content /\
    readNetwork ref_scan_d ref_scan_la ref_scan_s sample_weight sample_bias content
      = Ok n' /\
    array_get (layers n') 1 = Ok l1 /\ l_activation l1 = Some tanH /\
    connections n' = connections softmax_hidden_network /\
    saveNetwork ref_fmt_d ref_fmt_la n' = Ok content.
Proof.
  destruct (saved_file_is_stable ref_fmt_d ref_scan_d ref_fmt_la ref_scan_la ref_scan_s
              sample_weight sample_bias softmax_hidden_network
              softmax_hidden_network_wf ref_stdio_faithful_on_softmax_hidden eq_refl)
    as (content & n' & E1 & E2 & _ & Hc & Hl & E3).
  destruct (Hl 1 _ eq_refl) as (l1 & El1 & _ & _ & _ & Ha & _).
  exists content, n', l1. split; [exact E1|]. split; [exact E2|].
  split; [exact El1|]. split; [apply Ha; simpl; lia|]. split; [exact Hc|exact E3].
Defined.
